(** * City import scripts: a shallow embedding

    The scripts under [scripts/] read a spreadsheet of cities with pandas,
    normalise each row, map the country to a region and insert the result
    into the PostgreSQL table [cities].  This development embeds

    - [scripts/batch-import-cities.py]  ([map_regions], [process_batch], [main]),
    - [scripts/continue-import.py]      (module-level batch loop),
    - [scripts/massive-import.py]       (module-level batch loop),
    - [scripts/import-cities.py]        ([create_cities_table], [import_cities_data]),

    and proves the properties of the pipeline against these definitions.

    Conventions.  A Python [str] is a [string] whose characters are the code
    points below 256.  Python exceptions are values of [exn]; a computation
    that may raise, or leave the loop body with [continue], lives in the
    monad [step].  The builtins on floating-point numbers ([float(s)],
    [int(x)], [str(x)]) are an interface, [PyFloat]; the pipeline is
    parametric in it, and [Dec] gives a decimal instance to run examples.
    The columns [created_at] and [updated_at] of a stored row are filled by
    [NOW()] and are not part of the model. *)

From stdpp Require Import gmap strings list.
From Stdlib Require Import ZArith Ascii String DecimalString.

Local Open Scope string_scope.
Local Open Scope Z_scope.
Local Open Scope list_scope.

(** ** Python values and control flow *)

Module Py.

Inductive exn : Set :=
  | KeyError | IndexError | ValueError | TypeError | OverflowError | DatabaseError.

Definition exn_eqb (a b : exn) : bool :=
  match a, b with
  | KeyError, KeyError | IndexError, IndexError | ValueError, ValueError
  | TypeError, TypeError | OverflowError, OverflowError
  | DatabaseError, DatabaseError => true
  | _, _ => false
  end.

(** The outcome of a piece of a loop body: a value, a [continue], or a
    raised exception. *)
Inductive step (A : Type) : Type :=
  | Val (a : A)
  | Continue
  | Raise (e : exn).
Arguments Val {A} a.
Arguments Continue {A}.
Arguments Raise {A} e.

Definition step_bind {A B : Type} (f : A → step B) (m : step A) : step B :=
  match m with
  | Val a => f a
  | Continue => Continue
  | Raise e => Raise e
  end.

#[export] Instance step_mret : MRet step := @Val.
#[export] Instance step_mbind : MBind step := @step_bind.

(** [try: body except (e1, e2, ...): handler] -- only the listed exceptions
    are handled; a [continue] inside [body] leaves the loop body. *)
Definition try_except {A : Type} (body : step A) (caught : list exn)
    (handler : step A) : step A :=
  match body with
  | Raise e => if existsb (exn_eqb e) caught then handler else Raise e
  | other => other
  end.

(** *** Strings *)

(** [str.isspace] on the code points below 256. *)
Definition isspace (c : ascii) : bool :=
  let n := nat_of_ascii c in
  (Nat.leb 9 n && Nat.leb n 13) || (Nat.leb 28 n && Nat.leb n 32)
  || Nat.eqb n 133 || Nat.eqb n 160.

Fixpoint lstrip (s : string) : string :=
  match s with
  | String c s' => if isspace c then lstrip s' else s
  | EmptyString => EmptyString
  end.

Fixpoint rstrip (s : string) : string :=
  match s with
  | EmptyString => EmptyString
  | String c s' =>
      match rstrip s' with
      | EmptyString => if isspace c then EmptyString else String c EmptyString
      | r => String c r
      end
  end.

(** [s.strip()] *)
Definition strip (s : string) : string := rstrip (lstrip s).

(** [c in s] for a one-character [c]. *)
Fixpoint str_contains (c : ascii) (s : string) : bool :=
  match s with
  | EmptyString => false
  | String d s' => if Ascii.eqb d c then true else str_contains c s'
  end.

(** [s.split(c, 1)]: at most one split, at the first [c]. *)
Fixpoint split1 (c : ascii) (s : string) : list string :=
  match s with
  | EmptyString => [EmptyString]
  | String d s' =>
      if Ascii.eqb d c then [EmptyString; s']
      else match split1 c s' with
           | hd :: tl => String d hd :: tl
           | [] => [String d EmptyString]
           end
  end.

(** [a, b = l]: unpacking raises [ValueError] unless [l] has two items. *)
Definition unpack2 {A : Type} (l : list A) : step (A * A) :=
  match l with
  | [a; b] => Val (a, b)
  | _ => Raise ValueError
  end.

(** [l[i]] on a Python list. *)
Definition list_item {A : Type} (l : list A) (i : nat) : step A :=
  match l !! i with
  | Some a => Val a
  | None => Raise IndexError
  end.

(** Truthiness of an optional string ([None] and [''] are false) and of an
    optional integer ([None] and [0] are false). *)
Definition truthy_str (s : option string) : bool :=
  match s with
  | Some (String _ _) => true
  | _ => false
  end.

Definition truthy_int (n : option Z) : bool :=
  match n with
  | Some z => negb (z =? 0)
  | None => false
  end.

(** *** Floating-point builtins *)

Class PyFloat : Type := {
  float : Type;
  (** [float(s)] on a string; [None] stands for [ValueError]. *)
  float_of_str : string → option float;
  (** [int(x)]: truncation; [ValueError] on nan, [OverflowError] on an
      infinity. *)
  int_of_float : float → step Z;
  (** [str(x)] *)
  str_of_float : float → string;
  (** [float('nan')] *)
  float_nan : float;
  (** [lo <= x <= hi] for integer bounds. *)
  float_between : Z → Z → float → bool;
}.

(** *** Spreadsheet cells and rows *)

Section Cells.
Context `{PF : PyFloat}.

(** A cell of the data frame: a missing value (NaN), a string, a number, or
    another object (a timestamp, say) known by its [str()]. *)
Inductive cell : Type :=
  | CNaN
  | CStr (s : string)
  | CNum (x : float)
  | CObj (repr : string).

(** [pd.notna(v)] and [pd.isna(v)] *)
Definition notna (v : cell) : bool :=
  match v with CNaN => false | _ => true end.

Definition isna (v : cell) : bool := negb (notna v).

(** [str(v)] *)
Definition str_of_cell (v : cell) : string :=
  match v with
  | CNaN => "nan"
  | CStr s => s
  | CNum x => str_of_float x
  | CObj repr => repr
  end.

(** [float(v)] *)
Definition float_of_cell (v : cell) : step float :=
  match v with
  | CNaN => Val float_nan
  | CStr s => match float_of_str s with
              | Some x => Val x
              | None => Raise ValueError
              end
  | CNum x => Val x
  | CObj _ => Raise TypeError
  end.

(** [int(float(v))] *)
Definition int_float (v : cell) : step Z :=
  x ← float_of_cell v; int_of_float x.

(** A row of the data frame: the cells by column label, in column order
    (labels are distinct). *)
Definition RawRecord : Type := list (string * cell).

Fixpoint assoc (k : string) (row : RawRecord) : option cell :=
  match row with
  | [] => None
  | (k', v) :: rest => if String.eqb k' k then Some v else assoc k rest
  end.

(** [row[k]] *)
Definition getitem (row : RawRecord) (k : string) : step cell :=
  match assoc k row with
  | Some v => Val v
  | None => Raise KeyError
  end.

(** [row.get(k, default)] *)
Definition get (row : RawRecord) (k : string) (dflt : cell) : cell :=
  match assoc k row with
  | Some v => v
  | None => dflt
  end.

(** [row.iloc[i]] *)
Definition iloc (row : RawRecord) (i : nat) : step cell :=
  match row !! i with
  | Some (_, v) => Val v
  | None => Raise IndexError
  end.

(** [str(row[col]).strip() if pd.notna(row[col]) else None], the expression
    every batch script reads its two text columns with. *)
Definition text_column (row : RawRecord) (col : string) : step (option string) :=
  v ← getitem row col;
  mret (if notna v then Some (strip (str_of_cell v)) else None).

End Cells.

(** *** Statements that assign local variables

    A block of statements over a store [S] of local variables: it yields
    the store as the block left it, also when the block raised. *)
Definition prog (S A : Type) : Type := S → step A * S.

Definition prog_bind {S A B : Type} (f : A → prog S B) (m : prog S A)
    : prog S B :=
  λ s, match m s with
       | (Val a, s') => f a s'
       | (Continue, s') => (Continue, s')
       | (Raise e, s') => (Raise e, s')
       end.

#[export] Instance prog_mret {S} : MRet (prog S) := λ A a s, (Val a, s).
#[export] Instance prog_mbind {S} : MBind (prog S) := @prog_bind S.

(** An expression evaluated inside a block. *)
Definition lift {S A : Type} (m : step A) : prog S A := λ s, (m, s).

(** An assignment to the variables of the store. *)
Definition assign {S : Type} (f : S → S) : prog S unit := λ s, (Val tt, f s).

(** [try: block except: handler], where [handler] is [pass] ([Val tt]) or
    [continue]: the variables keep what the block assigned before it
    raised. *)
Definition try_block {S : Type} (block : prog S unit) (handler : step unit)
    (s : S) : step S :=
  match block s with
  | (Val _, s') => Val s'
  | (Continue, _) => Continue
  | (Raise _, s') => _ ← handler; Val s'
  end.

(** [range(start, stop, step)] for a positive [step]. *)
Definition py_range (start stop stp : Z) : list Z :=
  map (λ k, start + Z.of_nat k * stp)
      (seq 0 (Z.to_nat ((stop - start + (stp - 1)) / stp))).

(** A slice bound as Python reads it: a negative bound counts from the end,
    and bounds are clipped to the length. *)
Definition slice_bound (len i : Z) : nat :=
  Z.to_nat (if i <? 0 then Z.max 0 (len + i) else Z.min i len).

(** [df.iloc[i:j]] *)
Definition slice {A : Type} (df : list A) (i j : Z) : list A :=
  let len := Z.of_nat (List.length df) in
  let a := slice_bound len i in
  let b := slice_bound len j in
  take (b - a) (drop a df).

End Py.

(** ** The sink: table [cities] behind a psycopg2 connection *)

Module Db.
Import Py.

Section Sink.
Context `{PF : PyFloat}.

(** The tuple the scripts pass to [executemany]:
    [(name, country, region, population, latitude, longitude, timezone,
    is_capital)]. *)
Record city_tuple : Type := CityTuple {
  name : string;
  country : string;
  region : string;
  population : option Z;
  latitude : option float;
  longitude : option float;
  timezone : option string;
  is_capital : bool;
}.

(** A row of [cities] as declared by [create_cities_table]: [id SERIAL
    PRIMARY KEY] and the inserted columns.  The primary key is the only
    uniqueness constraint of the table. *)
Record StoredRow : Type := Stored {
  id : Z;
  fields : city_tuple;
}.

(** The database: the committed rows and the sequence behind [id]. *)
Record database : Type := Database {
  table : list StoredRow;
  next_id : Z;
}.

(** An open connection (autocommit off): the rows as committed, the rows as
    the open transaction sees them, and the sequence, which a rollback does
    not rewind. *)
Record connection : Type := Connection {
  committed : list StoredRow;
  working : list StoredRow;
  cities_id_seq : Z;
}.

Definition connect (db : database) : connection :=
  {| committed := table db; working := table db; cities_id_seq := next_id db |}.

(** [conn.commit()] *)
Definition commit (c : connection) : connection :=
  {| committed := working c; working := working c;
     cities_id_seq := cities_id_seq c |}.

(** Closing the connection, or losing it when the process exits, rolls the
    open transaction back. *)
Definition close (c : connection) : database :=
  {| table := committed c; next_id := cities_id_seq c |}.

(** The outcome of a statement: the connection afterwards, and whether the
    statement raised. *)
Inductive outcome (A : Type) : Type :=
  | Ok (a : A) (c : connection)
  | Err (e : exn) (c : connection).
Arguments Ok {A} a c.
Arguments Err {A} e c.

(** [population INTEGER]: a four-byte integer. *)
Definition int4_ok (p : option Z) : bool :=
  match p with
  | Some z => (-2147483648 <=? z) && (z <=? 2147483647)
  | None => true
  end.

Definition id_taken (i : Z) (rows : list StoredRow) : bool :=
  existsb (λ r, id r =? i) rows.

(** [INSERT INTO cities (name, ..., is_capital) VALUES (...)], with or
    without [ON CONFLICT DO NOTHING].  The value of [population] must fit
    the column; [id] is drawn from the sequence; a row whose [id] is already
    stored violates the primary key, which [ON CONFLICT DO NOTHING] turns
    into skipping the row. *)
Definition insert (on_conflict_do_nothing : bool) (t : city_tuple)
    (c : connection) : outcome unit :=
  if negb (int4_ok (population t)) then Err DatabaseError c
  else
    let i := cities_id_seq c in
    let c' := {| committed := committed c; working := working c;
                 cities_id_seq := i + 1 |} in
    if id_taken i (working c) then
      if on_conflict_do_nothing then Ok tt c' else Err DatabaseError c'
    else
      Ok tt {| committed := committed c;
               working := working c ++ [Stored i t];
               cities_id_seq := i + 1 |}.

(** [cursor.executemany(insert_sql, cities_data)] *)
Fixpoint executemany (on_conflict_do_nothing : bool)
    (cities_data : list city_tuple) (c : connection) : outcome unit :=
  match cities_data with
  | [] => Ok tt c
  | t :: rest =>
      match insert on_conflict_do_nothing t c with
      | Ok _ c' => executemany on_conflict_do_nothing rest c'
      | Err e c' => Err e c'
      end
  end.

(** [DELETE FROM cities] *)
Definition delete_all (c : connection) : connection :=
  {| committed := committed c; working := [];
     cities_id_seq := cities_id_seq c |}.

(** The condition [population > 0]; it is not true of a NULL. *)
Definition population_gt_0 (r : StoredRow) : bool :=
  match population (fields r) with
  | Some z => 0 <? z
  | None => false
  end.

(** [DELETE FROM cities WHERE population > 0] *)
Definition delete_where_population_gt_0 (c : connection) : connection :=
  {| committed := committed c;
     working := List.filter (λ r, negb (population_gt_0 r)) (working c);
     cities_id_seq := cities_id_seq c |}.

(** [if cities_data: cursor.executemany(insert_sql, cities_data);
    conn.commit()] with the [ON CONFLICT DO NOTHING] statement. *)
Definition insert_batch (cities_data : list city_tuple) (conn : connection)
    : outcome unit :=
  match cities_data with
  | [] => Ok tt conn
  | _ :: _ =>
      match executemany true cities_data conn with
      | Ok _ c => Ok tt (commit c)
      | Err e c => Err e c
      end
  end.

(** [SELECT COUNT( * ) FROM cities] *)
Definition count (c : connection) : nat := List.length (working c).

(** How a script ends: it ran to its end, or an exception ended it; either
    way the database is what was committed. *)
Inductive run_result : Type :=
  | Completed (db : database)
  | Aborted (db : database).

Definition final_db (r : run_result) : database :=
  match r with Completed db | Aborted db => db end.

(** Every stored [id] was drawn from the sequence. *)
Definition ids_below_seq (c : connection) : Prop :=
  Forall (λ r, id r < cities_id_seq c) (working c).

(** The rows that [n] successive inserts store, numbered from [i]. *)
Fixpoint number_rows (i : Z) (data : list city_tuple) : list StoredRow :=
  match data with
  | [] => []
  | t :: rest => Stored i t :: number_rows (i + 1) rest
  end.

End Sink.

Arguments city_tuple {PF}.
Arguments StoredRow {PF}.
Arguments database {PF}.
Arguments connection {PF}.
Arguments run_result {PF}.
Arguments outcome {PF} A.
Arguments Ok {PF A} a c.
Arguments Err {PF A} e c.

End Db.

(** ** Python dictionaries with string keys *)

(** A dictionary display [{k1: v1, k2: v2, ...}]: the items are inserted
    from left to right, a later item replacing an earlier one with the same
    key. *)
Definition dict_of (items : list (string * string)) : gmap string string :=
  foldl (λ m kv, <[kv.1 := kv.2]> m) ∅ items.

(** [d.get(k, default)] *)
Definition dict_get (d : gmap string string) (k dflt : string) : string :=
  match d !! k with
  | Some v => v
  | None => dflt
  end.

(** ** [scripts/batch-import-cities.py] *)

Module BatchImport.
Import Py Db.

(** The dictionary display of [map_regions], in source order. *)
Definition region_items : list (string * string) :=
  [("Germany", "Europe"); ("France", "Europe"); ("Italy", "Europe");
   ("Spain", "Europe"); ("United Kingdom", "Europe"); ("Poland", "Europe");
   ("Romania", "Europe"); ("Netherlands", "Europe"); ("Belgium", "Europe");
   ("Greece", "Europe"); ("Portugal", "Europe"); ("Czech Republic", "Europe");
   ("Hungary", "Europe"); ("Sweden", "Europe"); ("Austria", "Europe");
   ("Bulgaria", "Europe"); ("Croatia", "Europe"); ("Denmark", "Europe");
   ("Finland", "Europe"); ("Slovakia", "Europe"); ("Norway", "Europe");
   ("Ireland", "Europe"); ("Lithuania", "Europe"); ("Slovenia", "Europe");
   ("Latvia", "Europe"); ("Estonia", "Europe"); ("Malta", "Europe");
   ("Luxembourg", "Europe"); ("Switzerland", "Europe"); ("Iceland", "Europe");
   ("Albania", "Europe"); ("Serbia", "Europe");
   ("United States", "North America"); ("Canada", "North America");
   ("Mexico", "North America"); ("Guatemala", "North America");
   ("Cuba", "North America"); ("Haiti", "North America");
   ("Dominican Republic", "North America"); ("Honduras", "North America");
   ("Nicaragua", "North America"); ("Costa Rica", "North America");
   ("Panama", "North America"); ("Jamaica", "North America");
   ("China", "Asia"); ("India", "Asia"); ("Japan", "Asia");
   ("South Korea", "Asia"); ("Indonesia", "Asia"); ("Pakistan", "Asia");
   ("Bangladesh", "Asia"); ("Philippines", "Asia"); ("Vietnam", "Asia");
   ("Turkey", "Asia"); ("Iran", "Asia"); ("Iraq", "Asia");
   ("Thailand", "Asia"); ("Myanmar", "Asia"); ("South Korea", "Asia");
   ("North Korea", "Asia"); ("Afghanistan", "Asia"); ("Saudi Arabia", "Asia");
   ("Malaysia", "Asia"); ("Syria", "Asia"); ("Sri Lanka", "Asia");
   ("Cambodia", "Asia"); ("Jordan", "Asia"); ("Azerbaijan", "Asia");
   ("Nigeria", "Africa"); ("Ethiopia", "Africa"); ("Egypt", "Africa");
   ("South Africa", "Africa"); ("Kenya", "Africa"); ("Tanzania", "Africa");
   ("Algeria", "Africa"); ("Morocco", "Africa"); ("Angola", "Africa");
   ("Ghana", "Africa"); ("Mozambique", "Africa"); ("Madagascar", "Africa");
   ("Cameroon", "Africa"); ("Ivory Coast", "Africa"); ("Niger", "Africa");
   ("Burkina Faso", "Africa"); ("Mali", "Africa"); ("Malawi", "Africa");
   ("Zambia", "Africa"); ("Senegal", "Africa"); ("Brazil", "South America");
   ("Argentina", "South America"); ("Colombia", "South America");
   ("Peru", "South America"); ("Venezuela", "South America");
   ("Chile", "South America"); ("Ecuador", "South America");
   ("Bolivia", "South America"); ("Paraguay", "South America");
   ("Uruguay", "South America"); ("Guyana", "South America");
   ("Suriname", "South America"); ("Australia", "Oceania");
   ("Papua New Guinea", "Oceania"); ("New Zealand", "Oceania");
   ("Fiji", "Oceania"); ("Solomon Islands", "Oceania");
   ("Vanuatu", "Oceania")].

Definition region_mapping : gmap string string := dict_of region_items.

(** [map_regions(country)] *)
Definition map_regions (country : string) : string :=
  dict_get region_mapping country "Other".

Section Pipeline.
Context `{PF : PyFloat}.

(** Lines 101-108: the population. *)
Definition parse_population (row : RawRecord) : step (option Z) :=
  v ← getitem row "Population";
  if notna v then
    try_except (z ← int_float v; mret (Some z))
               [ValueError; TypeError] (mret None)
  else mret None.

(** Lines 110-126: the coordinates, from the column ["Coordinates"] in the
    format ["lat,lng"]. *)
Definition parse_coordinates (row : RawRecord)
    : step (option float * option float) :=
  v ← getitem row "Coordinates";
  if notna v then
    try_except
      (let coords := strip (str_of_cell v) in
       if str_contains "," coords then
         '(lat_str, lng_str) ← unpack2 (split1 "," coords);
         latitude ← float_of_cell (CStr (strip lat_str));
         longitude ← float_of_cell (CStr (strip lng_str));
         mret (Some latitude, Some longitude)
       else mret (None, None))
      [ValueError; TypeError] (mret (None, None))
  else mret (None, None).

(** [population and population < 1000] *)
Definition small_city (population : option Z) : bool :=
  truthy_int population
  && match population with Some z => z <? 1000 | None => false end.

(** The body of the [try] in the row loop of [process_batch] (lines 90-150):
    the tuple appended to [cities_data], a [continue] (each one follows a
    [skipped += 1]), or an exception. *)
Definition process_row (row : RawRecord) : step city_tuple :=
  city_name ← text_column row "Name";
  country ← text_column row "Country name EN";
  population ← parse_population row;
  '(latitude, longitude) ← parse_coordinates row;
  if negb (truthy_str city_name) || negb (truthy_str country) then Continue
  else if small_city population then Continue
  else
    let country := default "" country in
    mret {| name := default "" city_name; country := country;
            region := map_regions country; population := population;
            latitude := latitude; longitude := longitude;
            timezone := None; is_capital := false |}.

(** One turn of [for _, row in df_batch.iterrows()], on the triple
    [(cities_data, processed, skipped)]; [except Exception] counts the row
    as skipped. *)
Definition row_turn (acc : list city_tuple * nat * nat) (row : RawRecord)
    : list city_tuple * nat * nat :=
  let '(cities_data, processed, skipped) := acc in
  match process_row row with
  | Val t => (cities_data ++ [t], S processed, skipped)
  | Continue => (cities_data, processed, S skipped)
  | Raise _ => (cities_data, processed, S skipped)
  end.

Definition collect (df_batch : list RawRecord) : list city_tuple * nat * nat :=
  foldl row_turn ([], 0%nat, 0%nat) df_batch.

(** [process_batch(conn, df_batch, batch_num)]: the pair
    [(processed, skipped)] it returns, or the exception of the insert. *)
Definition process_batch (conn : connection) (df_batch : list RawRecord)
    (batch_num : Z) : outcome (nat * nat) :=
  let '(cities_data, processed, skipped) := collect df_batch in
  match cities_data with
  | _ :: _ =>
      match executemany true cities_data conn with
      | Ok _ c => Ok (processed, skipped) (commit c)
      | Err e c => Err e c
      end
  | [] => Ok (processed, skipped) conn
  end.

(** The batch loop of [main] (lines 197-214) over the offsets still to
    visit; it breaks once [batch_num] exceeds [max_batches]. *)
Fixpoint batch_loop (df : list RawRecord) (batch_size max_batches : Z)
    (offsets : list Z) (conn : connection)
    (total_processed total_skipped : nat) (batch_num : Z)
    : outcome (nat * nat) :=
  match offsets with
  | [] => Ok (total_processed, total_skipped) conn
  | i :: rest =>
      let chunk := slice df i (i + batch_size) in
      match process_batch conn chunk batch_num with
      | Err e c => Err e c
      | Ok (processed, skipped) c =>
          let total_processed := (total_processed + processed)%nat in
          let total_skipped := (total_skipped + skipped)%nat in
          let batch_num := batch_num + 1 in
          if batch_num >? max_batches then
            Ok (total_processed, total_skipped) c
          else
            batch_loop df batch_size max_batches rest c
                       total_processed total_skipped batch_num
      end
  end.

(** Lines 184-188: [DELETE FROM cities WHERE population > 0], committed. *)
Definition clear_sample_data (conn : connection) : connection :=
  commit (delete_where_population_gt_0 conn).

(** [main()] from the connection on, with its two constants as
    parameters; an exception ends the script ([sys.exit(1)]). *)
Definition main_with (batch_size max_batches : Z) (df : list RawRecord)
    (db : database) : run_result :=
  let conn := connect db in
  let conn := clear_sample_data conn in
  let offsets := py_range 0 (Z.of_nat (List.length df)) batch_size in
  match batch_loop df batch_size max_batches offsets conn 0 0 1 with
  | Ok _ c => Completed (close c)
  | Err _ c => Aborted (close c)
  end.

(** [batch_size = 500], and the loop stops after 10 batches. *)
Definition main : list RawRecord → database → run_result := main_with 500 10.

End Pipeline.
End BatchImport.

(** ** [scripts/continue-import.py] *)

Module ContinueImport.
Import Py Db.

Definition region_items : list (string * string) :=
  [("United States", "North America"); ("Canada", "North America");
   ("Mexico", "North America"); ("Germany", "Europe"); ("France", "Europe");
   ("Italy", "Europe"); ("Spain", "Europe"); ("United Kingdom", "Europe");
   ("Poland", "Europe"); ("Romania", "Europe"); ("China", "Asia");
   ("India", "Asia"); ("Japan", "Asia"); ("Philippines", "Asia");
   ("Russian Federation", "Europe"); ("Ukraine", "Europe");
   ("Brazil", "South America"); ("Argentina", "South America");
   ("Colombia", "South America"); ("Nigeria", "Africa"); ("Egypt", "Africa");
   ("South Africa", "Africa"); ("Australia", "Oceania");
   ("New Zealand", "Oceania")].

Definition region_mapping : gmap string string := dict_of region_items.

Definition map_regions (country : string) : string :=
  dict_get region_mapping country "Other".

Section Pipeline.
Context `{PF : PyFloat}.

(** Lines 69-74, the block under [try] on the variable [population]. *)
Definition population_block (v : cell) : prog (option Z) unit :=
  z ← lift (int_float v);
  _ ← assign (λ _, Some z);
  if z <? 1000 then lift Continue else mret tt.

(** Lines 79-86, the block under [try] on [(latitude, longitude)]. *)
Definition coordinates_block (v : cell)
    : prog (option float * option float) unit :=
  let coords := strip (str_of_cell v) in
  if str_contains "," coords then
    '(lat_str, lng_str) ← lift (unpack2 (split1 "," coords));
    x ← lift (float_of_cell (CStr (strip lat_str)));
    _ ← assign (λ vars, (Some x, vars.2));
    y ← lift (float_of_cell (CStr (strip lng_str)));
    assign (λ vars, (vars.1, Some y))
  else mret tt.

(** The body of the [try] in the row loop (lines 61-92). *)
Definition process_row (row : RawRecord) : step city_tuple :=
  city_name ← text_column row "Name";
  country ← text_column row "Country name EN";
  if negb (truthy_str city_name) || negb (truthy_str country) then Continue
  else
    pv ← getitem row "Population";
    population ← (if notna pv
                  then try_block (population_block pv) (Val tt) None
                  else mret None);
    cv ← getitem row "Coordinates";
    coordinates ← (if notna cv
                   then try_block (coordinates_block cv) (Val tt) (None, None)
                   else mret (None, None));
    let country := default "" country in
    mret {| name := default "" city_name; country := country;
            region := map_regions country; population := population;
            latitude := coordinates.1; longitude := coordinates.2;
            timezone := None; is_capital := false |}.

(** One turn of the row loop; [except Exception: continue]. *)
Definition row_turn (cities_data : list city_tuple) (row : RawRecord)
    : list city_tuple :=
  match process_row row with
  | Val t => cities_data ++ [t]
  | Continue => cities_data
  | Raise _ => cities_data
  end.

Definition collect (chunk : list RawRecord) : list city_tuple :=
  foldl row_turn [] chunk.

(** The batch loop (lines 48-107) over the batch numbers still to visit. *)
Fixpoint batch_loop (df : list RawRecord) (batch_size : Z)
    (batch_nums : list Z) (conn : connection) : outcome unit :=
  match batch_nums with
  | [] => Ok tt conn
  | batch_num :: rest =>
      let start_idx := (batch_num - 1) * batch_size in
      let end_idx := start_idx + batch_size in
      if start_idx >=? Z.of_nat (List.length df) then Ok tt conn
      else
        let chunk := slice df start_idx end_idx in
        match insert_batch (collect chunk) conn with
        | Ok _ c => batch_loop df batch_size rest c
        | Err e c => Err e c
        end
  end.

(** The script from the connection on, with its three constants as
    parameters. *)
Definition run (batch_size start_batch end_batch : Z) (df : list RawRecord)
    (db : database) : run_result :=
  match batch_loop df batch_size (py_range start_batch end_batch 1)
                   (connect db) with
  | Ok _ c => Completed (close c)
  | Err _ c => Aborted (close c)
  end.

(** [batch_size = 500], [start_batch = 11], [end_batch = 21]. *)
Definition script : list RawRecord → database → run_result := run 500 11 21.

End Pipeline.
End ContinueImport.

(** ** [scripts/massive-import.py] *)

Module MassiveImport.
Import Py Db.

Definition region_items : list (string * string) :=
  [("United States", "North America"); ("Canada", "North America");
   ("Mexico", "North America"); ("Germany", "Europe"); ("France", "Europe");
   ("Italy", "Europe"); ("Spain", "Europe"); ("United Kingdom", "Europe");
   ("Poland", "Europe"); ("Romania", "Europe"); ("Netherlands", "Europe");
   ("China", "Asia"); ("India", "Asia"); ("Japan", "Asia");
   ("Philippines", "Asia"); ("Indonesia", "Asia");
   ("Brazil", "South America"); ("Argentina", "South America");
   ("Colombia", "South America"); ("Nigeria", "Africa");
   ("Ethiopia", "Africa"); ("Egypt", "Africa"); ("South Africa", "Africa");
   ("Australia", "Oceania"); ("New Zealand", "Oceania")].

Definition mapping : gmap string string := dict_of region_items.

Definition map_regions (country : string) : string :=
  dict_get mapping country "Other".

Section Pipeline.
Context `{PF : PyFloat}.

(** Lines 74-81, the block under [try] on the variable [population]. *)
Definition population_block (v : cell) : prog (option Z) unit :=
  pop ← lift (int_float v);
  if pop >=? 1000 then assign (λ _, Some pop) else lift Continue.

(** Lines 85-92, the block under [try] on [(latitude, longitude)]. *)
Definition coordinates_block (v : cell)
    : prog (option float * option float) unit :=
  let coords := strip (str_of_cell v) in
  if str_contains "," coords then
    let parts := split1 "," coords in
    lat_str ← lift (list_item parts 0);
    x ← lift (float_of_cell (CStr (strip lat_str)));
    _ ← assign (λ vars, (Some x, vars.2));
    lng_str ← lift (list_item parts 1);
    y ← lift (float_of_cell (CStr (strip lng_str)));
    assign (λ vars, (vars.1, Some y))
  else mret tt.

(** The body of the [try] in the row loop (lines 66-96). *)
Definition process_row (row : RawRecord) : step city_tuple :=
  city_name ← text_column row "Name";
  country ← text_column row "Country name EN";
  if negb (truthy_str city_name) || negb (truthy_str country) then Continue
  else
    pv ← getitem row "Population";
    population ← (if notna pv
                  then try_block (population_block pv) Continue None
                  else mret None);
    cv ← getitem row "Coordinates";
    coordinates ← (if notna cv
                   then try_block (coordinates_block cv) (Val tt) (None, None)
                   else mret (None, None));
    let country := default "" country in
    mret {| name := default "" city_name; country := country;
            region := map_regions country; population := population;
            latitude := coordinates.1; longitude := coordinates.2;
            timezone := None; is_capital := false |}.

(** One turn of the row loop; a bare [except: continue]. *)
Definition row_turn (cities_data : list city_tuple) (row : RawRecord)
    : list city_tuple :=
  match process_row row with
  | Val t => cities_data ++ [t]
  | Continue => cities_data
  | Raise _ => cities_data
  end.

Definition collect (chunk : list RawRecord) : list city_tuple :=
  foldl row_turn [] chunk.

(** The batch loop (lines 56-123) over the offsets still to visit; it
    carries [total_inserted]. *)
Fixpoint batch_loop (df : list RawRecord) (batch_size : Z)
    (offsets : list Z) (conn : connection) (total_inserted : nat)
    : outcome nat :=
  match offsets with
  | [] => Ok total_inserted conn
  | i :: rest =>
      let chunk := slice df i (i + batch_size) in
      let cities_data := collect chunk in
      match insert_batch cities_data conn with
      | Ok _ c =>
          batch_loop df batch_size rest c
                     (total_inserted + List.length cities_data)%nat
      | Err e c => Err e c
      end
  end.

(** The script from the connection on, with its three constants as
    parameters. *)
Definition run (batch_size start_row max_batches : Z) (df : list RawRecord)
    (db : database) : run_result :=
  let stop := Z.min (start_row + max_batches * batch_size)
                    (Z.of_nat (List.length df)) in
  match batch_loop df batch_size (py_range start_row stop batch_size)
                   (connect db) 0 with
  | Ok _ c => Completed (close c)
  | Err _ c => Aborted (close c)
  end.

(** [batch_size = 2000], [start_row = 20000], [max_batches = 50]. *)
Definition script : list RawRecord → database → run_result :=
  run 2000 20000 50.

End Pipeline.
End MassiveImport.

(** ** [scripts/import-cities.py] *)

Module ImportCities.
Import Py Db.

Definition region_items : list (string * string) :=
  [("Canada", "North America"); ("United States", "North America");
   ("Mexico", "North America"); ("Guatemala", "North America");
   ("Belize", "North America"); ("El Salvador", "North America");
   ("Germany", "Europe"); ("France", "Europe"); ("Italy", "Europe");
   ("Spain", "Europe"); ("United Kingdom", "Europe"); ("Poland", "Europe");
   ("Romania", "Europe"); ("Netherlands", "Europe"); ("China", "Asia");
   ("India", "Asia"); ("Japan", "Asia"); ("South Korea", "Asia");
   ("Indonesia", "Asia"); ("Pakistan", "Asia"); ("Bangladesh", "Asia");
   ("Philippines", "Asia"); ("Nigeria", "Africa"); ("Ethiopia", "Africa");
   ("Egypt", "Africa"); ("South Africa", "Africa"); ("Kenya", "Africa");
   ("Tanzania", "Africa"); ("Algeria", "Africa"); ("Morocco", "Africa");
   ("Brazil", "South America"); ("Argentina", "South America");
   ("Colombia", "South America"); ("Peru", "South America");
   ("Venezuela", "South America"); ("Chile", "South America");
   ("Australia", "Oceania"); ("New Zealand", "Oceania");
   ("Papua New Guinea", "Oceania"); ("Fiji", "Oceania");
   ("Solomon Islands", "Oceania")].

Definition region_mapping : gmap string string := dict_of region_items.

Definition map_regions (country : string) : string :=
  dict_get region_mapping country "Other".

Section Pipeline.
Context `{PF : PyFloat}.

(** The body of the row loop of [import_cities_data] (lines 116-168).  The
    default [None] of [row.get] is the missing value; the innermost default
    [str(row.iloc[i])] is evaluated before the lookups. *)
Definition process_row (row : RawRecord) : step city_tuple :=
  first ← iloc row 0;
  let city_name :=
    get row "name" (get row "Name" (get row "city" (CStr (str_of_cell first)))) in
  second ← iloc row 1;
  let country :=
    get row "country"
        (get row "Country" (get row "country_name" (CStr (str_of_cell second)))) in
  let population := get row "population" (get row "Population" CNaN) in
  let latitude := get row "latitude" (get row "Latitude" (get row "lat" CNaN)) in
  let longitude :=
    get row "longitude"
        (get row "Longitude" (get row "lng" (get row "lon" CNaN))) in
  if isna city_name || isna country then Continue
  else
    let city_name := strip (str_of_cell city_name) in
    let country := strip (str_of_cell country) in
    let region := map_regions country in
    population ← (if isna population then mret None
                  else try_except (z ← int_float population; mret (Some z))
                                  [ValueError; TypeError] (mret None));
    latitude ← (if isna latitude then mret None
                else try_except (x ← float_of_cell latitude; mret (Some x))
                                [ValueError; TypeError] (mret None));
    longitude ← (if isna longitude then mret None
                 else try_except (x ← float_of_cell longitude; mret (Some x))
                                 [ValueError; TypeError] (mret None));
    mret {| name := city_name; country := country; region := region;
            population := population; latitude := latitude;
            longitude := longitude; timezone := None; is_capital := false |}.

(** The row loop: nothing catches an exception of the body. *)
Fixpoint collect (rows : list RawRecord) (cities_data : list city_tuple)
    : step (list city_tuple) :=
  match rows with
  | [] => Val cities_data
  | row :: rest =>
      match process_row row with
      | Val t => collect rest (cities_data ++ [t])
      | Continue => collect rest cities_data
      | Raise e => Raise e
      end
  end.

(** [import_cities_data(conn, df)]: the [DELETE], the row loop, the insert
    without a conflict clause, and one [commit] at the end. *)
Definition import_cities_data (conn : connection) (df : list RawRecord)
    : outcome unit :=
  let conn := delete_all conn in
  match collect df [] with
  | Val cities_data =>
      match executemany false cities_data conn with
      | Ok _ c => Ok tt (commit c)
      | Err e c => Err e c
      end
  | Continue => Ok tt conn
  | Raise e => Err e conn
  end.

(** [create_cities_table(conn)]: [CREATE TABLE IF NOT EXISTS] on the table
    that exists, and a [commit]. *)
Definition create_cities_table (conn : connection) : connection := commit conn.

(** [main()] from the connection on. *)
Definition main (df : list RawRecord) (db : database) : run_result :=
  let conn := create_cities_table (connect db) in
  match import_cities_data conn df with
  | Ok _ c => Completed (close c)
  | Err _ c => Aborted (close c)
  end.

End Pipeline.
End ImportCities.

(** ** A decimal instance of the floating-point builtins

    Numbers are kept exactly, as [m * 10^e], so the rounding of [float] to
    binary is not modelled.  [float_of_str] reads what [float()] reads of
    the forms [inf], [infinity], [nan] and decimal numerals with an optional
    fraction and exponent (underscores between digits are not read).  It
    serves to run the scripts on concrete rows. *)

Module Dec.
Import Py.

Inductive dfloat : Set :=
  | Fin (m e : Z)
  | Inf (negative : bool)
  | NaN.

Definition is_digit (c : ascii) : bool :=
  let n := nat_of_ascii c in Nat.leb 48 n && Nat.leb n 57.

Definition digit_value (c : ascii) : Z := Z.of_nat (nat_of_ascii c) - 48.

(** The leading digits of [s]: their value on top of [acc], how many there
    are on top of [n], and the rest of [s]. *)
Fixpoint digits (s : string) (acc : Z) (n : nat) : Z * nat * string :=
  match s with
  | String c s' =>
      if is_digit c then digits s' (10 * acc + digit_value c) (S n)
      else (acc, n, s)
  | EmptyString => (acc, n, EmptyString)
  end.

Definition sign (s : string) : bool * string :=
  match s with
  | String "-" r => (true, r)
  | String "+" r => (false, r)
  | _ => (false, s)
  end.

Definition lower (c : ascii) : ascii :=
  let n := nat_of_ascii c in
  if Nat.leb 65 n && Nat.leb n 90 then ascii_of_nat (n + 32) else c.

Fixpoint lowercase (s : string) : string :=
  match s with
  | String c s' => String (lower c) (lowercase s')
  | EmptyString => EmptyString
  end.

Definition exponent (s : string) : option Z :=
  match s with
  | EmptyString => Some 0
  | String c r =>
      if Ascii.eqb (lower c) "e" then
        let '(neg, r) := sign r in
        let '(x, nx, rest) := digits r 0 0 in
        match nx, rest with
        | S _, EmptyString => Some (if neg then - x else x)
        | _, _ => None
        end
      else None
  end.

Definition numeral (s : string) : option (Z * Z) :=
  let '(i, ni, r1) := digits s 0 0 in
  let '(m, nf, r2) :=
    match r1 with
    | String "." r => digits r i 0
    | _ => (i, 0%nat, r1)
    end in
  match (ni + nf)%nat with
  | O => None
  | S _ => x ← exponent r2; Some (m, x - Z.of_nat nf)
  end.

Definition parse (s : string) : option dfloat :=
  let '(neg, body) := sign (strip s) in
  let word := lowercase body in
  if String.eqb word "inf" || String.eqb word "infinity" then Some (Inf neg)
  else if String.eqb word "nan" then Some NaN
  else '(m, e) ← numeral body; Some (Fin (if neg then - m else m) e).

(** Truncation toward zero. *)
Definition trunc (x : dfloat) : step Z :=
  match x with
  | Fin m e => Val (if 0 <=? e then m * 10 ^ e else Z.quot m (10 ^ (- e)))
  | Inf _ => Raise OverflowError
  | NaN => Raise ValueError
  end.

Definition between (lo hi : Z) (x : dfloat) : bool :=
  match x with
  | Fin m e =>
      if 0 <=? e then (lo <=? m * 10 ^ e) && (m * 10 ^ e <=? hi)
      else (lo * 10 ^ (- e) <=? m) && (m <=? hi * 10 ^ (- e))
  | _ => false
  end.

(** The numeral of an integer. *)
Definition numeral_of_Z (z : Z) : string :=
  DecimalString.NilZero.string_of_int (Z.to_int z).

(** [str(x)] in positional form: the whole part, a point, the fraction. *)
Definition show (x : dfloat) : string :=
  match x with
  | Fin m e =>
      if 0 <=? e then numeral_of_Z (m * 10 ^ e) +:+ ".0"
      else
        let p := 10 ^ (- e) in
        let frac := numeral_of_Z (Z.abs (Z.rem m p)) in
        let pad := (Z.to_nat (- e) - String.length frac)%nat in
        (if m <? 0 then "-" else "") +:+ numeral_of_Z (Z.abs (Z.quot m p))
        +:+ "." +:+ concat "" (replicate pad "0") +:+ frac
  | Inf true => "-inf"
  | Inf false => "inf"
  | NaN => "nan"
  end.

#[export] Instance dec_float : PyFloat := {|
  float := dfloat;
  float_of_str := parse;
  int_of_float := trunc;
  str_of_float := show;
  float_nan := NaN;
  float_between := between;
|}.

End Dec.

(** ** Vocabulary of the properties *)

Module Vocabulary.
Import Py Db.

(** The region labels of the data model. *)
Definition region_labels : list string :=
  ["North America"; "Europe"; "Asia"; "Africa"; "South America"; "Oceania";
   "Other"].

Section Vocabulary.
Context `{PF : PyFloat}.

(** The cell of column [col] is missing: the row has no such column, the
    cell holds no value, or its text is blank once stripped. *)
Definition missing_or_blank (row : RawRecord) (col : string) : Prop :=
  match assoc col row with
  | None => True
  | Some v => notna v = false ∨ strip (str_of_cell v) = ""
  end.

(** What a row contributes to [cities_data]. *)
Definition emitted (r : step city_tuple) : list city_tuple :=
  match r with
  | Val t => [t]
  | _ => []
  end.

(** The pair of coordinates a cell in the format ["lat,lng"] stands for:
    both sides of the first comma, stripped, read by [float()]. *)
Definition coordinate_pair (v : cell) : option (float * float) :=
  if notna v then
    match split1 "," (strip (str_of_cell v)) with
    | [a; b] =>
        match float_of_str (strip a), float_of_str (strip b) with
        | Some x, Some y => Some (x, y)
        | _, _ => None
        end
    | _ => None
    end
  else None.

Definition both_or_neither (p : option (float * float))
    : option float * option float :=
  match p with
  | Some (x, y) => (Some x, Some y)
  | None => (None, None)
  end.

(** The connection holds the rows [base], followed by rows stored since
    under ids from [n0] on. *)
Definition grows_from (base : list StoredRow) (n0 : Z) (c : connection)
    : Prop :=
  (∃ new, committed c = base ++ new ∧ Forall (λ r, n0 ≤ id r) new)
  ∧ (∃ new, working c = base ++ new ∧ Forall (λ r, n0 ≤ id r) new)
  ∧ n0 ≤ cities_id_seq c.

(** No transaction is open. *)
Definition settled (c : connection) : Prop := working c = committed c.

(** How a script that got the outcome [o] from its loop ends. *)
Definition result_of {A : Type} (o : outcome A) : run_result :=
  match o with
  | Ok _ c => Completed (close c)
  | Err _ c => Aborted (close c)
  end.

(** The count that [process_batch] returns is the number of rows the
    batch added to the table. *)
Definition returns_inserted_count : Prop :=
  ∀ (conn : connection) (df_batch : list RawRecord) (batch_num : Z)
    (processed skipped : nat) (c' : connection),
    df_batch ≠ [] →
    BatchImport.process_batch conn df_batch batch_num
      = Ok (processed, skipped) c' →
    count c' = (count conn + processed)%nat.




(** A row loop keeps a row whose cell ["Population"] holds something that
    [float()] rejects, the name and the country being there: it emits the
    row without a population. *)
Definition keeps_unparsable_population
    (process_row : RawRecord → step city_tuple) : Prop :=
  ∀ (row : RawRecord) (city country : string) (pv cv : cell) (e : exn),
    text_column row "Name" = Val (Some city) → city ≠ "" →
    text_column row "Country name EN" = Val (Some country) → country ≠ "" →
    assoc "Population" row = Some pv → notna pv = true →
    float_of_cell pv = Raise e →
    assoc "Coordinates" row = Some cv →
    ∃ t, process_row row = Val t
         ∧ name t = city ∧ Db.country t = country ∧ population t = None.

(** Stored coordinates within the ranges of a latitude and a longitude. *)
Definition coordinate_range_invariant : Prop :=
  ∀ (row : RawRecord) (t : city_tuple),
    BatchImport.process_row row = Val t →
    (∀ x, latitude t = Some x → float_between (-90) 90 x = true)
    ∧ (∀ y, longitude t = Some y → float_between (-180) 180 y = true).

End Vocabulary.
End Vocabulary.

(** ** Sample rows *)

Module Examples.
Import Py Db Dec.

(** A row of the four columns the batch scripts read. *)
Definition row_of (city country population coordinates : cell (PF := dec_float))
    : RawRecord :=
  [("Name", city); ("Country name EN", country);
   ("Population", population); ("Coordinates", coordinates)].

Definition springfield : RawRecord :=
  row_of (CStr "Springfield") (CStr "United States") (CNum (Fin 1500 0))
         (CStr "39.78,-89.65").

Definition smallville : RawRecord :=
  row_of (CStr "Smallville") (CStr "United States") (CNum (Fin 200 0))
         (CStr "39.0,-88.0").

Definition unknown_city : RawRecord :=
  row_of (CStr "Unknown City") (CStr "Nowhereland") (CNum (Fin 5000 0))
         (CStr "").

Definition tuple_of (city country region : string) (population : option Z)
    (latitude longitude : option dfloat) : city_tuple :=
  {| name := city; country := country; region := region;
     population := population; latitude := latitude; longitude := longitude;
     timezone := None; is_capital := false |}.

(** A row whose population is not a number. *)
Definition lyon : RawRecord :=
  row_of (CStr "Lyon") (CStr "France") (CStr "n/a") (CStr "45.76,4.84").

(** A row whose name is blank. *)
Definition nameless : RawRecord :=
  row_of (CStr "   ") (CStr "France") (CNum (Fin 4200 0)) (CStr "45.0,5.0").

(** A row whose coordinates are no place on Earth. *)
Definition far_away : RawRecord :=
  row_of (CStr "Nowhere") (CStr "Chile") CNaN (CStr "500,-500").

(** A hundred rows: row [i] is a city of [990 + i] inhabitants in one of
    four countries. *)
Definition sample_country (i : nat) : string :=
  match (i mod 4)%nat with
  | 0%nat => "Japan"
  | 1%nat => "Netherlands"
  | 2%nat => "Ukraine"
  | _ => "Atlantis"
  end.

Definition sample_row (i : nat) : RawRecord :=
  row_of (CStr ("City " +:+ numeral_of_Z (Z.of_nat i)))
         (CStr (sample_country i))
         (CNum (Fin (990 + Z.of_nat i) 0))
         (CStr (numeral_of_Z (Z.of_nat i) +:+ ".5, -"
                +:+ numeral_of_Z (Z.of_nat i))).

Definition hundred_rows : list RawRecord := map sample_row (seq 0 100).

(** The table before the first import. *)
Definition empty_db : database (PF := dec_float) :=
  {| table := []; next_id := 1 |}.

(** A table whose sequence lags behind a stored id. *)
Definition lagging : connection (PF := dec_float) :=
  let stored := [Stored 1 (tuple_of "Oslo" "Norway" "Europe" None None None)] in
  {| committed := stored; working := stored; cities_id_seq := 1 |}.

End Examples.

(** ** The other batch scripts

    The remaining scripts repeat the row loop of continue-import.py word
    for word, up to the names of the variables, the region table, and the
    handler of the [except] clause around the population, which is [pass]
    in some and [continue] in the others.  They differ in the batch loop
    and its constants.  Counters that are only printed ([total_added],
    [total_inserted], [processed]) are left out. *)

Module BatchRows.
Import Py Db Vocabulary.

Section Rows.
Context `{PF : PyFloat}.

(** The region function of the script, and what its [except] clause does
    when the population cannot be read: [Val tt] for [pass], [Continue] for
    [continue]. *)
Variable map_regions : string → string.
Variable on_bad_population : step unit.

(** The body of the [try] in the row loop. *)
Definition process_row (row : RawRecord) : step city_tuple :=
  city_name ← text_column row "Name";
  country ← text_column row "Country name EN";
  if negb (truthy_str city_name) || negb (truthy_str country) then Continue
  else
    pv ← getitem row "Population";
    population ← (if notna pv
                  then try_block (ContinueImport.population_block pv)
                                 on_bad_population None
                  else mret None);
    cv ← getitem row "Coordinates";
    coordinates ← (if notna cv
                   then try_block (ContinueImport.coordinates_block cv)
                                  (Val tt) (None, None)
                   else mret (None, None));
    let country := default "" country in
    mret {| name := default "" city_name; country := country;
            region := map_regions country; population := population;
            latitude := coordinates.1; longitude := coordinates.2;
            timezone := None; is_capital := false |}.

End Rows.

Section Loops.
Context `{PF : PyFloat}.

(** The row loop of a script, from the body of its [try]. *)
Variable process_row : RawRecord → step city_tuple.

(** One turn of the row loop; an exception of the body is swallowed. *)
Definition row_turn (cities_data : list city_tuple) (row : RawRecord)
    : list city_tuple :=
  match process_row row with
  | Val t => cities_data ++ [t]
  | Continue => cities_data
  | Raise _ => cities_data
  end.

Definition collect (chunk : list RawRecord) : list city_tuple :=
  foldl row_turn [] chunk.

(** [for i in range(start_row, end_row, batch_size)] with
    [chunk = df.iloc[i:i+batch_size]]: continue-next-batches.py and
    next-batch-set.py. *)
Fixpoint ranged_loop (df : list RawRecord) (batch_size : Z)
    (offsets : list Z) (conn : connection) : outcome unit :=
  match offsets with
  | [] => Ok tt conn
  | i :: rest =>
      let chunk := slice df i (i + batch_size) in
      match insert_batch (collect chunk) conn with
      | Ok _ c => ranged_loop df batch_size rest c
      | Err e c => Err e c
      end
  end.

(** [end_row = min(start_row + (batches * batch_size), len(df))] *)
Definition ranged_run (batch_size start_row batches : Z)
    (df : list RawRecord) (db : database) : run_result :=
  let end_row := Z.min (start_row + batches * batch_size)
                       (Z.of_nat (List.length df)) in
  result_of (ranged_loop df batch_size (py_range start_row end_row batch_size)
                         (connect db)).

(** [for batch in range(max_batches)] with
    [row_start = start_row + (batch * batch_size)],
    [row_end = min(row_start + batch_size, len(df))], a [break] once
    [row_start >= len(df)], and [chunk = df.iloc[row_start:row_end]]:
    final-push.py, power-import.py, final-batches.py, small-batch-import.py
    and comprehensive-import.py. *)
Fixpoint capped_loop (df : list RawRecord) (batch_size start_row : Z)
    (batches : list Z) (conn : connection) : outcome unit :=
  match batches with
  | [] => Ok tt conn
  | batch :: rest =>
      let row_start := start_row + batch * batch_size in
      let row_end := Z.min (row_start + batch_size)
                           (Z.of_nat (List.length df)) in
      if row_start >=? Z.of_nat (List.length df) then Ok tt conn
      else
        let chunk := slice df row_start row_end in
        match insert_batch (collect chunk) conn with
        | Ok _ c => capped_loop df batch_size start_row rest c
        | Err e c => Err e c
        end
  end.

Definition capped_run (batch_size start_row max_batches : Z)
    (df : list RawRecord) (db : database) : run_result :=
  result_of (capped_loop df batch_size start_row (py_range 0 max_batches 1)
                         (connect db)).

(** [for i in range(start_idx, len(df), batch_size)] with a [break] once
    [batch_num], counted from 1, exceeds the limit: [process_full_dataset]
    of complete-import.py. *)
Fixpoint limited_loop (df : list RawRecord) (batch_size max_batches : Z)
    (offsets : list Z) (conn : connection) (batch_num : Z) : outcome unit :=
  match offsets with
  | [] => Ok tt conn
  | i :: rest =>
      let chunk := slice df i (i + batch_size) in
      match insert_batch (collect chunk) conn with
      | Ok _ c =>
          let batch_num := batch_num + 1 in
          if batch_num >? max_batches then Ok tt c
          else limited_loop df batch_size max_batches rest c batch_num
      | Err e c => Err e c
      end
  end.

Definition limited_run (batch_size start_idx max_batches : Z)
    (df : list RawRecord) (db : database) : run_result :=
  result_of (limited_loop df batch_size max_batches
               (py_range start_idx (Z.of_nat (List.length df)) batch_size)
               (connect db) 1).

End Loops.
End BatchRows.

(** *** [scripts/complete-import.py] *)

Module CompleteImport.
Import Py Db.

Definition region_items : list (string * string) :=
  [("Germany", "Europe"); ("France", "Europe"); ("Italy", "Europe");
   ("Spain", "Europe"); ("United Kingdom", "Europe"); ("Poland", "Europe");
   ("Romania", "Europe"); ("Netherlands", "Europe"); ("Belgium", "Europe");
   ("Greece", "Europe"); ("Portugal", "Europe"); ("Czech Republic", "Europe");
   ("Hungary", "Europe"); ("Sweden", "Europe"); ("Austria", "Europe");
   ("Bulgaria", "Europe"); ("Croatia", "Europe"); ("Denmark", "Europe");
   ("Finland", "Europe"); ("Slovakia", "Europe"); ("Norway", "Europe");
   ("Ireland", "Europe"); ("Lithuania", "Europe"); ("Slovenia", "Europe");
   ("Latvia", "Europe"); ("Estonia", "Europe"); ("Malta", "Europe");
   ("Luxembourg", "Europe"); ("Switzerland", "Europe"); ("Iceland", "Europe");
   ("Albania", "Europe"); ("Serbia", "Europe");
   ("Russian Federation", "Europe"); ("Ukraine", "Europe");
   ("Belarus", "Europe"); ("Bosnia and Herzegovina", "Europe");
   ("Montenegro", "Europe"); ("Macedonia", "Europe");
   ("United States", "North America"); ("Canada", "North America");
   ("Mexico", "North America"); ("Guatemala", "North America");
   ("Cuba", "North America"); ("Haiti", "North America");
   ("Dominican Republic", "North America"); ("Honduras", "North America");
   ("Nicaragua", "North America"); ("Costa Rica", "North America");
   ("Panama", "North America"); ("Jamaica", "North America");
   ("El Salvador", "North America"); ("Belize", "North America");
   ("Bahamas", "North America"); ("China", "Asia"); ("India", "Asia");
   ("Japan", "Asia"); ("South Korea", "Asia"); ("Indonesia", "Asia");
   ("Pakistan", "Asia"); ("Bangladesh", "Asia"); ("Philippines", "Asia");
   ("Vietnam", "Asia"); ("Turkey", "Asia"); ("Iran, Islamic Rep. of", "Asia");
   ("Iraq", "Asia"); ("Thailand", "Asia"); ("Myanmar", "Asia");
   ("North Korea", "Asia"); ("Afghanistan", "Asia"); ("Saudi Arabia", "Asia");
   ("Malaysia", "Asia"); ("Syria", "Asia"); ("Sri Lanka", "Asia");
   ("Cambodia", "Asia"); ("Jordan", "Asia"); ("Azerbaijan", "Asia");
   ("Nepal", "Asia"); ("Yemen", "Asia"); ("Lebanon", "Asia");
   ("Singapore", "Asia"); ("Mongolia", "Asia"); ("Nigeria", "Africa");
   ("Ethiopia", "Africa"); ("Egypt", "Africa"); ("South Africa", "Africa");
   ("Kenya", "Africa"); ("Tanzania", "Africa"); ("Algeria", "Africa");
   ("Morocco", "Africa"); ("Angola", "Africa"); ("Ghana", "Africa");
   ("Mozambique", "Africa"); ("Madagascar", "Africa"); ("Cameroon", "Africa");
   ("Ivory Coast", "Africa"); ("Niger", "Africa"); ("Burkina Faso", "Africa");
   ("Mali", "Africa"); ("Malawi", "Africa"); ("Zambia", "Africa");
   ("Senegal", "Africa"); ("Chad", "Africa"); ("Somalia", "Africa");
   ("Zimbabwe", "Africa"); ("Guinea", "Africa"); ("Rwanda", "Africa");
   ("Benin", "Africa"); ("Tunisia", "Africa"); ("Burundi", "Africa");
   ("South Sudan", "Africa"); ("Togo", "Africa"); ("Sierra Leone", "Africa");
   ("Libya", "Africa"); ("Brazil", "South America");
   ("Argentina", "South America"); ("Colombia", "South America");
   ("Peru", "South America"); ("Venezuela", "South America");
   ("Chile", "South America"); ("Ecuador", "South America");
   ("Bolivia", "South America"); ("Paraguay", "South America");
   ("Uruguay", "South America"); ("Guyana", "South America");
   ("Suriname", "South America"); ("Australia", "Oceania");
   ("Papua New Guinea", "Oceania"); ("New Zealand", "Oceania");
   ("Fiji", "Oceania"); ("Solomon Islands", "Oceania"); ("Vanuatu", "Oceania");
   ("New Caledonia", "Oceania"); ("French Polynesia", "Oceania");
   ("Samoa", "Oceania")].

Definition region_mapping : gmap string string := dict_of region_items.

Definition map_regions (country : string) : string :=
  dict_get region_mapping country "Other".

Section Pipeline.
Context `{PF : PyFloat}.

Definition process_row : RawRecord → step city_tuple :=
  BatchRows.process_row map_regions (Val tt).

Definition run : Z → Z → Z → list RawRecord → database → run_result :=
  BatchRows.limited_run process_row.

(** [process_full_dataset()]: [batch_size = 1000], [start_idx = 2000], and at
    most 100 batches. *)
Definition script : list RawRecord → database → run_result := run 1000 2000 100.

End Pipeline.
End CompleteImport.

(** *** [scripts/comprehensive-import.py] *)

Module ComprehensiveImport.
Import Py Db.

Definition region_items : list (string * string) :=
  [("United States", "North America"); ("Canada", "North America");
   ("Mexico", "North America"); ("Germany", "Europe"); ("France", "Europe");
   ("Italy", "Europe"); ("Spain", "Europe"); ("United Kingdom", "Europe");
   ("Poland", "Europe"); ("Romania", "Europe");
   ("Russian Federation", "Europe"); ("Netherlands", "Europe");
   ("Belgium", "Europe"); ("China", "Asia"); ("India", "Asia");
   ("Japan", "Asia"); ("Philippines", "Asia"); ("Indonesia", "Asia");
   ("Pakistan", "Asia"); ("Bangladesh", "Asia"); ("Vietnam", "Asia");
   ("Thailand", "Asia"); ("Myanmar", "Asia"); ("South Korea", "Asia");
   ("Malaysia", "Asia"); ("Brazil", "South America");
   ("Argentina", "South America"); ("Colombia", "South America");
   ("Peru", "South America"); ("Venezuela", "South America");
   ("Chile", "South America"); ("Nigeria", "Africa"); ("Ethiopia", "Africa");
   ("Egypt", "Africa"); ("South Africa", "Africa"); ("Kenya", "Africa");
   ("Tanzania", "Africa"); ("Morocco", "Africa"); ("Algeria", "Africa");
   ("Australia", "Oceania"); ("New Zealand", "Oceania");
   ("Papua New Guinea", "Oceania")].

Definition mapping : gmap string string := dict_of region_items.

Definition map_regions (country : string) : string :=
  dict_get mapping country "Other".

Section Pipeline.
Context `{PF : PyFloat}.

Definition process_row : RawRecord → step city_tuple :=
  BatchRows.process_row map_regions Continue.

Definition run : Z → Z → Z → list RawRecord → database → run_result :=
  BatchRows.capped_run process_row.

(** [batch_size = 1500], [start_row = 115000], [max_batches = 10]. *)
Definition script : list RawRecord → database → run_result := run 1500 115000 10.

End Pipeline.
End ComprehensiveImport.

(** *** [scripts/continue-next-batches.py] *)

Module ContinueNextBatches.
Import Py Db.

Definition region_items : list (string * string) :=
  [("Germany", "Europe"); ("France", "Europe"); ("Italy", "Europe");
   ("Spain", "Europe"); ("United Kingdom", "Europe"); ("Poland", "Europe");
   ("Romania", "Europe"); ("Netherlands", "Europe");
   ("Russian Federation", "Europe"); ("Ukraine", "Europe"); ("Turkey", "Asia");
   ("United States", "North America"); ("Canada", "North America");
   ("Mexico", "North America"); ("China", "Asia"); ("India", "Asia");
   ("Japan", "Asia"); ("Philippines", "Asia"); ("Indonesia", "Asia");
   ("Pakistan", "Asia"); ("Bangladesh", "Asia"); ("Vietnam", "Asia");
   ("Brazil", "South America"); ("Argentina", "South America");
   ("Colombia", "South America"); ("Nigeria", "Africa");
   ("Ethiopia", "Africa"); ("Egypt", "Africa"); ("South Africa", "Africa");
   ("Australia", "Oceania"); ("New Zealand", "Oceania")].

Definition region_mapping : gmap string string := dict_of region_items.

Definition map_regions (country : string) : string :=
  dict_get region_mapping country "Other".

Section Pipeline.
Context `{PF : PyFloat}.

Definition process_row : RawRecord → step city_tuple :=
  BatchRows.process_row map_regions (Val tt).

Definition run : Z → Z → Z → list RawRecord → database → run_result :=
  BatchRows.ranged_run process_row.

(** [batch_size = 1000], [start_row = 12000], 40 batches. *)
Definition script : list RawRecord → database → run_result := run 1000 12000 40.

End Pipeline.
End ContinueNextBatches.

(** *** [scripts/next-batch-set.py] *)

Module NextBatchSet.
Import Py Db.

Definition region_items : list (string * string) :=
  [("Germany", "Europe"); ("France", "Europe"); ("Italy", "Europe");
   ("Spain", "Europe"); ("United Kingdom", "Europe"); ("Poland", "Europe");
   ("Romania", "Europe"); ("Netherlands", "Europe");
   ("Russian Federation", "Europe"); ("Ukraine", "Europe"); ("Turkey", "Asia");
   ("United States", "North America"); ("Canada", "North America");
   ("Mexico", "North America"); ("China", "Asia"); ("India", "Asia");
   ("Japan", "Asia"); ("Philippines", "Asia"); ("Indonesia", "Asia");
   ("Pakistan", "Asia"); ("Bangladesh", "Asia"); ("Vietnam", "Asia");
   ("Brazil", "South America"); ("Argentina", "South America");
   ("Colombia", "South America"); ("Nigeria", "Africa");
   ("Ethiopia", "Africa"); ("Egypt", "Africa"); ("South Africa", "Africa");
   ("Australia", "Oceania"); ("New Zealand", "Oceania")].

Definition region_mapping : gmap string string := dict_of region_items.

Definition map_regions (country : string) : string :=
  dict_get region_mapping country "Other".

Section Pipeline.
Context `{PF : PyFloat}.

Definition process_row : RawRecord → step city_tuple :=
  BatchRows.process_row map_regions (Val tt).

Definition run : Z → Z → Z → list RawRecord → database → run_result :=
  BatchRows.ranged_run process_row.

(** [batch_size = 1000], [start_row = 17000], 30 batches. *)
Definition script : list RawRecord → database → run_result := run 1000 17000 30.

End Pipeline.
End NextBatchSet.

(** *** [scripts/final-push.py] *)

Module FinalPush.
Import Py Db.

Definition region_items : list (string * string) :=
  [("United States", "North America"); ("Canada", "North America");
   ("Mexico", "North America"); ("Germany", "Europe"); ("France", "Europe");
   ("Italy", "Europe"); ("Spain", "Europe"); ("United Kingdom", "Europe");
   ("Poland", "Europe"); ("Romania", "Europe"); ("China", "Asia");
   ("India", "Asia"); ("Japan", "Asia"); ("Philippines", "Asia");
   ("Brazil", "South America"); ("Argentina", "South America");
   ("Colombia", "South America"); ("Nigeria", "Africa");
   ("Ethiopia", "Africa"); ("Egypt", "Africa"); ("Australia", "Oceania");
   ("New Zealand", "Oceania")].

Definition region_mapping : gmap string string := dict_of region_items.

Definition map_regions (country : string) : string :=
  dict_get region_mapping country "Other".

Section Pipeline.
Context `{PF : PyFloat}.

Definition process_row : RawRecord → step city_tuple :=
  BatchRows.process_row map_regions Continue.

Definition run : Z → Z → Z → list RawRecord → database → run_result :=
  BatchRows.capped_run process_row.

(** [batch_size = 3000], [start_row = 28000], [max_batches = 40]. *)
Definition script : list RawRecord → database → run_result := run 3000 28000 40.

End Pipeline.
End FinalPush.

(** *** [scripts/power-import.py] *)

Module PowerImport.
Import Py Db.

Definition region_items : list (string * string) :=
  [("United States", "North America"); ("Canada", "North America");
   ("Mexico", "North America"); ("Germany", "Europe"); ("France", "Europe");
   ("Italy", "Europe"); ("Spain", "Europe"); ("United Kingdom", "Europe");
   ("Poland", "Europe"); ("Romania", "Europe"); ("China", "Asia");
   ("India", "Asia"); ("Japan", "Japan"); ("Philippines", "Asia");
   ("Brazil", "South America"); ("Argentina", "South America");
   ("Colombia", "South America"); ("Nigeria", "Africa");
   ("Ethiopia", "Africa"); ("Egypt", "Africa"); ("Australia", "Oceania");
   ("New Zealand", "Oceania")].

Definition region_mapping : gmap string string := dict_of region_items.

Definition map_regions (country : string) : string :=
  dict_get region_mapping country "Other".

Section Pipeline.
Context `{PF : PyFloat}.

Definition process_row : RawRecord → step city_tuple :=
  BatchRows.process_row map_regions Continue.

Definition run : Z → Z → Z → list RawRecord → database → run_result :=
  BatchRows.capped_run process_row.

(** [batch_size = 1200], [start_row = 100000], [max_batches = 12]. *)
Definition script : list RawRecord → database → run_result := run 1200 100000 12.

End Pipeline.
End PowerImport.

(** *** [scripts/final-batches.py] *)

Module FinalBatches.
Import Py Db.

Definition region_items : list (string * string) :=
  [("United States", "North America"); ("Canada", "North America");
   ("Mexico", "North America"); ("Germany", "Europe"); ("France", "Europe");
   ("Italy", "Europe"); ("Spain", "Europe"); ("United Kingdom", "Europe");
   ("Poland", "Europe"); ("Romania", "Europe"); ("China", "Asia");
   ("India", "Asia"); ("Japan", "Asia"); ("Philippines", "Asia");
   ("Brazil", "South America"); ("Argentina", "South America");
   ("Colombia", "South America"); ("Nigeria", "Africa");
   ("Ethiopia", "Africa"); ("Egypt", "Africa"); ("Australia", "Oceania");
   ("New Zealand", "Oceania")].

Definition region_mapping : gmap string string := dict_of region_items.

Definition map_regions (country : string) : string :=
  dict_get region_mapping country "Other".

Section Pipeline.
Context `{PF : PyFloat}.

Definition process_row : RawRecord → step city_tuple :=
  BatchRows.process_row map_regions Continue.

Definition run : Z → Z → Z → list RawRecord → database → run_result :=
  BatchRows.capped_run process_row.

(** [batch_size = 1000], [start_row = 85000], [max_batches = 15]. *)
Definition script : list RawRecord → database → run_result := run 1000 85000 15.

End Pipeline.
End FinalBatches.

(** *** [scripts/small-batch-import.py] *)

Module SmallBatchImport.
Import Py Db.

Definition region_items : list (string * string) :=
  [("United States", "North America"); ("Canada", "North America");
   ("Mexico", "North America"); ("Germany", "Europe"); ("France", "Europe");
   ("Italy", "Europe"); ("Spain", "Europe"); ("United Kingdom", "Europe");
   ("Poland", "Europe"); ("Romania", "Europe"); ("China", "Asia");
   ("India", "Asia"); ("Japan", "Asia"); ("Philippines", "Asia");
   ("Brazil", "South America"); ("Argentina", "South America");
   ("Colombia", "South America"); ("Nigeria", "Africa");
   ("Ethiopia", "Africa"); ("Egypt", "Africa"); ("Australia", "Oceania");
   ("New Zealand", "Oceania")].

Definition region_mapping : gmap string string := dict_of region_items.

Definition map_regions (country : string) : string :=
  dict_get region_mapping country "Other".

Section Pipeline.
Context `{PF : PyFloat}.

Definition process_row : RawRecord → step city_tuple :=
  BatchRows.process_row map_regions Continue.

Definition run : Z → Z → Z → list RawRecord → database → run_result :=
  BatchRows.capped_run process_row.

(** [batch_size = 800], [start_row = 50000], [max_batches = 20]. *)
Definition script : list RawRecord → database → run_result := run 800 50000 20.

End Pipeline.
End SmallBatchImport.

(** ** Vocabulary of the runs *)

Module RunVocabulary.
Import Py Db Vocabulary.

(** Two region functions give a country the same region, unless one of
    them does not list it. *)
Definition agree (f g : string → string) : Prop :=
  ∀ country, f country = g country ∨ f country = "Other" ∨ g country = "Other".

(** A string with no whitespace at either end. *)
Definition stripped (s : string) : Prop := strip s = s.

Section RunVocabulary.
Context `{PF : PyFloat}.

(** What the rows of a chunk contribute to [cities_data], in order. *)
Definition emitted_rows (process_row : RawRecord → step city_tuple)
    (rows : list RawRecord) : list city_tuple :=
  flat_map (λ row, emitted (process_row row)) rows.

(** The populations fit the column [population INTEGER]. *)
Definition fits (cities_data : list city_tuple) : Prop :=
  Forall (λ t, int4_ok (population t) = true) cities_data.

(** Every stored [id] was drawn from the sequence. *)
Definition db_ids_below_seq (db : database) : Prop :=
  Forall (λ r, id r < next_id db) (table db).

(** The database with the tuples stored behind its rows, under the next
    ids of the sequence. *)
Definition append_rows (db : database) (cities_data : list city_tuple)
    : database :=
  {| table := table db ++ number_rows (next_id db) cities_data;
     next_id := next_id db + Z.of_nat (List.length cities_data) |}.

(** The table [db'] is the table [db] with rows stored behind it, under
    ids drawn from the sequence of [db]. *)
Definition extends (db db' : database) : Prop :=
  ∃ new, table db' = table db ++ new
         ∧ Forall (λ r, next_id db ≤ id r) new
         ∧ next_id db ≤ next_id db'.

(** The table without the rows whose population is greater than 0. *)
Definition cleared (db : database) : database :=
  {| table := List.filter (λ r, negb (population_gt_0 r)) (table db);
     next_id := next_id db |}.

(** The connection once the tuples are stored behind its rows and
    committed. *)
Definition appended (c : connection) (cities_data : list city_tuple)
    : connection :=
  {| committed := working c ++ number_rows (cities_id_seq c) cities_data;
     working := working c ++ number_rows (cities_id_seq c) cities_data;
     cities_id_seq := cities_id_seq c + Z.of_nat (List.length cities_data) |}.

(** An outcome without its value. *)
Definition forget {A : Type} (o : outcome A) : outcome unit :=
  match o with
  | Ok _ c => Ok tt c
  | Err e c => Err e c
  end.

(** Loading batches one after the other, each with its own commit. *)
Fixpoint load_all (batches : list (list city_tuple)) (conn : connection)
    : outcome unit :=
  match batches with
  | [] => Ok tt conn
  | cities_data :: rest =>
      match insert_batch cities_data conn with
      | Ok _ c => load_all rest c
      | Err e c => Err e c
      end
  end.

(** The [k]-th chunk of [batch_size] rows from row [start_row] on. *)
Definition chunk_at (df : list RawRecord) (start_row batch_size : Z) (k : nat)
    : list RawRecord :=
  slice df (start_row + Z.of_nat k * batch_size)
        (start_row + Z.of_nat k * batch_size + batch_size).

(** Loading the first [batches] chunks of [batch_size] rows from row
    [start_row] on. *)
Definition load_chunks (process_row : RawRecord → step city_tuple)
    (df : list RawRecord) (start_row batch_size batches : Z)
    (conn : connection) : outcome unit :=
  load_all (map (λ k, emitted_rows process_row
                                   (chunk_at df start_row batch_size k))
                (seq 0 (Z.to_nat batches))) conn.

(** The coordinates the row loops of the batch scripts other than
    batch-import-cities.py leave in [(latitude, longitude)]: the latitude
    read before the longitude fails stays. *)
Definition lenient_pair (v : cell) : option float * option float :=
  if notna v then
    match split1 "," (strip (str_of_cell v)) with
    | [a; b] =>
        match float_of_str (strip a) with
        | Some x => (Some x, float_of_str (strip b))
        | None => (None, None)
        end
    | _ => (None, None)
    end
  else (None, None).




(** No row stored before a run is in the table after it. *)
Definition earlier_rows_dropped
    (run : list RawRecord → database → run_result) : Prop :=
  ∀ (df : list RawRecord) (db : database) (r : StoredRow),
    r ∈ table db → r ∉ table (final_db (run df db)).

End RunVocabulary.
End RunVocabulary.

(** ** More sample rows *)

Module RunExamples.
Import Py Db Dec Vocabulary Examples.

(** What the row of Springfield emits. *)
Definition springfield_tuple : city_tuple :=
  tuple_of "Springfield" "United States" "North America" (Some 1500)
           (Some (Fin 3978 (-2))) (Some (Fin (-8965) (-2))).

(** A row whose population is infinite. *)
Definition colossus : RawRecord :=
  row_of (CStr "Colossus") (CStr "Atlantis") (CStr "inf") CNaN.

(** Rows in the columns import-cities.py reads. *)
Definition import_row (city country population : cell (PF := dec_float))
    : RawRecord :=
  [("name", city); ("country", country); ("population", population)].

Definition import_lyon : RawRecord :=
  import_row (CStr " Lyon ") (CStr "France") (CNum (Fin 5 5)).

Definition import_kyoto : RawRecord :=
  import_row (CStr "Kyoto") (CStr "Japan") (CStr "n/a").

(** A row whose population is infinite. *)
Definition import_colossus : RawRecord :=
  import_row (CStr "Colossus") (CStr "Atlantis") (CStr "inf").

(** A table that holds one row. *)
Definition oslo_db : database (PF := dec_float) :=
  {| table := [Stored 1 (tuple_of "Oslo" "Norway" "Europe" None None None)];
     next_id := 2 |}.


End RunExamples.

(** * Properties *)

(** ** Strings and dictionaries *)

Module PyFacts.
Import Py.

(** A tab, two spaces, the name, a space and a line feed. *)
Example strip_both_ends :
  strip (String (ascii_of_nat 9) "  Porto Alegre "
         +:+ String (ascii_of_nat 10) "")
  = "Porto Alegre".
Proof. reflexivity. Qed.

Example strip_blank : strip (String (ascii_of_nat 160) "  ") = "".
Proof. reflexivity. Qed.

Example split1_first_comma :
  split1 "," "39.78,-89.65,7" = ["39.78"; "-89.65,7"].
Proof. reflexivity. Qed.

Example split1_no_comma : split1 "," "39.78" = ["39.78"].
Proof. reflexivity. Qed.

Example py_range_by_batches :
  py_range 20000 (Z.min (20000 + 3 * 2000) 25000) 2000
  = [20000; 22000; 24000].
Proof. reflexivity. Qed.

Example slice_last_chunk : slice [1; 2; 3; 4; 5] 4 6 = [5].
Proof. reflexivity. Qed.

Example slice_negative_start : slice [1; 2; 3; 4; 5] (-2) 0 = [].
Proof. reflexivity. Qed.

Example float_of_str_forms :
  Dec.parse " -89.65 " = Some (Dec.Fin (-8965) (-2))
  ∧ Dec.parse "1e3" = Some (Dec.Fin 1 3)
  ∧ Dec.parse "Infinity" = Some (Dec.Inf false)
  ∧ Dec.parse "12,5" = None
  ∧ Dec.parse "" = None.
Proof. repeat split; reflexivity. Qed.

Example int_truncates_toward_zero :
  Dec.trunc (Dec.Fin (-8965) (-2)) = Val (-89)
  ∧ Dec.trunc (Dec.Fin 15 2) = Val 1500
  ∧ Dec.trunc (Dec.Inf false) = Raise OverflowError
  ∧ Dec.trunc Dec.NaN = Raise ValueError.
Proof. repeat split; reflexivity. Qed.

Lemma split1_contains (c : ascii) (s : string) :
  str_contains c s = true →
  ∃ a b, split1 c s = [a; b] ∧ str_contains c a = false.
Proof.
  induction s as [|d s IH]; simpl; [discriminate|].
  destruct (Ascii.eqb d c) eqn:Hd.
  - intros _. by exists EmptyString, s.
  - intros Hs. destruct (IH Hs) as (a & b & -> & Ha).
    exists (String d a), b. split; [done|]. simpl. by rewrite Hd.
Qed.

Lemma split1_not_contains (c : ascii) (s : string) :
  str_contains c s = false → split1 c s = [s].
Proof.
  induction s as [|d s IH]; simpl; [done|].
  destruct (Ascii.eqb d c); [discriminate|].
  intros Hs. by rewrite (IH Hs).
Qed.

(** [float()] of a cell raises nothing but [ValueError] and [TypeError],
    and never leaves the loop body. *)
Lemma float_of_cell_raise `{PF : PyFloat} (v : cell) (e : exn) :
  float_of_cell v = Raise e → e = ValueError ∨ e = TypeError.
Proof.
  destruct v as [|s| |]; simpl; try discriminate.
  - destruct (float_of_str s); [discriminate|]. intros [= <-]. by left.
  - intros [= <-]. by right.
Qed.

Lemma float_of_cell_not_continue `{PF : PyFloat} (v : cell) :
  float_of_cell v ≠ Continue.
Proof.
  destruct v as [|s| |]; simpl; try discriminate.
  by destruct (float_of_str s).
Qed.

Lemma float_of_cell_str `{PF : PyFloat} (s : string) (x : float) :
  float_of_cell (CStr s) = Val x ↔ float_of_str s = Some x.
Proof.
  simpl. destruct (float_of_str s); split; intros [= ->] || intros [=]; done.
Qed.

(** A dictionary display holds a key exactly when one of its items has
    it, and every value it holds is the value of an item. *)
Lemma foldl_insert_lookup (items : list (string * string))
    (m : gmap string string) (k : string) :
  foldl (λ m kv, <[kv.1 := kv.2]> m) m items !! k = None ↔
  m !! k = None ∧ k ∉ items.*1.
Proof.
  revert m. induction items as [|[k' v'] items IH]; intros m; simpl.
  - split; [intros ?; split; [done|apply not_elem_of_nil]|by intros [? _]].
  - rewrite IH, lookup_insert_None, not_elem_of_cons. simpl.
    intuition congruence.
Qed.

Lemma dict_of_lookup_None (items : list (string * string)) (k : string) :
  dict_of items !! k = None ↔ k ∉ items.*1.
Proof.
  unfold dict_of. rewrite foldl_insert_lookup, lookup_empty. tauto.
Qed.

Lemma foldl_insert_values (P : string → Prop) (items : list (string * string))
    (m : gmap string string) :
  map_Forall (λ _ v, P v) m → Forall (λ kv, P kv.2) items →
  map_Forall (λ _ v, P v) (foldl (λ m kv, <[kv.1 := kv.2]> m) m items).
Proof.
  revert m. induction items as [|[k' v'] items IH]; intros m Hm Hitems; simpl.
  - done.
  - inversion_clear Hitems as [|? ? Hv Hrest]. apply IH; [|done].
    by apply map_Forall_insert_2.
Qed.

Lemma dict_of_values (P : string → Prop) (items : list (string * string))
    (k v : string) :
  Forall (λ kv, P kv.2) items → dict_of items !! k = Some v → P v.
Proof.
  intros Hitems Hk.
  apply (foldl_insert_values P items ∅ (map_Forall_empty _) Hitems k v Hk).
Qed.

Lemma dict_get_cases (d : gmap string string) (k dflt : string) :
  (d !! k = None ∧ dict_get d k dflt = dflt)
  ∨ (∃ v, d !! k = Some v ∧ dict_get d k dflt = v).
Proof. unfold dict_get. destruct (d !! k); eauto. Qed.

Lemma int_float_raise `{PF : PyFloat} (v : cell) (e : exn) :
  float_of_cell v = Raise e →
  int_float v = Raise e ∧ existsb (exn_eqb e) [ValueError; TypeError] = true.
Proof.
  intros He. unfold int_float. rewrite He. split; [done|].
  destruct (float_of_cell_raise v e He) as [-> | ->]; done.
Qed.

Lemma truthy_str_nonempty (s : string) : s ≠ "" → truthy_str (Some s) = true.
Proof. by destruct s. Qed.

Lemma getitem_assoc `{PF : PyFloat} (row : RawRecord) (col : string) (v : cell) :
  assoc col row = Some v → getitem row col = Val v.
Proof. unfold getitem. by intros ->. Qed.

End PyFacts.

Module BatchImportFacts.
Import Py Db PyFacts BatchImport Vocabulary.

Lemma region_items_labelled :
  Forall (λ kv : string * string, kv.2 ∈ region_labels) region_items.
Proof. apply (bool_decide_unpack _). by vm_compute. Qed.

(** C8: [map_regions] of batch-import-cities.py is a function of the
    country alone; its value is one of the seven region labels and never
    the empty string; a country that is no key of the dictionary display is
    mapped to ["Other"], and a key to the region the dictionary holds. *)
Theorem map_regions_total_default :
  (∀ country, map_regions country ∈ region_labels)
  ∧ (∀ country, map_regions country ≠ "")
  ∧ (∀ country, country ∉ region_items.*1 → map_regions country = "Other")
  ∧ (∀ country r, region_mapping !! country = Some r → map_regions country = r)
  ∧ (∀ c1 c2, c1 = c2 → map_regions c1 = map_regions c2).
Proof.
  assert (Hlab : ∀ country, map_regions country ∈ region_labels).
  { intros country. unfold map_regions.
    destruct (dict_get_cases region_mapping country "Other")
      as [[_ ->]|(v & Hv & ->)].
    - unfold region_labels. do 6 apply list_elem_of_further. apply list_elem_of_here.
    - apply (dict_of_values (λ v, v ∈ region_labels) region_items country v);
        [apply region_items_labelled|exact Hv]. }
  split; [exact Hlab|]. split; [|split; [|split]].
  - intros country Hblank. specialize (Hlab country). rewrite Hblank in Hlab.
    revert Hlab. apply (bool_decide_eq_false_1 _). by vm_compute.
  - intros country Habsent. unfold map_regions, dict_get, region_mapping.
    by rewrite (proj2 (dict_of_lookup_None region_items country) Habsent).
  - intros country r Hr. unfold map_regions, dict_get. by rewrite Hr.
  - by intros c1 c2 ->.
Qed.

Section Rows.
Context `{PF : PyFloat}.

Lemma text_column_missing (row : RawRecord) (col : string) :
  missing_or_blank row col →
  text_column row col = Raise KeyError
  ∨ ∃ s, text_column row col = Val s ∧ truthy_str s = false.
Proof.
  unfold missing_or_blank, text_column, getitem.
  destruct (assoc col row) as [v|]; simpl; [|by left].
  intros [Hna|Hblank]; right.
  - rewrite Hna. by exists None.
  - destruct (notna v); [|by exists None].
    exists (Some (strip (str_of_cell v))). by rewrite Hblank.
Qed.

(** What [process_row] does, step by step. *)
Lemma process_row_bind (row : RawRecord) :
  process_row row =
  match text_column row "Name" with
  | Val city_name =>
      match text_column row "Country name EN" with
      | Val country =>
          match parse_population row with
          | Val population =>
              match parse_coordinates row with
              | Val (latitude, longitude) =>
                  if negb (truthy_str city_name) || negb (truthy_str country)
                  then Continue
                  else if small_city population then Continue
                  else Val {| name := default "" city_name;
                              country := default "" country;
                              region := map_regions (default "" country);
                              population := population;
                              latitude := latitude; longitude := longitude;
                              timezone := None; is_capital := false |}
              | Continue => Continue
              | Raise e => Raise e
              end
          | Continue => Continue
          | Raise e => Raise e
          end
      | Continue => Continue
      | Raise e => Raise e
      end
  | Continue => Continue
  | Raise e => Raise e
  end.
Proof.
  unfold process_row.
  destruct (text_column row "Name"); simpl; [|done..].
  destruct (text_column row "Country name EN"); simpl; [|done..].
  destruct (parse_population row); simpl; [|done..].
  destruct (parse_coordinates row) as [[? ?]| |]; simpl; done.
Qed.

Lemma process_row_missing (row : RawRecord) :
  missing_or_blank row "Name" ∨ missing_or_blank row "Country name EN" →
  ∀ t, process_row row ≠ Val t.
Proof.
  intros Hmiss t. rewrite process_row_bind.
  destruct Hmiss as [Hm|Hm]; apply text_column_missing in Hm.
  - destruct Hm as [->|(s & -> & Hs)]; [done|].
    destruct (text_column row "Country name EN"); [|done..].
    destruct (parse_population row); [|done..].
    destruct (parse_coordinates row) as [[? ?]| |]; [|done..].
    by rewrite Hs.
  - destruct (text_column row "Name"); [|done..].
    destruct Hm as [->|(s & -> & Hs)]; [done|].
    destruct (parse_population row); [|done..].
    destruct (parse_coordinates row) as [[? ?]| |]; [|done..].
    rewrite Hs. by rewrite orb_true_r.
Qed.

Lemma parse_coordinates_pair (row : RawRecord) :
  parse_coordinates row =
  match assoc "Coordinates" row with
  | Some v => Val (both_or_neither (coordinate_pair v))
  | None => Raise KeyError
  end.
Proof.
  unfold parse_coordinates, getitem, coordinate_pair.
  destruct (assoc "Coordinates" row) as [v|]; simpl; [|done].
  destruct (notna v); [|done].
  destruct (str_contains "," (strip (str_of_cell v))) eqn:Hc.
  - destruct (split1_contains _ _ Hc) as (a & b & -> & _). simpl.
    destruct (float_of_str (strip a)); simpl; [|done].
    destruct (float_of_str (strip b)); simpl; done.
  - rewrite (split1_not_contains _ _ Hc). done.
Qed.

Lemma parse_population_cases (row : RawRecord) :
  parse_population row =
  match assoc "Population" row with
  | Some v =>
      if notna v then
        match int_float v with
        | Val z => Val (Some z)
        | Continue => Continue
        | Raise e =>
            if existsb (exn_eqb e) [ValueError; TypeError] then Val None
            else Raise e
        end
      else Val None
  | None => Raise KeyError
  end.
Proof.
  unfold parse_population, getitem.
  destruct (assoc "Population" row) as [v|]; simpl; [|done].
  destruct (notna v); [|done].
  destruct (int_float v); done.
Qed.

(** The row loop: [cities_data] collects what the rows emit, in order,
    [processed] is its length, and [skipped] counts the other rows. *)
Lemma row_turn_emitted (acc : list city_tuple * nat * nat) (row : RawRecord) :
  row_turn acc row =
  (acc.1.1 ++ emitted (process_row row),
   (acc.1.2 + List.length (emitted (process_row row)))%nat,
   (acc.2 + (1 - List.length (emitted (process_row row))))%nat).
Proof.
  destruct acc as [[cities_data processed] skipped]. unfold row_turn.
  destruct (process_row row); simpl; rewrite ?app_nil_r;
    repeat (f_equal; try lia).
Qed.

Lemma foldl_row_turn (rows : list RawRecord) (acc : list city_tuple * nat * nat) :
  foldl row_turn acc rows =
  (acc.1.1 ++ (collect rows).1.1,
   (acc.1.2 + (collect rows).1.2)%nat,
   (acc.2 + (collect rows).2)%nat).
Proof.
  unfold collect. revert acc.
  induction rows as [|row rows IH] using rev_ind; intros acc.
  - destruct acc as [[? ?] ?]. simpl. rewrite app_nil_r.
    repeat (f_equal; try lia).
  - rewrite !foldl_app. simpl. rewrite !row_turn_emitted.
    rewrite (IH acc). simpl.
    rewrite app_assoc. repeat (f_equal; try lia).
Qed.

Lemma collect_app (before after : list RawRecord) :
  collect (before ++ after) =
  ((collect before).1.1 ++ (collect after).1.1,
   ((collect before).1.2 + (collect after).1.2)%nat,
   ((collect before).2 + (collect after).2)%nat).
Proof. unfold collect at 1. rewrite foldl_app. apply foldl_row_turn. Qed.

Lemma collect_cons (row : RawRecord) (rows : list RawRecord) :
  collect (row :: rows) =
  (emitted (process_row row) ++ (collect rows).1.1,
   (List.length (emitted (process_row row)) + (collect rows).1.2)%nat,
   ((1 - List.length (emitted (process_row row))) + (collect rows).2)%nat).
Proof.
  change (collect (row :: rows))
    with (foldl row_turn (row_turn ([], 0%nat, 0%nat) row) rows).
  rewrite foldl_row_turn, row_turn_emitted. done.
Qed.

Lemma collect_counts (rows : list RawRecord) :
  (collect rows).1.2 = List.length (collect rows).1.1
  ∧ ((collect rows).1.2 + (collect rows).2)%nat = List.length rows.
Proof.
  induction rows as [|row rows [IH1 IH2]]; [done|].
  rewrite collect_cons. simpl. rewrite length_app.
  destruct (process_row row); simpl; lia.
Qed.

(** C9: a row of [process_batch] whose cell ["Name"] or ["Country name EN"]
    is missing (no such column, or no value), or blank once stripped, emits
    no tuple; inside a batch it adds one to [skipped] and nothing to
    [cities_data] or [processed], and the loop goes on. *)
Theorem required_field_drop (row : RawRecord) :
  missing_or_blank row "Name" ∨ missing_or_blank row "Country name EN" →
  (∀ t, process_row row ≠ Val t)
  ∧ ∀ before after,
      collect (before ++ row :: after) =
      ((collect before).1.1 ++ (collect after).1.1,
       ((collect before).1.2 + (collect after).1.2)%nat,
       S ((collect before).2 + (collect after).2)).
Proof.
  intros Hmiss. pose proof (process_row_missing row Hmiss) as Hdrop.
  split; [exact Hdrop|]. intros before after.
  rewrite collect_app, collect_cons.
  assert (Hnone : emitted (process_row row) = []).
  { destruct (process_row row) as [t| |]; [by destruct (Hdrop t)|done..]. }
  rewrite Hnone. simpl. f_equal. lia.
Qed.

End Rows.
End BatchImportFacts.

Module SiblingFacts.
Import Py Db PyFacts Vocabulary.

(** Unfolds the sequencing of a block of statements. *)
Ltac run_block :=
  unfold try_block; cbn;
  repeat (unfold mbind, mret, prog_mbind, prog_mret, prog_bind, lift, assign;
          cbn).

Section Rows.
Context `{PF : PyFloat}.

(** The coordinates block of continue-import.py cannot leave the row: with
    [except: pass] it ends with some pair of values. *)
Lemma continue_coordinates_val (cv : cell) :
  ∃ p, try_block (ContinueImport.coordinates_block cv) (Val tt) (None, None)
       = Val p.
Proof.
  unfold ContinueImport.coordinates_block.
  destruct (str_contains "," (strip (str_of_cell cv))) eqn:Hc;
    [|run_block; by eexists].
  destruct (split1_contains _ _ Hc) as (a & b & -> & _). run_block.
  destruct (float_of_str (strip a)); cbn; [|by eexists].
  destruct (float_of_str (strip b)); cbn; by eexists.
Qed.

Lemma massive_coordinates_val (cv : cell) :
  ∃ p, try_block (MassiveImport.coordinates_block cv) (Val tt) (None, None)
       = Val p.
Proof.
  unfold MassiveImport.coordinates_block.
  destruct (str_contains "," (strip (str_of_cell cv))) eqn:Hc;
    [|run_block; by eexists].
  destruct (split1_contains _ _ Hc) as (a & b & -> & _). run_block.
  destruct (float_of_str (strip a)); cbn; [|by eexists].
  destruct (float_of_str (strip b)); cbn; by eexists.
Qed.

Lemma continue_population_val (pv : cell) (z : Z) :
  int_float pv = Val z →
  try_block (ContinueImport.population_block pv) (Val tt) None =
  if z <? 1000 then Continue else Val (Some z).
Proof.
  intros Hz. unfold ContinueImport.population_block.
  unfold try_block, mbind, prog_mbind, prog_bind, lift. rewrite Hz.
  unfold assign. by destruct (z <? 1000).
Qed.

Lemma massive_population_val (pv : cell) (z : Z) :
  int_float pv = Val z →
  try_block (MassiveImport.population_block pv) Continue None =
  if z >=? 1000 then Val (Some z) else Continue.
Proof.
  intros Hz. unfold MassiveImport.population_block.
  unfold try_block, mbind, prog_mbind, prog_bind, lift. rewrite Hz.
  unfold assign. by destruct (z >=? 1000).
Qed.

Lemma continue_population_raise (pv : cell) (e : exn) :
  float_of_cell pv = Raise e →
  try_block (ContinueImport.population_block pv) (Val tt) None = Val None.
Proof.
  intros He. unfold ContinueImport.population_block.
  unfold try_block, mbind, prog_mbind, prog_bind, lift.
  by rewrite (proj1 (int_float_raise pv e He)).
Qed.

Lemma massive_population_raise (pv : cell) (e : exn) :
  float_of_cell pv = Raise e →
  try_block (MassiveImport.population_block pv) Continue None = Continue.
Proof.
  intros He. unfold MassiveImport.population_block.
  unfold try_block, mbind, prog_mbind, prog_bind, lift.
  by rewrite (proj1 (int_float_raise pv e He)).
Qed.

(** What [process_row] of continue-import.py does, step by step. *)
Lemma continueimport_process_row_bind (row : RawRecord) :
  ContinueImport.process_row row =
  match text_column row "Name" with
  | Val city_name =>
      match text_column row "Country name EN" with
      | Val country =>
          if negb (truthy_str city_name) || negb (truthy_str country)
          then Continue
          else
            match assoc "Population" row with
            | Some pv =>
                match (if notna pv
                       then try_block (ContinueImport.population_block pv)
                                      (Val tt) None
                       else Val None) with
                | Val population =>
                    match assoc "Coordinates" row with
                    | Some cv =>
                        match (if notna cv
                               then try_block (ContinueImport.coordinates_block cv)
                                              (Val tt) (None, None)
                               else Val (None, None)) with
                        | Val coordinates =>
                            Val {| name := default "" city_name;
                                   country := default "" country;
                                   region := ContinueImport.map_regions
                                               (default "" country);
                                   population := population;
                                   latitude := coordinates.1;
                                   longitude := coordinates.2;
                                   timezone := None; is_capital := false |}
                        | Continue => Continue
                        | Raise e => Raise e
                        end
                    | None => Raise KeyError
                    end
                | Continue => Continue
                | Raise e => Raise e
                end
            | None => Raise KeyError
            end
      | Continue => Continue
      | Raise e => Raise e
      end
  | Continue => Continue
  | Raise e => Raise e
  end.
Proof.
  unfold ContinueImport.process_row, getitem.
  destruct (text_column row "Name") as [city_name| |]; simpl; [|done..].
  destruct (text_column row "Country name EN") as [country| |]; simpl;
    [|done..].
  destruct (negb (truthy_str city_name) || negb (truthy_str country));
    [done|].
  destruct (assoc "Population" row) as [pv|]; simpl; [|done].
  destruct (if notna pv then _ else _) as [population| |]; simpl; [|done..].
  destruct (assoc "Coordinates" row) as [cv|]; simpl; [|done].
  destruct (if notna cv then _ else _) as [coordinates| |]; simpl; done.
Qed.

(** What [process_row] of massive-import.py does, step by step. *)
Lemma massiveimport_process_row_bind (row : RawRecord) :
  MassiveImport.process_row row =
  match text_column row "Name" with
  | Val city_name =>
      match text_column row "Country name EN" with
      | Val country =>
          if negb (truthy_str city_name) || negb (truthy_str country)
          then Continue
          else
            match assoc "Population" row with
            | Some pv =>
                match (if notna pv
                       then try_block (MassiveImport.population_block pv)
                                      Continue None
                       else Val None) with
                | Val population =>
                    match assoc "Coordinates" row with
                    | Some cv =>
                        match (if notna cv
                               then try_block (MassiveImport.coordinates_block cv)
                                              (Val tt) (None, None)
                               else Val (None, None)) with
                        | Val coordinates =>
                            Val {| name := default "" city_name;
                                   country := default "" country;
                                   region := MassiveImport.map_regions
                                               (default "" country);
                                   population := population;
                                   latitude := coordinates.1;
                                   longitude := coordinates.2;
                                   timezone := None; is_capital := false |}
                        | Continue => Continue
                        | Raise e => Raise e
                        end
                    | None => Raise KeyError
                    end
                | Continue => Continue
                | Raise e => Raise e
                end
            | None => Raise KeyError
            end
      | Continue => Continue
      | Raise e => Raise e
      end
  | Continue => Continue
  | Raise e => Raise e
  end.
Proof.
  unfold MassiveImport.process_row, getitem.
  destruct (text_column row "Name") as [city_name| |]; simpl; [|done..].
  destruct (text_column row "Country name EN") as [country| |]; simpl;
    [|done..].
  destruct (negb (truthy_str city_name) || negb (truthy_str country));
    [done|].
  destruct (assoc "Population" row) as [pv|]; simpl; [|done].
  destruct (if notna pv then _ else _) as [population| |]; simpl; [|done..].
  destruct (assoc "Coordinates" row) as [cv|]; simpl; [|done].
  destruct (if notna cv then _ else _) as [coordinates| |]; simpl; done.
Qed.

End Rows.
End SiblingFacts.

Module NormalizerClaims.
Import Py Db PyFacts Vocabulary BatchImportFacts SiblingFacts.

Section Rows.
Context `{PF : PyFloat}.

Lemma unparsable_population (row : RawRecord) (city country : string)
    (pv cv : cell) (e : exn) :
  text_column row "Name" = Val (Some city) → city ≠ "" →
  text_column row "Country name EN" = Val (Some country) → country ≠ "" →
  assoc "Population" row = Some pv → notna pv = true →
  float_of_cell pv = Raise e →
  assoc "Coordinates" row = Some cv →
  (∃ t, BatchImport.process_row row = Val t
        ∧ name t = city ∧ Db.country t = country ∧ population t = None)
  ∧ (∃ t, ContinueImport.process_row row = Val t
          ∧ name t = city ∧ Db.country t = country ∧ population t = None)
  ∧ MassiveImport.process_row row = Continue.
Proof.
  intros Hcity Hcity_ne Hcountry Hcountry_ne Hpv Hpv_na He Hcv.
  pose proof (truthy_str_nonempty city Hcity_ne) as Htc.
  pose proof (truthy_str_nonempty country Hcountry_ne) as Htn.
  destruct (int_float_raise pv e He) as [Hint Hcaught].
  split; [|split].
  - rewrite process_row_bind, Hcity, Hcountry, parse_population_cases, Hpv,
      Hpv_na, Hint, Hcaught, parse_coordinates_pair, Hcv.
    destruct (both_or_neither (coordinate_pair cv)) as [la lo].
    rewrite Htc, Htn. simpl. eauto.
  - rewrite continueimport_process_row_bind, Hcity, Hcountry, Htc, Htn, Hpv,
      Hpv_na, (continue_population_raise pv e He), Hcv. simpl.
    destruct (continue_coordinates_val cv) as [p Hp].
    destruct (notna cv); [rewrite Hp|]; eauto.
  - rewrite massiveimport_process_row_bind, Hcity, Hcountry, Htc, Htn, Hpv,
      Hpv_na, (massive_population_raise pv e He). done.
Qed.

Lemma parsed_population_truncated (row : RawRecord) (city country : string)
    (pv cv : cell) (x : float) (z : Z) :
  text_column row "Name" = Val (Some city) → city ≠ "" →
  text_column row "Country name EN" = Val (Some country) → country ≠ "" →
  assoc "Population" row = Some pv → notna pv = true →
  float_of_cell pv = Val x → int_of_float x = Val z →
  assoc "Coordinates" row = Some cv →
  (if BatchImport.small_city (Some z)
   then BatchImport.process_row row = Continue
   else ∃ t, BatchImport.process_row row = Val t ∧ population t = Some z)
  ∧ (if z <? 1000
     then ContinueImport.process_row row = Continue
     else ∃ t, ContinueImport.process_row row = Val t ∧ population t = Some z)
  ∧ (if z <? 1000
     then MassiveImport.process_row row = Continue
     else ∃ t, MassiveImport.process_row row = Val t ∧ population t = Some z).
Proof.
  intros Hcity Hcity_ne Hcountry Hcountry_ne Hpv Hpv_na Hx Hz Hcv.
  pose proof (truthy_str_nonempty city Hcity_ne) as Htc.
  pose proof (truthy_str_nonempty country Hcountry_ne) as Htn.
  assert (Hint : int_float pv = Val z).
  { unfold int_float. rewrite Hx. exact Hz. }
  split; [|split].
  - rewrite process_row_bind, Hcity, Hcountry, parse_population_cases, Hpv,
      Hpv_na, Hint, parse_coordinates_pair, Hcv.
    destruct (both_or_neither (coordinate_pair cv)) as [la lo].
    rewrite Htc, Htn. simpl.
    destruct (BatchImport.small_city (Some z)); [done|eauto].
  - rewrite continueimport_process_row_bind, Hcity, Hcountry, Htc, Htn, Hpv,
      Hpv_na, (continue_population_val pv z Hint), Hcv. simpl.
    destruct (z <? 1000); [done|].
    destruct (continue_coordinates_val cv) as [p Hp].
    destruct (notna cv); [rewrite Hp|]; eauto.
  - rewrite massiveimport_process_row_bind, Hcity, Hcountry, Htc, Htn, Hpv,
      Hpv_na, (massive_population_val pv z Hint), Hcv. simpl.
    rewrite Z.geb_leb. destruct (Z.ltb_spec z 1000) as [Hlt|Hge].
    { by rewrite (proj2 (Z.leb_gt 1000 z) Hlt). }
    rewrite (proj2 (Z.leb_le 1000 z) Hge).
    destruct (massive_coordinates_val cv) as [p Hp].
    destruct (notna cv); [rewrite Hp|]; eauto.
Qed.

(** C4, as amended: batch-import-cities.py and continue-import.py keep a
    row whose population cell does not parse, with the population absent,
    while massive-import.py drops it; when the cell parses and truncates to
    [z], a row that passes the threshold of its script is stored with the
    population [z]. *)
Theorem population_parse_policy :
  keeps_unparsable_population BatchImport.process_row
  ∧ keeps_unparsable_population ContinueImport.process_row
  ∧ (∀ (row : RawRecord) (city country : string) (pv cv : cell) (e : exn),
       text_column row "Name" = Val (Some city) → city ≠ "" →
       text_column row "Country name EN" = Val (Some country) →
       country ≠ "" →
       assoc "Population" row = Some pv → notna pv = true →
       float_of_cell pv = Raise e →
       assoc "Coordinates" row = Some cv →
       MassiveImport.process_row row = Continue)
  ∧ (∀ (row : RawRecord) (city country : string) (pv cv : cell)
       (x : float) (z : Z),
       text_column row "Name" = Val (Some city) → city ≠ "" →
       text_column row "Country name EN" = Val (Some country) →
       country ≠ "" →
       assoc "Population" row = Some pv → notna pv = true →
       float_of_cell pv = Val x → int_of_float x = Val z →
       assoc "Coordinates" row = Some cv →
       (if BatchImport.small_city (Some z)
        then BatchImport.process_row row = Continue
        else ∃ t, BatchImport.process_row row = Val t
                  ∧ population t = Some z)
       ∧ (if z <? 1000
          then ContinueImport.process_row row = Continue
          else ∃ t, ContinueImport.process_row row = Val t
                    ∧ population t = Some z)
       ∧ (if z <? 1000
          then MassiveImport.process_row row = Continue
          else ∃ t, MassiveImport.process_row row = Val t
                    ∧ population t = Some z)).
Proof.
  split; [|split; [|split]].
  - intros row city country pv cv e Hc Hcn Hk Hkn Hpv Hna He Hcv.
    by destruct (unparsable_population row city country pv cv e) as (H & _).
  - intros row city country pv cv e Hc Hcn Hk Hkn Hpv Hna He Hcv.
    by destruct (unparsable_population row city country pv cv e) as (_ & H & _).
  - intros row city country pv cv e Hc Hcn Hk Hkn Hpv Hna He Hcv.
    by destruct (unparsable_population row city country pv cv e) as (_ & _ & H).
  - intros row city country pv cv x z Hc Hcn Hk Hkn Hpv Hna Hx Hz Hcv.
    by apply (parsed_population_truncated row city country pv cv x z).
Qed.

End Rows.

(** C4, the claim as stated fails on massive-import.py: the row of Lyon,
    whose population cell reads ["n/a"], is dropped. *)
Lemma massive_drops_unparsable_population :
  ¬ keeps_unparsable_population (PF := Dec.dec_float)
      MassiveImport.process_row.
Proof.
  intros Hkeeps.
  destruct (Hkeeps Examples.lyon "Lyon" "France" (CStr "n/a")
                   (CStr "45.76,4.84") ValueError)
    as (t & Ht & _); try done.
Qed.

End NormalizerClaims.

Module FilterClaims.
Import Py Db Dec Vocabulary BatchImportFacts Examples.

Lemma small_city_iff (p : option Z) :
  BatchImport.small_city p = true ↔ ∃ z, p = Some z ∧ z ≠ 0 ∧ z < 1000.
Proof.
  unfold BatchImport.small_city, truthy_int. destruct p as [z|]; simpl.
  - rewrite andb_true_iff, negb_true_iff, Z.eqb_neq, Z.ltb_lt.
    split; [intros [? ?]; eauto|intros (z' & [= <-] & ? & ?); done].
  - split; [done|intros (z & [=] & _)].
Qed.

(** C5: the filter [population and population < 1000] of
    batch-import-cities.py rejects 999 and accepts 1000 and an absent
    population, but it also accepts the population 0, which is below 1000:
    the row of Ghost Town is stored, where continue-import.py skips it. *)
Theorem population_zero_not_rejected :
  BatchImport.small_city (Some 999) = true
  ∧ BatchImport.small_city (Some 1000) = false
  ∧ BatchImport.small_city None = false
  ∧ BatchImport.small_city (Some 0) = false
  ∧ BatchImport.process_row
      (row_of (CStr "Ghost Town") (CStr "Canada") (CNum (Fin 0 0)) CNaN)
    = Val (tuple_of "Ghost Town" "Canada" "North America" (Some 0) None None)
  ∧ ContinueImport.process_row
      (row_of (CStr "Ghost Town") (CStr "Canada") (CNum (Fin 0 0)) CNaN)
    = Continue.
Proof.
  split; [apply small_city_iff; exists 999; repeat split; lia|].
  split.
  { apply not_true_is_false. rewrite small_city_iff.
    intros (z & [= <-] & _ & ?). lia. }
  split.
  { apply not_true_is_false. rewrite small_city_iff. by intros (z & [=] & _). }
  split.
  { apply not_true_is_false. rewrite small_city_iff.
    intros (z & [= <-] & ? & _). lia. }
  split; reflexivity.
Qed.

(** C3: on the cell ["12.5,abc"] continue-import.py and massive-import.py
    emit the row with the latitude 12.5 and no longitude: [except: pass]
    keeps the latitude assigned before [float("abc")] raised.  On the same
    row batch-import-cities.py stores neither. *)
Theorem one_sided_coordinate_stored :
  ContinueImport.process_row
    (row_of (CStr "Quito") (CStr "Ecuador") (CNum (Fin 2800 3)) (CStr "12.5,abc"))
  = Val (tuple_of "Quito" "Ecuador" "Other" (Some 2800000)
                  (Some (Fin 125 (-1))) None)
  ∧ MassiveImport.process_row
      (row_of (CStr "Quito") (CStr "Ecuador") (CNum (Fin 2800 3)) (CStr "12.5,abc"))
    = Val (tuple_of "Quito" "Ecuador" "Other" (Some 2800000)
                    (Some (Fin 125 (-1))) None)
  ∧ BatchImport.process_row
      (row_of (CStr "Quito") (CStr "Ecuador") (CNum (Fin 2800 3)) (CStr "12.5,abc"))
    = Val (tuple_of "Quito" "Ecuador" "South America" (Some 2800000) None None).
Proof. repeat split; reflexivity. Qed.

Section Rows.
Context `{PF : PyFloat}.

Lemma stored_coordinates (row : RawRecord) (t : city_tuple) :
  BatchImport.process_row row = Val t →
  ∃ v, assoc "Coordinates" row = Some v
       ∧ (latitude t, longitude t) = both_or_neither (coordinate_pair v).
Proof.
  rewrite process_row_bind, parse_coordinates_pair.
  destruct (text_column row "Name") as [city| |]; [|done..].
  destruct (text_column row "Country name EN") as [country| |]; [|done..].
  destruct (BatchImport.parse_population row) as [population| |]; [|done..].
  destruct (assoc "Coordinates" row) as [v|]; [|done].
  destruct (both_or_neither (coordinate_pair v)) as [la lo] eqn:Hpair.
  destruct (negb (truthy_str city) || negb (truthy_str country)); [done|].
  destruct (BatchImport.small_city population); [done|].
  intros [= <-]. exists v. by rewrite Hpair.
Qed.

(** In batch-import-cities.py the two coordinates are stored together or
    not at all. *)
Lemma batch_pair_atomic (row : RawRecord) (t : city_tuple) :
  BatchImport.process_row row = Val t →
  (latitude t = None ↔ longitude t = None).
Proof.
  intros Ht. destruct (stored_coordinates row t Ht) as (v & _ & Hv).
  destruct (coordinate_pair v) as [[x y]|]; simpl in Hv;
    injection Hv as -> ->; done.
Qed.

(** C7, as amended: the stored latitude and longitude are the two numbers
    read from the cell ["Coordinates"], whatever their size; no range is
    imposed on them. *)
Theorem coordinates_stored_as_parsed (row : RawRecord) (t : city_tuple) :
  BatchImport.process_row row = Val t →
  ∃ v, assoc "Coordinates" row = Some v
       ∧ match coordinate_pair v with
         | Some (x, y) => latitude t = Some x ∧ longitude t = Some y
         | None => latitude t = None ∧ longitude t = None
         end.
Proof.
  intros Ht. destruct (stored_coordinates row t Ht) as (v & Hv & Hpair).
  exists v. split; [exact Hv|].
  destruct (coordinate_pair v) as [[x y]|]; simpl in Hpair;
    injection Hpair as -> ->; by split.
Qed.

End Rows.

(** C7, the claim as stated fails: the cell ["500,-500"] is stored as the
    latitude 500, outside [-90, 90]. *)
Lemma coordinate_out_of_range :
  ¬ coordinate_range_invariant (PF := dec_float).
Proof.
  intros Hinv.
  destruct (Hinv far_away
                 (tuple_of "Nowhere" "Chile" "South America" None
                           (Some (Fin 500 0)) (Some (Fin (-500) 0)))
                 eq_refl) as [Hlat _].
  specialize (Hlat (Fin 500 0) eq_refl). discriminate Hlat.
Qed.

End FilterClaims.

Module SinkFacts.
Import Py Db Vocabulary.

Section Sink.
Context `{PF : PyFloat}.

Lemma id_taken_fresh (i : Z) (rows : list StoredRow) :
  Forall (λ r, id r < i) rows → id_taken i rows = false.
Proof.
  unfold id_taken. induction 1 as [|r rows Hr _ IH]; simpl; [done|].
  rewrite IH, orb_false_r. apply Z.eqb_neq. lia.
Qed.

Lemma length_number_rows (i : Z) (data : list city_tuple) :
  List.length (number_rows i data) = List.length data.
Proof. revert i. induction data as [|t data IH]; intros i; simpl; [done|]. by rewrite IH. Qed.

Lemma number_rows_ids (i : Z) (data : list city_tuple) :
  Forall (λ r, i ≤ id r < i + Z.of_nat (List.length data)) (number_rows i data).
Proof.
  revert i. induction data as [|t data IH]; intros i; simpl; [constructor|].
  constructor; [simpl; lia|].
  eapply Forall_impl; [apply IH|]. simpl. intros r ?. lia.
Qed.

(** One insert into a table whose ids were all drawn from the sequence:
    it stores the row under the next id, or fails on the population. *)
Lemma insert_fresh (b : bool) (t : city_tuple) (c : connection) :
  ids_below_seq c →
  insert b t c =
  if int4_ok (population t)
  then Ok tt {| committed := committed c;
                working := working c ++ [Stored (cities_id_seq c) t];
                cities_id_seq := cities_id_seq c + 1 |}
  else Err DatabaseError c.
Proof.
  intros Hc. unfold insert.
  destruct (int4_ok (population t)); simpl; [|done].
  by rewrite (id_taken_fresh _ _ Hc).
Qed.

Lemma ids_below_seq_snoc (c : connection) (t : city_tuple) :
  ids_below_seq c →
  ids_below_seq {| committed := committed c;
                   working := working c ++ [Stored (cities_id_seq c) t];
                   cities_id_seq := cities_id_seq c + 1 |}.
Proof.
  unfold ids_below_seq. simpl. intros Hc. apply Forall_app. split.
  - eapply Forall_impl; [exact Hc|]. simpl. intros r ?. lia.
  - repeat constructor. simpl. lia.
Qed.

(** [executemany] on such a table: every tuple is stored, in order, under
    consecutive ids, unless a population does not fit the column. *)
Lemma executemany_fresh (b : bool) (data : list city_tuple) (c : connection) :
  ids_below_seq c →
  Forall (λ t, int4_ok (population t) = true) data →
  executemany b data c =
  Ok tt {| committed := committed c;
           working := working c ++ number_rows (cities_id_seq c) data;
           cities_id_seq := cities_id_seq c + Z.of_nat (List.length data) |}.
Proof.
  revert c. induction data as [|t data IH]; intros c Hc Hfit; simpl.
  - rewrite app_nil_r, Z.add_0_r. by destruct c.
  - inversion_clear Hfit as [|? ? Ht Hdata].
    rewrite (insert_fresh b t c Hc), Ht.
    rewrite (IH _ (ids_below_seq_snoc c t Hc) Hdata).
    cbn [committed working cities_id_seq number_rows List.length].
    rewrite <- app_assoc. cbn [app]. rewrite Nat2Z.inj_succ.
    do 2 f_equal. lia.
Qed.

Lemma executemany_ok_fresh (b : bool) (data : list city_tuple)
    (c c' : connection) :
  ids_below_seq c →
  executemany b data c = Ok tt c' →
  c' = {| committed := committed c;
          working := working c ++ number_rows (cities_id_seq c) data;
          cities_id_seq := cities_id_seq c + Z.of_nat (List.length data) |}.
Proof.
  revert c. induction data as [|t data IH]; intros c Hc; simpl.
  - intros [= <-]. rewrite app_nil_r, Z.add_0_r. by destruct c.
  - rewrite (insert_fresh b t c Hc).
    destruct (int4_ok (population t)); [|done].
    intros Hrest. rewrite (IH _ (ids_below_seq_snoc c t Hc) Hrest).
    cbn [committed working cities_id_seq number_rows List.length].
    rewrite <- app_assoc. cbn [app]. rewrite Nat2Z.inj_succ.
    f_equal; lia.
Qed.

Lemma ids_below_seq_executemany (data : list city_tuple) (c : connection) :
  ids_below_seq c →
  ids_below_seq {| committed := committed c;
                   working := working c ++ number_rows (cities_id_seq c) data;
                   cities_id_seq := cities_id_seq c + Z.of_nat (List.length data) |}.
Proof.
  unfold ids_below_seq. simpl. intros Hc. apply Forall_app. split.
  - eapply Forall_impl; [exact Hc|]. simpl. intros r ?. lia.
  - eapply Forall_impl; [apply number_rows_ids|]. simpl. intros r ?. lia.
Qed.

(** Drawing ids from the sequence keeps them below it, whatever the
    statement does with the row. *)
Lemma insert_ids_below_seq (b : bool) (t : city_tuple) (c : connection) :
  ids_below_seq c →
  match insert b t c with
  | Ok _ c' | Err _ c' => ids_below_seq c'
  end.
Proof.
  intros Hc. rewrite (insert_fresh b t c Hc).
  destruct (int4_ok (population t)); [by apply ids_below_seq_snoc|done].
Qed.

Lemma executemany_ids_below_seq (b : bool) (data : list city_tuple)
    (c : connection) :
  ids_below_seq c →
  match executemany b data c with
  | Ok _ c' | Err _ c' => ids_below_seq c'
  end.
Proof.
  revert c. induction data as [|t data IH]; intros c Hc; simpl; [done|].
  pose proof (insert_ids_below_seq b t c Hc) as Hi.
  destruct (insert b t c) as [[] c1|e c1]; [by apply IH|done].
Qed.

Lemma connect_empty_ids_below_seq (n : Z) :
  ids_below_seq (connect {| table := []; next_id := n |}).
Proof. constructor. Qed.

(** The committed rows are touched by [commit] alone. *)
Lemma insert_committed (b : bool) (t : city_tuple) (c : connection) :
  match insert b t c with
  | Ok _ c' | Err _ c' => committed c' = committed c
  end.
Proof.
  unfold insert. destruct (negb (int4_ok (population t))); [done|].
  destruct (id_taken (cities_id_seq c) (working c)); [|done]. by destruct b.
Qed.

Lemma executemany_committed (b : bool) (data : list city_tuple) (c : connection) :
  match executemany b data c with
  | Ok _ c' | Err _ c' => committed c' = committed c
  end.
Proof.
  revert c. induction data as [|t data IH]; intros c; simpl; [done|].
  pose proof (insert_committed b t c) as Hi.
  destruct (insert b t c) as [[] c1|e c1]; [|done].
  specialize (IH c1). destruct (executemany b data c1); congruence.
Qed.

(** Whatever is inserted lands behind the rows already there, under an id
    drawn from the sequence. *)
Lemma insert_grows (base : list StoredRow) (n0 : Z) (b : bool)
    (t : city_tuple) (c : connection) :
  grows_from base n0 c →
  match insert b t c with
  | Ok _ c' | Err _ c' => grows_from base n0 c'
  end.
Proof.
  intros (Hcom & (new & Hw & Hnew) & Hseq). unfold insert.
  destruct (negb (int4_ok (population t))); [by repeat split; eauto|].
  assert (Hskip : grows_from base n0
            {| committed := committed c; working := working c;
               cities_id_seq := cities_id_seq c + 1 |}).
  { repeat split; simpl; eauto. lia. }
  destruct (id_taken (cities_id_seq c) (working c)); [by destruct b|].
  split; [exact Hcom|]. split; simpl; [|lia].
  exists (new ++ [Stored (cities_id_seq c) t]). rewrite Hw, app_assoc.
  split; [done|]. apply Forall_app. split; [done|]. by repeat constructor.
Qed.

Lemma executemany_grows (base : list StoredRow) (n0 : Z) (b : bool)
    (data : list city_tuple) (c : connection) :
  grows_from base n0 c →
  match executemany b data c with
  | Ok _ c' | Err _ c' => grows_from base n0 c'
  end.
Proof.
  revert c. induction data as [|t data IH]; intros c Hc; simpl; [done|].
  pose proof (insert_grows base n0 b t c Hc) as Hi.
  destruct (insert b t c) as [[] c1|e c1]; [|done]. by apply IH.
Qed.

Lemma commit_grows (base : list StoredRow) (n0 : Z) (c : connection) :
  grows_from base n0 c → grows_from base n0 (commit c).
Proof. intros (_ & Hw & Hseq). by repeat split. Qed.

Lemma insert_batch_grows (base : list StoredRow) (n0 : Z)
    (data : list city_tuple) (c : connection) :
  grows_from base n0 c →
  match insert_batch data c with
  | Ok _ c' | Err _ c' => grows_from base n0 c'
  end.
Proof.
  intros Hc. unfold insert_batch. destruct data as [|t data]; [done|].
  pose proof (executemany_grows base n0 true (t :: data) c Hc) as He.
  destruct (executemany true (t :: data) c); [by apply commit_grows|done].
Qed.

Lemma insert_batch_settled (data : list city_tuple) (c c' : connection) :
  settled c → insert_batch data c = Ok tt c' → settled c'.
Proof.
  unfold insert_batch. destruct data as [|t data]; [by intros ? [= <-]|].
  destruct (executemany true (t :: data) c); [|done]. by intros _ [= <-].
Qed.

Lemma connect_close (c : connection) : settled c → connect (close c) = c.
Proof. unfold settled, connect, close. destruct c; simpl. by intros ->. Qed.

End Sink.
End SinkFacts.

Module LoaderClaims.
Import Py Db Dec Vocabulary PyFacts SinkFacts BatchImportFacts Examples.

Section Loader.
Context `{PF : PyFloat}.

(** What [process_batch] returns, whatever the table holds. *)
Lemma process_batch_returns (conn c' : connection) (df_batch : list RawRecord)
    (batch_num : Z) (processed skipped : nat) :
  BatchImport.process_batch conn df_batch batch_num
    = Ok (processed, skipped) c' →
  processed = List.length (BatchImport.collect df_batch).1.1
  ∧ (processed + skipped)%nat = List.length df_batch.
Proof.
  unfold BatchImport.process_batch.
  destruct (collect_counts df_batch) as [Hp Hs].
  destruct (BatchImport.collect df_batch) as [[cities_data p] s].
  simpl in *. destruct cities_data as [|t data].
  - intros [= <- <- ?]. done.
  - destruct (executemany true (t :: data) conn); [|done].
    intros [= <- <- ?]. done.
Qed.

(** C6, as amended: [process_batch] returns [(processed, skipped)], where
    [processed] is the number of tuples it passed to [executemany] and
    [skipped] the number of rows it dropped.  When every stored id was drawn
    from the sequence and the populations fit the column, no tuple
    conflicts, each one is stored under the next id, and [processed] is the
    number of rows the table gained. *)
Theorem process_batch_counts_submitted (conn : connection)
    (df_batch : list RawRecord) (batch_num : Z) :
  ids_below_seq conn →
  Forall (λ t, int4_ok (population t) = true)
         (BatchImport.collect df_batch).1.1 →
  ∃ c', BatchImport.process_batch conn df_batch batch_num
          = Ok (List.length (BatchImport.collect df_batch).1.1,
                (List.length df_batch
                 - List.length (BatchImport.collect df_batch).1.1)%nat) c'
        ∧ working c' = working conn
                       ++ number_rows (cities_id_seq conn)
                                      (BatchImport.collect df_batch).1.1
        ∧ count c'
          = (count conn + List.length (BatchImport.collect df_batch).1.1)%nat.
Proof.
  intros Hconn Hfit. unfold BatchImport.process_batch, count.
  destruct (collect_counts df_batch) as [Hp Hs].
  destruct (BatchImport.collect df_batch) as [[cities_data p] s].
  simpl in *. subst p.
  assert (Hskip : s = (List.length df_batch - List.length cities_data)%nat) by lia.
  destruct cities_data as [|t data].
  - exists conn. rewrite app_nil_r, Hskip. simpl. split; [done|]. split; [done|lia].
  - rewrite (executemany_fresh true (t :: data) conn Hconn Hfit).
    eexists. split; [by rewrite Hskip|]. simpl. split; [done|].
    rewrite length_app. simpl. by rewrite length_number_rows.
Qed.

(** Loading the same tuples twice stores them twice. *)
Lemma insert_batch_twice (data : list city_tuple) (c : connection) :
  ids_below_seq c →
  Forall (λ t, int4_ok (population t) = true) data →
  ∃ c1 c2, insert_batch data c = Ok tt c1 ∧ insert_batch data c1 = Ok tt c2
           ∧ count c1 = (count c + List.length data)%nat
           ∧ count c2 = (count c1 + List.length data)%nat.
Proof.
  intros Hc Hfit. unfold insert_batch, count.
  destruct data as [|t data]; [exists c, c; simpl; repeat split; lia|].
  rewrite (executemany_fresh true (t :: data) c Hc Hfit).
  eexists. eexists. split; [done|].
  cbn [commit working committed cities_id_seq].
  rewrite (executemany_fresh true (t :: data)); [|by apply ids_below_seq_executemany|done].
  split; [done|]. cbn [commit working committed cities_id_seq].
  rewrite !length_app, !length_number_rows. split; lia.
Qed.

End Loader.

(** C6, the claim as stated fails: on a table whose sequence would hand out
    the id of a stored row, the row of Springfield conflicts and is skipped,
    and [process_batch] still returns [processed = 1]. *)
Lemma conflict_row_counted : ¬ returns_inserted_count (PF := dec_float).
Proof.
  intros Hclaim.
  specialize (Hclaim lagging [springfield] 1 1%nat 0%nat
    {| committed := committed lagging; working := working lagging;
       cities_id_seq := 2 |}).
  unfold count in Hclaim. simpl in Hclaim.
  assert (1 = 2)%nat as Habs; [apply Hclaim; [done|reflexivity]|lia].
Qed.

(** C2: loading the batch of Springfield and Unknown City into the empty
    table stores two rows, and loading it again stores two more: the table
    has no uniqueness constraint besides the primary key [id], so
    [ON CONFLICT DO NOTHING] skips nothing and the table ends with each city
    twice. *)
Theorem second_load_duplicates :
  ∃ c1 c2,
    BatchImport.process_batch (connect (Database [] 1))
                              [springfield; unknown_city] 1 = Ok (2%nat, 0%nat) c1
    ∧ count c1 = 2%nat
    ∧ BatchImport.process_batch c1 [springfield; unknown_city] 2
      = Ok (2%nat, 0%nat) c2
    ∧ count c2 = 4%nat
    ∧ fields <$> working c2
      = [tuple_of "Springfield" "United States" "North America" (Some 1500)
                  (Some (Fin 3978 (-2))) (Some (Fin (-8965) (-2)));
         tuple_of "Unknown City" "Nowhereland" "Other" (Some 5000) None None;
         tuple_of "Springfield" "United States" "North America" (Some 1500)
                  (Some (Fin 3978 (-2))) (Some (Fin (-8965) (-2)));
         tuple_of "Unknown City" "Nowhereland" "Other" (Some 5000) None None].
Proof.
  eexists. eexists. split; [reflexivity|]. split; [reflexivity|].
  split; [reflexivity|]. split; reflexivity.
Qed.

(** The end-to-end scenario: of Springfield, Smallville and Unknown City,
    [main] stores the first and the last. *)
Example end_to_end_scenario :
  BatchImport.main [springfield; smallville; unknown_city] empty_db
  = Completed
      {| table :=
           [Stored 1 (tuple_of "Springfield" "United States" "North America"
                               (Some 1500) (Some (Fin 3978 (-2)))
                               (Some (Fin (-8965) (-2))));
            Stored 2 (tuple_of "Unknown City" "Nowhereland" "Other"
                               (Some 5000) None None)];
         next_id := 3 |}.
Proof. reflexivity. Qed.

End LoaderClaims.

Module StartupClaims.
Import Py Db Dec Vocabulary PyFacts SinkFacts Examples.

Section Startup.
Context `{PF : PyFloat}.

Lemma process_batch_grows (base : list StoredRow) (n0 : Z)
    (conn : connection) (df_batch : list RawRecord) (batch_num : Z) :
  grows_from base n0 conn →
  match BatchImport.process_batch conn df_batch batch_num with
  | Ok _ c' | Err _ c' => grows_from base n0 c'
  end.
Proof.
  intros Hconn. unfold BatchImport.process_batch.
  destruct (BatchImport.collect df_batch) as [[cities_data p] s].
  destruct cities_data as [|t data]; [done|].
  pose proof (executemany_grows base n0 true (t :: data) conn Hconn) as He.
  destruct (executemany true (t :: data) conn); [by apply commit_grows|done].
Qed.

Lemma batch_loop_grows (base : list StoredRow) (n0 : Z)
    (df : list RawRecord) (batch_size max_batches : Z) (offsets : list Z)
    (conn : connection) (total_processed total_skipped : nat) (batch_num : Z) :
  grows_from base n0 conn →
  match BatchImport.batch_loop df batch_size max_batches offsets conn
                               total_processed total_skipped batch_num with
  | Ok _ c' | Err _ c' => grows_from base n0 c'
  end.
Proof.
  revert conn total_processed total_skipped batch_num.
  induction offsets as [|i offsets IH];
    intros conn total_processed total_skipped batch_num Hconn; simpl; [done|].
  pose proof (process_batch_grows base n0 conn
                (slice df i (i + batch_size)) batch_num Hconn) as Hb.
  destruct (BatchImport.process_batch conn (slice df i (i + batch_size))
                                      batch_num) as [[processed skipped] c|e c];
    [|done].
  destruct (batch_num + 1 >? max_batches); [done|]. by apply IH.
Qed.

(** What the [DELETE] at the start of [main] leaves, committed. *)
Lemma clear_sample_data_connect (db : database) :
  committed (BatchImport.clear_sample_data (connect db))
    = List.filter (λ r, negb (population_gt_0 r)) (table db)
  ∧ settled (BatchImport.clear_sample_data (connect db)).
Proof. done. Qed.

(** The row loop of [import_cities_data] ends with the list or with an
    exception. *)
Lemma import_collect_not_continue (rows : list RawRecord)
    (cities_data : list city_tuple) :
  ImportCities.collect rows cities_data ≠ Continue.
Proof.
  revert cities_data. induction rows as [|row rows IH]; intros cities_data;
    simpl; [done|].
  destruct (ImportCities.process_row row); [apply IH..|done].
Qed.

(** C10: [main] of batch-import-cities.py commits the deletion of the
    stored rows whose population is greater than 0 before its first batch:
    whatever the run does next, the table it leaves is the old table without
    those rows, followed by rows numbered from the sequence.
    [import_cities_data] deletes every row first: when it returns, the table
    it committed holds the rows it inserted and none from before, so a run
    of import-cities.py that completes leaves nothing of the earlier runs;
    the [DELETE] is committed with the inserts, and a run that an exception
    ends commits neither. *)
Theorem startup_deletes_stored_rows :
  (∀ (batch_size max_batches : Z) (df : list RawRecord) (db : database),
     ∃ new,
       table (final_db (BatchImport.main_with batch_size max_batches df db))
       = List.filter (λ r, negb (population_gt_0 r)) (table db) ++ new
       ∧ Forall (λ r, next_id db ≤ id r) new)
  ∧ (∀ (conn : connection) (df : list RawRecord),
       match ImportCities.import_cities_data conn df with
       | Ok _ c' =>
           ∃ cities_data,
             ImportCities.collect df [] = Val cities_data
             ∧ committed c' = number_rows (cities_id_seq conn) cities_data
             ∧ working c' = committed c'
       | Err _ c' => committed c' = committed conn
       end)
  ∧ (∀ (df : list RawRecord) (db : database),
       match ImportCities.main df db with
       | Completed db' =>
           ∃ cities_data, ImportCities.collect df [] = Val cities_data
                          ∧ table db' = number_rows (next_id db) cities_data
       | Aborted db' => table db' = table db
       end).
Proof.
  assert (Himport : ∀ (conn : connection) (df : list RawRecord),
            match ImportCities.import_cities_data conn df with
            | Ok _ c' =>
                ∃ cities_data,
                  ImportCities.collect df [] = Val cities_data
                  ∧ committed c' = number_rows (cities_id_seq conn) cities_data
                  ∧ working c' = committed c'
            | Err _ c' => committed c' = committed conn
            end).
  { intros conn df. unfold ImportCities.import_cities_data.
    pose proof (import_collect_not_continue df []) as Hloop.
    destruct (ImportCities.collect df []) as [cities_data| |e]; [|done..].
    assert (Hconn : ids_below_seq (delete_all conn)) by constructor.
    pose proof (executemany_committed false cities_data (delete_all conn))
      as Hcom.
    destruct (executemany false cities_data (delete_all conn))
      as [[] c|e c] eqn:Hexec; [|exact Hcom].
    exists cities_data. split; [done|].
    by rewrite (executemany_ok_fresh false cities_data _ c Hconn Hexec). }
  split; [|split; [exact Himport|]].
  - intros batch_size max_batches df db. unfold BatchImport.main_with.
    set (base := List.filter (λ r, negb (population_gt_0 r)) (table db)).
    assert (Hstart : grows_from base (next_id db)
                       (BatchImport.clear_sample_data (connect db))).
    { repeat split; simpl; try lia; exists []; by rewrite app_nil_r. }
    pose proof (batch_loop_grows base (next_id db) df batch_size max_batches
      (py_range 0 (Z.of_nat (List.length df)) batch_size) _ 0%nat 0%nat 1 Hstart)
      as Hend.
    destruct (BatchImport.batch_loop _ _ _ _ _ _ _ _) as [? c|? c];
      destruct Hend as ((new & Hnew & Hids) & _); by exists new.
  - intros df db. unfold ImportCities.main, ImportCities.create_cities_table.
    specialize (Himport (commit (connect db)) df).
    destruct (ImportCities.import_cities_data (commit (connect db)) df)
      as [[] c|e c]; simpl.
    + destruct Himport as (cities_data & Hdata & Hcom & _). eauto.
    + exact Himport.
Qed.

End Startup.

(** An import that an exception ends: the population of the second row
    does not fit the column [population INTEGER], the insert fails, and the
    row stored before the run is still there. *)
Example import_aborted_keeps_rows :
  ImportCities.main
    [springfield;
     row_of (CStr "Colossus") (CStr "Atlantis") (CNum (Fin 3 9)) CNaN]
    {| table := [Stored 1 (tuple_of "Oslo" "Norway" "Europe" None None None)];
       next_id := 2 |}
  = Aborted
      {| table := [Stored 1 (tuple_of "Oslo" "Norway" "Europe" None None None)];
         next_id := 3 |}.
Proof. reflexivity. Qed.

(** C10, the claim as stated fails: the row of Oslo, whose population is
    unknown, is still in the table after a run of [main] of
    batch-import-cities.py, and after a run of import-cities.py that an
    infinite population ends. *)
Lemma earlier_rows_survive :
  ¬ RunVocabulary.earlier_rows_dropped (PF := dec_float) BatchImport.main
  ∧ ¬ RunVocabulary.earlier_rows_dropped (PF := dec_float)
        ImportCities.main.
Proof.
  split; intros Hclaim.
  - apply (Hclaim [springfield] RunExamples.oslo_db
             (Stored 1 (tuple_of "Oslo" "Norway" "Europe" None None None)));
      apply list_elem_of_here.
  - apply (Hclaim [RunExamples.import_lyon; RunExamples.import_colossus] RunExamples.oslo_db
             (Stored 1 (tuple_of "Oslo" "Norway" "Europe" None None None)));
      apply list_elem_of_here.
Qed.

End StartupClaims.

Module ResumeClaims.
Import Py Db Dec Vocabulary PyFacts SinkFacts Examples.


(** A range splits at any of its points. *)
Lemma py_range_app (start stop stp m : Z) :
  0 < stp → 0 ≤ m → start + m * stp ≤ stop →
  py_range start stop stp
  = py_range start (start + m * stp) stp ++ py_range (start + m * stp) stop stp.
Proof.
  intros Hstp Hm Hstop. unfold py_range.
  replace (start + m * stp - start + (stp - 1)) with (stp - 1 + m * stp) by lia.
  rewrite Z.div_add by lia. rewrite (Z.div_small (stp - 1) stp) by lia.
  replace (stop - start + (stp - 1))
    with (stop - (start + m * stp) + (stp - 1) + m * stp) by lia.
  rewrite Z.div_add by lia.
  set (n := (stop - (start + m * stp) + (stp - 1)) / stp).
  assert (0 ≤ n) as Hn by (apply Z.div_pos; lia).
  replace (Z.to_nat (n + m)) with (Z.to_nat m + Z.to_nat n)%nat by lia.
  rewrite seq_app, map_app, Z.add_0_l. f_equal.
  replace (seq (0 + Z.to_nat m) (Z.to_nat n))
    with (Nat.add (Z.to_nat m) <$> seq 0 (Z.to_nat n))
    by (rewrite fmap_add_seq; f_equal; lia).
  rewrite map_map. apply map_ext. intros k. lia.
Qed.

Lemma length_py_range (start stop stp : Z) :
  List.length (py_range start stop stp)
  = Z.to_nat ((stop - start + (stp - 1)) / stp).
Proof. unfold py_range. by rewrite length_map, length_seq. Qed.

(** The first [k] items of a range are the range up to its [k]-th point. *)
Lemma take_py_range (start stop stp : Z) (k : nat) :
  0 < stp →
  take k (py_range start stop stp)
  = py_range start (Z.min (start + Z.of_nat k * stp) stop) stp.
Proof.
  intros Hstp.
  destruct (Z.le_gt_cases (start + Z.of_nat k * stp) stop) as [Hle|Hgt].
  - rewrite Z.min_l by done.
    rewrite (py_range_app start stop stp (Z.of_nat k)) by lia.
    apply take_app_length'. rewrite length_py_range.
    replace (start + Z.of_nat k * stp - start + (stp - 1))
      with (stp - 1 + Z.of_nat k * stp) by lia.
    rewrite Z.div_add by lia. rewrite (Z.div_small (stp - 1) stp) by lia.
    lia.
  - rewrite Z.min_r by lia. apply take_ge. rewrite length_py_range.
    assert ((stop - start + (stp - 1)) / stp < Z.of_nat k + 1) as Hn.
    { apply Z.div_lt_upper_bound; lia. }
    lia.
Qed.


Section Resume.
Context `{PF : PyFloat}.

(** *** massive-import.py *)




Lemma massive_run_result (batch_size start_row max_batches : Z)
    (df : list RawRecord) (db : database) :
  MassiveImport.run batch_size start_row max_batches df db
  = result_of
      (MassiveImport.batch_loop df batch_size
         (py_range start_row
            (Z.min (start_row + max_batches * batch_size)
                   (Z.of_nat (List.length df))) batch_size)
         (connect db) 0).
Proof. done. Qed.


(** *** continue-import.py *)








End Resume.
End ResumeClaims.

(** ** The runs of the batch scripts *)

Module StripFacts.
Import Py.

Lemma rstrip_idemp (s : string) : rstrip (rstrip s) = rstrip s.
Proof.
  induction s as [|c s IH]; simpl; [done|].
  destruct (rstrip s) as [|d r] eqn:Hr.
  - destruct (isspace c) eqn:Hc; simpl; [done|]. by rewrite Hc.
  - change (rstrip (String c (String d r))) with
      (match rstrip (String d r) with
       | EmptyString => if isspace c then EmptyString else String c EmptyString
       | r' => String c r'
       end).
    by rewrite IH.
Qed.

(** [rstrip] keeps the first character of what it leaves. *)
Lemma rstrip_head (c : ascii) (s : string) :
  isspace c = false → ∃ r, rstrip (String c s) = String c r.
Proof.
  intros Hc. simpl. destruct (rstrip s); [rewrite Hc|]; eauto.
Qed.

Lemma lstrip_head (s : string) :
  lstrip s = EmptyString ∨ ∃ c r, lstrip s = String c r ∧ isspace c = false.
Proof.
  induction s as [|c s IH]; simpl; [by left|].
  destruct (isspace c) eqn:Hc; [done|]. right. eauto.
Qed.

Lemma strip_idemp (s : string) : strip (strip s) = strip s.
Proof.
  unfold strip. destruct (lstrip_head s) as [->|(c & r & -> & Hc)]; [done|].
  destruct (rstrip_head c r Hc) as [r' Hr']. rewrite Hr'. simpl lstrip.
  rewrite Hc, <- Hr'. apply rstrip_idemp.
Qed.

End StripFacts.

Module RowFacts.
Import Py Db Vocabulary RunVocabulary PyFacts StripFacts SiblingFacts.

Section Rows.
Context `{PF : PyFloat}.

(** The block on the population under either handler. *)
Lemma population_block_outcome (pv : cell) (handler : step unit) :
  try_block (ContinueImport.population_block pv) handler None =
  match int_float pv with
  | Val z => if z <? 1000 then Continue else Val (Some z)
  | Continue => Continue
  | Raise _ => _ ← handler; Val None
  end.
Proof.
  unfold ContinueImport.population_block.
  unfold try_block, mbind at 1, prog_mbind, prog_bind, lift.
  destruct (int_float pv) as [z| |e]; [|done..].
  unfold mbind, prog_mbind, prog_bind, assign. by destruct (z <? 1000).
Qed.

Lemma massive_population_block_outcome (pv : cell) :
  try_block (MassiveImport.population_block pv) Continue None
  = try_block (ContinueImport.population_block pv) Continue None.
Proof.
  rewrite population_block_outcome. unfold MassiveImport.population_block.
  unfold try_block, mbind, prog_mbind, prog_bind, lift.
  destruct (int_float pv) as [z| |e]; [|done..].
  rewrite Z.geb_leb. unfold assign.
  destruct (Z.ltb_spec z 1000) as [Hlt|Hge].
  - by rewrite (proj2 (Z.leb_gt 1000 z) Hlt).
  - by rewrite (proj2 (Z.leb_le 1000 z) Hge).
Qed.

(** The block on the coordinates, in either spelling, ends with
    [lenient_pair]. *)
Lemma coordinates_block_outcome (cv : cell) :
  (if notna cv
   then try_block (ContinueImport.coordinates_block cv) (Val tt) (None, None)
   else Val (None, None))
  = Val (lenient_pair cv).
Proof.
  unfold lenient_pair. destruct (notna cv); [|done].
  unfold ContinueImport.coordinates_block.
  destruct (str_contains "," (strip (str_of_cell cv))) eqn:Hc.
  - destruct (split1_contains _ _ Hc) as (a & b & -> & _). run_block.
    destruct (float_of_str (strip a)); cbn; [|done].
    destruct (float_of_str (strip b)); cbn; done.
  - rewrite (split1_not_contains _ _ Hc). by run_block.
Qed.

Lemma massive_coordinates_block_outcome (cv : cell) :
  (if notna cv
   then try_block (MassiveImport.coordinates_block cv) (Val tt) (None, None)
   else Val (None, None))
  = Val (lenient_pair cv).
Proof.
  unfold lenient_pair. destruct (notna cv); [|done].
  unfold MassiveImport.coordinates_block.
  destruct (str_contains "," (strip (str_of_cell cv))) eqn:Hc.
  - destruct (split1_contains _ _ Hc) as (a & b & -> & _). run_block.
    destruct (float_of_str (strip a)); cbn; [|done].
    destruct (float_of_str (strip b)); cbn; done.
  - rewrite (split1_not_contains _ _ Hc). by run_block.
Qed.

(** What a text column holds when it is there. *)
Lemma text_column_some (row : RawRecord) (col s : string) :
  text_column row col = Val (Some s) →
  ∃ v, assoc col row = Some v ∧ notna v = true ∧ s = strip (str_of_cell v).
Proof.
  unfold text_column, getitem. destruct (assoc col row) as [v|]; [|done].
  simpl. destruct (notna v) eqn:Hv; [|done]. intros [= <-]. eauto.
Qed.

Lemma text_column_truthy (row : RawRecord) (col : string) (s : option string) :
  text_column row col = Val s → truthy_str s = true →
  default "" s ≠ "" ∧ stripped (default "" s).
Proof.
  intros Hcol Hs. destruct s as [s|]; [|done]. simpl.
  destruct (text_column_some row col s Hcol) as (v & _ & _ & ->).
  split; [by destruct (strip (str_of_cell v))|apply strip_idemp].
Qed.

(** The row loop shared by the batch scripts, step by step. *)
Lemma batch_row_steps (map_regions : string → string) (handler : step unit)
    (row : RawRecord) :
  BatchRows.process_row map_regions handler row =
  match text_column row "Name" with
  | Val city_name =>
      match text_column row "Country name EN" with
      | Val country =>
          if negb (truthy_str city_name) || negb (truthy_str country)
          then Continue
          else
            match assoc "Population" row with
            | Some pv =>
                match (if notna pv
                       then try_block (ContinueImport.population_block pv)
                                      handler None
                       else Val None) with
                | Val population =>
                    match assoc "Coordinates" row with
                    | Some cv =>
                        Val {| name := default "" city_name;
                               country := default "" country;
                               region := map_regions (default "" country);
                               population := population;
                               latitude := (lenient_pair cv).1;
                               longitude := (lenient_pair cv).2;
                               timezone := None; is_capital := false |}
                    | None => Raise KeyError
                    end
                | Continue => Continue
                | Raise e => Raise e
                end
            | None => Raise KeyError
            end
      | Continue => Continue
      | Raise e => Raise e
      end
  | Continue => Continue
  | Raise e => Raise e
  end.
Proof.
  unfold BatchRows.process_row, getitem.
  destruct (text_column row "Name") as [city_name| |]; simpl; [|done..].
  destruct (text_column row "Country name EN") as [country| |]; simpl;
    [|done..].
  destruct (negb (truthy_str city_name) || negb (truthy_str country));
    [done|].
  destruct (assoc "Population" row) as [pv|]; simpl; [|done].
  destruct (if notna pv then _ else _) as [population| |]; simpl; [|done..].
  destruct (assoc "Coordinates" row) as [cv|]; simpl; [|done].
  by rewrite coordinates_block_outcome.
Qed.

End Rows.
End RowFacts.

Module RowProperties.
Import Py Db Vocabulary RunVocabulary PyFacts StripFacts SiblingFacts RowFacts
       BatchImportFacts.

Section Rows.
Context `{PF : PyFloat}.

(** X4: massive-import.py spells the row loop differently ([if pop >= 1000],
    [parts[0]], [parts[1]]) and emits, row for row, what the loop of
    final-push.py emits with the region table of massive-import.py;
    continue-import.py is the shared loop with [except: pass]. *)
Theorem massive_row_is_shared_row (row : RawRecord) :
  MassiveImport.process_row row
  = BatchRows.process_row MassiveImport.map_regions Continue row
  ∧ ContinueImport.process_row row
    = BatchRows.process_row ContinueImport.map_regions (Val tt) row.
Proof.
  split; [|reflexivity].
  rewrite massiveimport_process_row_bind, batch_row_steps.
  destruct (text_column row "Name") as [city_name| |]; [|done..].
  destruct (text_column row "Country name EN") as [country| |]; [|done..].
  destruct (negb (truthy_str city_name) || negb (truthy_str country));
    [done|].
  destruct (assoc "Population" row) as [pv|]; [|done].
  rewrite massive_population_block_outcome.
  destruct (if notna pv then _ else _) as [population| |]; [|done..].
  destruct (assoc "Coordinates" row) as [cv|]; [|done].
  by rewrite massive_coordinates_block_outcome.
Qed.

Lemma lenient_pair_longitude (cv : cell) :
  is_Some (lenient_pair cv).2 → is_Some (lenient_pair cv).1.
Proof.
  unfold lenient_pair. destruct (notna cv); [|done].
  destruct (split1 "," (strip (str_of_cell cv))) as [|a [|b [|? ?]]];
    try done.
  destruct (float_of_str (strip a)); simpl; eauto.
Qed.

(** X2: Every tuple the shared row loop emits: a name and a country that are
    not empty and carry no whitespace at their ends, the region of the
    country, a population of at least 1000 when there is one, no longitude
    without a latitude, no time zone, not a capital. *)
Theorem shared_row_invariants (map_regions : string → string)
    (handler : step unit) (row : RawRecord) (t : city_tuple) :
  BatchRows.process_row map_regions handler row = Val t →
  name t ≠ "" ∧ stripped (name t)
  ∧ country t ≠ "" ∧ stripped (country t)
  ∧ region t = map_regions (country t)
  ∧ (∀ z, population t = Some z → 1000 ≤ z)
  ∧ (is_Some (longitude t) → is_Some (latitude t))
  ∧ timezone t = None ∧ is_capital t = false.
Proof.
  rewrite batch_row_steps.
  destruct (text_column row "Name") as [city_name| |] eqn:Hname; [|done..].
  destruct (text_column row "Country name EN") as [country_name| |]
    eqn:Hcountry; [|done..].
  destruct (truthy_str city_name) eqn:Htn; [|done].
  destruct (truthy_str country_name) eqn:Htc; [|done]. simpl.
  destruct (assoc "Population" row) as [pv|]; [|done].
  destruct (if notna pv then _ else _) as [population| |] eqn:Hpop; [|done..].
  destruct (assoc "Coordinates" row) as [cv|]; [|done].
  intros [= <-]. simpl.
  destruct (text_column_truthy row "Name" city_name Hname Htn) as [? ?].
  destruct (text_column_truthy row "Country name EN" country_name Hcountry Htc)
    as [? ?].
  repeat split; try done; [|apply lenient_pair_longitude].
  intros z ->. destruct (notna pv); [|done].
  rewrite population_block_outcome in Hpop.
  destruct (int_float pv) as [z'| |e]; [|done|].
  - destruct (Z.ltb_spec z' 1000); [done|]. by injection Hpop as ->.
  - by destruct handler.
Qed.

(** X3: A tuple without a population.  Under [except: continue]
    (massive-import.py, final-push.py and the like) the cell was empty;
    under [except: pass] (continue-import.py, complete-import.py and the
    like) it was empty or could not be read as a whole number. *)
Theorem absent_population_cell (map_regions : string → string)
    (row : RawRecord) (t : city_tuple) :
  (BatchRows.process_row map_regions Continue row = Val t →
   (population t = None ↔
    ∃ pv, assoc "Population" row = Some pv ∧ notna pv = false))
  ∧ (BatchRows.process_row map_regions (Val tt) row = Val t →
     (population t = None ↔
      ∃ pv, assoc "Population" row = Some pv
            ∧ (notna pv = false ∨ ∃ e, int_float pv = Raise e))).
Proof.
  split; rewrite batch_row_steps;
    (destruct (text_column row "Name") as [city_name| |]; [|done..]);
    (destruct (text_column row "Country name EN") as [country_name| |];
       [|done..]);
    (destruct (negb (truthy_str city_name) || negb (truthy_str country_name));
       [done|]);
    (destruct (assoc "Population" row) as [pv|]; [|done]);
    rewrite population_block_outcome;
    (destruct (notna pv) eqn:Hna;
       [destruct (int_float pv) as [z| |e] eqn:Hint;
          [destruct (z <? 1000); [done|]|done|]|]);
    simpl; try done;
    (destruct (assoc "Coordinates" row) as [cv|]; [|done]);
    intros [= <-]; simpl.
  - split; [done|]. intros (pv' & [= <-] & ?). congruence.
  - split; [by eauto|done].
  - split; [done|]. intros (pv' & [= <-] & [?|[e' ?]]); congruence.
  - split; [by eauto 6|done].
  - split; [by eauto|done].
Qed.

Lemma batch_region_label (country : string) :
  BatchImport.map_regions country ∈ region_labels.
Proof.
  unfold BatchImport.map_regions.
  destruct (dict_get_cases BatchImport.region_mapping country "Other")
    as [[_ ->]|(v & Hv & ->)].
  - unfold region_labels. do 6 apply list_elem_of_further.
    apply list_elem_of_here.
  - apply (dict_of_values (λ v, v ∈ region_labels) BatchImport.region_items
             country v); [apply region_items_labelled|exact Hv].
Qed.

(** X1: Every tuple [process_batch] of batch-import-cities.py emits: a name
    and a country that are not empty and carry no whitespace at their ends,
    one of the seven regions, a population that is 0 or at least 1000 when
    there is one, both coordinates or neither. *)
Theorem batch_import_row_invariants (row : RawRecord) (t : city_tuple) :
  BatchImport.process_row row = Val t →
  name t ≠ "" ∧ stripped (name t)
  ∧ country t ≠ "" ∧ stripped (country t)
  ∧ region t = BatchImport.map_regions (country t)
  ∧ region t ∈ region_labels
  ∧ (∀ z, population t = Some z → z = 0 ∨ 1000 ≤ z)
  ∧ (latitude t = None ↔ longitude t = None)
  ∧ timezone t = None ∧ is_capital t = false.
Proof.
  rewrite process_row_bind, parse_coordinates_pair.
  destruct (text_column row "Name") as [city_name| |] eqn:Hname; [|done..].
  destruct (text_column row "Country name EN") as [country_name| |]
    eqn:Hcountry; [|done..].
  destruct (BatchImport.parse_population row) as [population| |]; [|done..].
  destruct (assoc "Coordinates" row) as [cv|]; [|done].
  destruct (both_or_neither (coordinate_pair cv)) as [la lo] eqn:Hpair.
  destruct (truthy_str city_name) eqn:Htn; [|done].
  destruct (truthy_str country_name) eqn:Htc; [|done]. simpl.
  destruct (BatchImport.small_city population) eqn:Hsmall; [done|].
  intros [= <-]. simpl.
  destruct (text_column_truthy row "Name" city_name Hname Htn) as [? ?].
  destruct (text_column_truthy row "Country name EN" country_name Hcountry Htc)
    as [? ?].
  repeat split; try done.
  - apply batch_region_label.
  - intros z ->. unfold BatchImport.small_city, truthy_int in Hsmall.
    destruct (Z.eqb_spec z 0); [by left|]. simpl in Hsmall.
    right. by apply Z.ltb_ge.
  - destruct (coordinate_pair cv) as [[x y]|]; simpl in Hpair;
      by injection Hpair as <- <-.
  - destruct (coordinate_pair cv) as [[x y]|]; simpl in Hpair;
      by injection Hpair as <- <-.
Qed.

End Rows.
End RowProperties.

Module LoadFacts.
Import Py Db Vocabulary RunVocabulary SinkFacts.

Section Load.
Context `{PF : PyFloat}.

Lemma number_rows_app (i : Z) (a b : list city_tuple) :
  number_rows i (a ++ b)
  = number_rows i a ++ number_rows (i + Z.of_nat (List.length a)) b.
Proof.
  revert i. induction a as [|t a IH]; intros i.
  - simpl. by rewrite Z.add_0_r.
  - cbn [app number_rows List.length]. rewrite IH, Nat2Z.inj_succ.
    do 3 f_equal. lia.
Qed.

Lemma fields_number_rows (i : Z) (data : list city_tuple) :
  fields <$> number_rows i data = data.
Proof.
  revert i. induction data as [|t data IH]; intros i; [done|].
  cbn [number_rows fmap list_fmap]. f_equal. apply IH.
Qed.

Lemma appended_nil (c : connection) : settled c → appended c [] = c.
Proof.
  unfold settled, appended. destruct c as [com wor seq]. simpl. intros ->.
  by rewrite app_nil_r, Z.add_0_r.
Qed.

Lemma appended_app (c : connection) (a b : list city_tuple) :
  appended (appended c a) b = appended c (a ++ b).
Proof.
  unfold appended. simpl. rewrite number_rows_app, !app_assoc, length_app.
  f_equal. lia.
Qed.

Lemma appended_settled (c : connection) (data : list city_tuple) :
  settled (appended c data).
Proof. done. Qed.

Lemma appended_ids_below_seq (c : connection) (data : list city_tuple) :
  ids_below_seq c → ids_below_seq (appended c data).
Proof. apply ids_below_seq_executemany. Qed.

Lemma close_appended (db : database) (data : list city_tuple) :
  close (appended (connect db) data) = append_rows db data.
Proof. done. Qed.

(** One batch on a table whose ids come from the sequence. *)
Lemma insert_batch_fresh (data : list city_tuple) (c : connection) :
  settled c → ids_below_seq c → fits data →
  insert_batch data c = Ok tt (appended c data).
Proof.
  intros Hs Hc Hfit. unfold insert_batch. destruct data as [|t data].
  - by rewrite appended_nil.
  - by rewrite (executemany_fresh true (t :: data) c Hc Hfit).
Qed.

Lemma load_all_fresh (batches : list (list city_tuple)) (c : connection) :
  settled c → ids_below_seq c → fits (List.concat batches) →
  load_all batches c = Ok tt (appended c (List.concat batches)).
Proof.
  revert c. induction batches as [|data batches IH]; intros c Hs Hc Hfit.
  - simpl. by rewrite appended_nil.
  - simpl in *. apply Forall_app in Hfit as [Hdata Hrest].
    rewrite (insert_batch_fresh data c Hs Hc Hdata).
    rewrite IH; [by rewrite appended_app|done| |done].
    by apply appended_ids_below_seq.
Qed.

(** A statement with [ON CONFLICT DO NOTHING] fails on nothing but a
    population that does not fit. *)
Lemma insert_conflict_free (t : city_tuple) (c : connection) :
  (∃ c', insert true t c = Ok tt c') ↔ int4_ok (population t) = true.
Proof.
  unfold insert. destruct (int4_ok (population t)); simpl.
  - split; [done|intros _].
    destruct (id_taken (cities_id_seq c) (working c)); eauto.
  - split; [by intros [c' ?]|done].
Qed.

Lemma executemany_conflict_free (data : list city_tuple) (c : connection) :
  (∃ c', executemany true data c = Ok tt c') ↔ fits data.
Proof.
  revert c. induction data as [|t data IH]; intros c; simpl.
  - split; [intros _; constructor|eauto].
  - unfold fits. rewrite Forall_cons. fold (fits data).
    rewrite <- (insert_conflict_free t c).
    destruct (insert true t c) as [[] c1|e c1].
    + rewrite (IH c1). split; [intros ?; split; eauto|by intros [_ ?]].
    + split; [by intros [c' ?]|by intros [[c' ?] _]].
Qed.

(** What is stored stays: a statement adds rows behind the others. *)
Lemma insert_prefix (b : bool) (t : city_tuple) (c : connection) :
  match insert b t c with
  | Ok _ c' | Err _ c' => working c `prefix_of` working c'
  end.
Proof.
  unfold insert. destruct (negb (int4_ok (population t))); [done|].
  destruct (id_taken (cities_id_seq c) (working c)); [by destruct b|].
  simpl. by apply prefix_app_r.
Qed.

Lemma executemany_prefix (b : bool) (data : list city_tuple) (c : connection) :
  match executemany b data c with
  | Ok _ c' | Err _ c' => working c `prefix_of` working c'
  end.
Proof.
  revert c. induction data as [|t data IH]; intros c; simpl; [done|].
  pose proof (insert_prefix b t c) as Hi.
  destruct (insert b t c) as [[] c1|e c1]; [|done].
  specialize (IH c1). destruct (executemany b data c1); by etrans.
Qed.

End Load.
End LoadFacts.

Module SliceFacts.
Import Py ResumeClaims.

Section Slices.
Context {A : Type}.
Implicit Types df : list A.

(** A slice between bounds that are not negative. *)
Lemma slice_nonneg df (i j : Z) :
  0 ≤ i → 0 ≤ j →
  slice df i j = take (Z.to_nat j - Z.to_nat i) (drop (Z.to_nat i) df).
Proof.
  intros Hi Hj. unfold slice, slice_bound.
  rewrite (proj2 (Z.ltb_ge i 0) Hi), (proj2 (Z.ltb_ge j 0) Hj).
  set (len := Z.of_nat (List.length df)).
  destruct (Z.le_gt_cases len i) as [Hle|Hlt].
  - rewrite !drop_ge by (try rewrite Z.min_r by lia; unfold len in *; lia).
    by rewrite !take_nil.
  - rewrite (Z.min_l i len) by lia.
    destruct (Z.le_gt_cases j len) as [Hjl|Hjg].
    + by rewrite Z.min_l by lia.
    + rewrite Z.min_r by lia.
      rewrite !take_ge; [done|rewrite length_drop..]; unfold len in *; lia.
Qed.

Lemma slice_app df (a b c : Z) :
  0 ≤ a → a ≤ b → b ≤ c → slice df a b ++ slice df b c = slice df a c.
Proof.
  intros Ha Hb Hc. rewrite !slice_nonneg by lia.
  replace (drop (Z.to_nat b) df)
    with (drop (Z.to_nat b - Z.to_nat a) (drop (Z.to_nat a) df))
    by (rewrite drop_drop; f_equal; lia).
  rewrite take_take_drop. f_equal. lia.
Qed.

(** Python clips the upper bound of a slice to the length. *)
Lemma slice_clip df (i j : Z) :
  0 ≤ i → Z.of_nat (List.length df) ≤ j →
  slice df i j = slice df i (Z.of_nat (List.length df)).
Proof.
  intros Hi Hj. rewrite !slice_nonneg by lia.
  rewrite !take_ge; [done|rewrite length_drop..]; lia.
Qed.

Lemma slice_min df (i j : Z) :
  0 ≤ i → slice df i (Z.min j (Z.of_nat (List.length df))) = slice df i j.
Proof.
  intros Hi.
  destruct (Z.le_gt_cases j (Z.of_nat (List.length df))) as [Hle|Hgt].
  - by rewrite Z.min_l by lia.
  - rewrite Z.min_r by lia. symmetry. apply slice_clip; lia.
Qed.

Lemma slice_empty df (i j : Z) : 0 ≤ j → j ≤ i → slice df i j = [].
Proof.
  intros Hj Hi. rewrite slice_nonneg by lia.
  replace (Z.to_nat j - Z.to_nat i)%nat with 0%nat by lia. done.
Qed.

Lemma slice_all df : slice df 0 (Z.of_nat (List.length df)) = df.
Proof.
  rewrite slice_nonneg by lia. change (Z.to_nat 0) with 0%nat.
  rewrite Nat.sub_0_r, Nat2Z.id. by rewrite take_ge.
Qed.

(** The chunks of a range, one behind the other, are the slice the range
    spans. *)
Lemma chunks_seq df (a s : Z) (n : nat) :
  0 ≤ a → 0 < s →
  List.concat (map (λ k, slice df (a + Z.of_nat k * s)
                               (a + Z.of_nat k * s + s)) (seq 0 n))
  = slice df a (a + Z.of_nat n * s).
Proof.
  intros Ha Hs. revert a Ha. induction n as [|n IH]; intros a Ha.
  - simpl. symmetry. apply slice_empty; lia.
  - cbn [seq map List.concat]. rewrite <- seq_shift, map_map.
    rewrite (map_ext _ (λ k, slice df ((a + s) + Z.of_nat k * s)
                                   ((a + s) + Z.of_nat k * s + s)))
      by (intros k; f_equal; lia).
    rewrite (IH (a + s)) by lia.
    replace (a + Z.of_nat 0 * s) with a by lia.
    rewrite slice_app by nia. f_equal. lia.
Qed.

Lemma chunks_py_range df (a stop s : Z) :
  0 ≤ a → 0 < s →
  (stop = Z.of_nat (List.length df) ∨ ∃ m, 0 ≤ m ∧ stop = a + m * s) →
  List.concat (map (λ i, slice df i (i + s)) (py_range a stop s))
  = slice df a stop.
Proof.
  intros Ha Hs Hstop. unfold py_range. rewrite map_map, chunks_seq by done.
  set (n := (stop - a + (s - 1)) / s).
  destruct (Z.le_gt_cases stop a) as [Hle|Hgt].
  - assert (n ≤ 0) as Hn.
    { apply Z.lt_succ_r. apply Z.div_lt_upper_bound; lia. }
    replace (Z.to_nat n) with 0%nat by lia.
    assert (0 ≤ stop) by (destruct Hstop as [->|(m & Hm & ->)]; nia).
    rewrite !slice_empty; [done|lia..].
  - assert (0 ≤ n) as Hn0 by (apply Z.div_pos; lia).
    rewrite Z2Nat.id by done.
    assert (s * n ≤ stop - a + (s - 1)) as Hlo by (apply Z.mul_div_le; lia).
    assert (stop - a + (s - 1) < s * (n + 1)) as Hhi.
    { pose proof (Z.mod_pos_bound (stop - a + (s - 1)) s Hs).
      pose proof (Z.div_mod (stop - a + (s - 1)) s). fold n in H0. lia. }
    destruct Hstop as [->|(m & Hm & ->)].
    + apply slice_clip; [done|]. nia.
    + assert (n = m) as Hnm by nia. by rewrite Hnm.
Qed.

End Slices.
End SliceFacts.

Module LoopFacts.
Import Py Db Vocabulary RunVocabulary SinkFacts LoadFacts SliceFacts
       ResumeClaims BatchImportFacts.

Section Loops.
Context `{PF : PyFloat}.

Lemma result_of_forget {A : Type} (o : outcome A) :
  result_of (forget o) = result_of o.
Proof. by destruct o. Qed.

(** *** Row loops *)

Lemma foldl_emitted (process_row : RawRecord → step city_tuple)
    (rows : list RawRecord) (acc : list city_tuple) :
  foldl (BatchRows.row_turn process_row) acc rows
  = acc ++ emitted_rows process_row rows.
Proof.
  revert acc. induction rows as [|row rows IH]; intros acc; simpl.
  - by rewrite app_nil_r.
  - rewrite IH. unfold BatchRows.row_turn.
    destruct (process_row row); simpl; by rewrite <- ?app_assoc.
Qed.

Lemma collect_emitted (process_row : RawRecord → step city_tuple)
    (rows : list RawRecord) :
  BatchRows.collect process_row rows = emitted_rows process_row rows.
Proof. apply (foldl_emitted process_row rows []). Qed.

Lemma massive_collect_emitted (rows : list RawRecord) :
  MassiveImport.collect rows = emitted_rows MassiveImport.process_row rows.
Proof. apply (foldl_emitted MassiveImport.process_row rows []). Qed.

Lemma continue_collect_emitted (rows : list RawRecord) :
  ContinueImport.collect rows = emitted_rows ContinueImport.process_row rows.
Proof. apply (foldl_emitted ContinueImport.process_row rows []). Qed.

Lemma batch_collect_emitted (rows : list RawRecord) :
  (BatchImport.collect rows).1.1 = emitted_rows BatchImport.process_row rows.
Proof.
  induction rows as [|row rows IH]; [done|].
  rewrite collect_cons. simpl. by rewrite IH.
Qed.

Lemma emitted_rows_app (process_row : RawRecord → step city_tuple)
    (a b : list RawRecord) :
  emitted_rows process_row (a ++ b)
  = emitted_rows process_row a ++ emitted_rows process_row b.
Proof. apply flat_map_app. Qed.

Lemma emitted_rows_concat (process_row : RawRecord → step city_tuple)
    (chunks : list (list RawRecord)) :
  List.concat (map (emitted_rows process_row) chunks)
  = emitted_rows process_row (List.concat chunks).
Proof.
  induction chunks as [|chunk chunks IH]; [done|].
  simpl. by rewrite IH, emitted_rows_app.
Qed.

Lemma emitted_rows_nil (process_row : RawRecord → step city_tuple) :
  emitted_rows process_row [] = [].
Proof. done. Qed.

(** *** Chunks *)

Lemma chunk_at_past_end (df : list RawRecord) (a s : Z) (k : nat) :
  0 ≤ a → 0 ≤ s → Z.of_nat (List.length df) ≤ a + Z.of_nat k * s →
  chunk_at df a s k = [].
Proof.
  intros Ha Hs Hk. unfold chunk_at. rewrite slice_nonneg by nia.
  rewrite drop_ge by lia. apply take_nil.
Qed.

Lemma chunks_concat (df : list RawRecord) (a s : Z) (n : nat) :
  0 ≤ a → 0 < s →
  List.concat (map (chunk_at df a s) (seq 0 n))
  = slice df a (a + Z.of_nat n * s).
Proof. apply chunks_seq. Qed.

(** The rows a loop over [n] chunks sends to the table. *)
Lemma emitted_chunks (process_row : RawRecord → step city_tuple)
    (df : list RawRecord) (a s : Z) (n : nat) :
  0 ≤ a → 0 < s →
  List.concat (map (λ k, emitted_rows process_row (chunk_at df a s k))
                   (seq 0 n))
  = emitted_rows process_row (slice df a (a + Z.of_nat n * s)).
Proof.
  intros Ha Hs. rewrite <- (chunks_concat df a s n Ha Hs).
  rewrite <- emitted_rows_concat. by rewrite map_map.
Qed.

(** *** Batch loops as a sequence of loads *)

Lemma load_all_nils (batches : list (list city_tuple)) (c : connection) :
  Forall (λ data, data = []) batches → load_all batches c = Ok tt c.
Proof.
  induction 1 as [|data batches -> _ IH]; [done|]. simpl. exact IH.
Qed.

Lemma load_all_past_end (process_row : RawRecord → step city_tuple)
    (df : list RawRecord) (a s : Z) (l : list nat) (c : connection) :
  0 ≤ a → 0 ≤ s →
  (∀ k, k ∈ l → Z.of_nat (List.length df) ≤ a + Z.of_nat k * s) →
  load_all (map (λ k, emitted_rows process_row (chunk_at df a s k)) l) c
  = Ok tt c.
Proof.
  intros Ha Hs Hl. apply load_all_nils. apply Forall_map, Forall_forall.
  intros k Hk. by rewrite chunk_at_past_end by auto.
Qed.

Lemma load_all_app (b1 b2 : list (list city_tuple)) (c : connection) :
  load_all (b1 ++ b2) c =
  match load_all b1 c with
  | Ok _ c' => load_all b2 c'
  | Err e c' => Err e c'
  end.
Proof.
  revert c. induction b1 as [|data b1 IH]; intros c; simpl; [done|].
  destruct (insert_batch data c) as [[] c'|e c']; [apply IH|done].
Qed.

Lemma ranged_loop_load (process_row : RawRecord → step city_tuple)
    (df : list RawRecord) (a s : Z) (l : list nat) (c : connection) :
  BatchRows.ranged_loop process_row df s (map (λ k, a + Z.of_nat k * s) l) c
  = load_all (map (λ k, emitted_rows process_row (chunk_at df a s k)) l) c.
Proof.
  revert c. induction l as [|k l IH]; intros c; simpl; [done|].
  rewrite collect_emitted. fold (chunk_at df a s k).
  destruct (insert_batch _ c) as [[] c'|e c']; [apply IH|done].
Qed.

Lemma massive_loop_load (df : list RawRecord) (a s : Z) (l : list nat)
    (c : connection) (n : nat) :
  forget (MassiveImport.batch_loop df s (map (λ k, a + Z.of_nat k * s) l) c n)
  = load_all (map (λ k, emitted_rows MassiveImport.process_row
                                     (chunk_at df a s k)) l) c.
Proof.
  revert c n. induction l as [|k l IH]; intros c n; simpl; [done|].
  rewrite massive_collect_emitted. fold (chunk_at df a s k).
  destruct (insert_batch _ c) as [[] c'|e c']; [apply IH|done].
Qed.

(** A loop that breaks once a batch starts past the last row loads what
    the loop without the [break] loads: the chunks past the end are empty. *)
Lemma capped_loop_load (process_row : RawRecord → step city_tuple)
    (df : list RawRecord) (a s : Z) (j n : nat) (c : connection) :
  0 ≤ a → 0 < s →
  BatchRows.capped_loop process_row df s a
    (map (λ k, 0 + Z.of_nat k * 1) (seq j n)) c
  = load_all (map (λ k, emitted_rows process_row (chunk_at df a s k))
                  (seq j n)) c.
Proof.
  intros Ha Hs. revert j c. induction n as [|n IH]; intros j c; [done|].
  cbn [seq map BatchRows.capped_loop].
  replace (a + (0 + Z.of_nat j * 1) * s) with (a + Z.of_nat j * s) by lia.
  destruct (Z.geb_spec (a + Z.of_nat j * s) (Z.of_nat (List.length df)))
    as [Hend|Hin].
  - symmetry.
    apply (load_all_past_end process_row df a s (j :: seq (S j) n)); [lia..|].
    intros k Hk. change (k ∈ seq j (S n)) in Hk.
    apply list_elem_of_In, in_seq in Hk. nia.
  - rewrite slice_min by nia. rewrite collect_emitted.
    fold (chunk_at df a s j). cbn [load_all].
    destruct (insert_batch _ c) as [[] c'|e c']; [apply IH|done].
Qed.

Lemma continue_loop_load (df : list RawRecord) (first s : Z) (j n : nat)
    (c : connection) :
  1 ≤ first → 0 < s →
  ContinueImport.batch_loop df s (map (λ k, first + Z.of_nat k * 1) (seq j n)) c
  = load_all (map (λ k, emitted_rows ContinueImport.process_row
                                     (chunk_at df ((first - 1) * s) s k))
                  (seq j n)) c.
Proof.
  intros Hfirst Hs. revert j c. induction n as [|n IH]; intros j c; [done|].
  cbn [seq map ContinueImport.batch_loop].
  replace ((first + Z.of_nat j * 1 - 1) * s)
    with ((first - 1) * s + Z.of_nat j * s) by lia.
  destruct (Z.geb_spec ((first - 1) * s + Z.of_nat j * s)
                       (Z.of_nat (List.length df))) as [Hend|Hin].
  - symmetry.
    apply (load_all_past_end ContinueImport.process_row df ((first - 1) * s) s
             (j :: seq (S j) n)); [nia|lia|].
    intros k Hk. change (k ∈ seq j (S n)) in Hk.
    apply list_elem_of_In, in_seq in Hk. nia.
  - rewrite continue_collect_emitted.
    fold (chunk_at df ((first - 1) * s) s j). cbn [load_all].
    destruct (insert_batch _ c) as [[] c'|e c']; [apply IH|done].
Qed.

(** A loop that stops after [max_batches] batches visits the first
    [max_batches] offsets. *)
Lemma limited_loop_take (process_row : RawRecord → step city_tuple)
    (df : list RawRecord) (s max_batches : Z) (offsets : list Z)
    (c : connection) (batch_num : Z) :
  batch_num ≤ max_batches →
  BatchRows.limited_loop process_row df s max_batches offsets c batch_num
  = BatchRows.ranged_loop process_row df s
      (take (Z.to_nat (max_batches - batch_num + 1)) offsets) c.
Proof.
  revert c batch_num.
  induction offsets as [|i offsets IH]; intros c batch_num Hnum.
  - by rewrite take_nil.
  - replace (Z.to_nat (max_batches - batch_num + 1))
      with (S (Z.to_nat (max_batches - batch_num))) by lia.
    cbn [take BatchRows.limited_loop BatchRows.ranged_loop].
    destruct (insert_batch _ c) as [[] c'|e c']; [|done].
    destruct (Z.gtb_spec (batch_num + 1) max_batches) as [Hlast|Hmore].
    + replace (Z.to_nat (max_batches - batch_num)) with 0%nat by lia. done.
    + rewrite IH by lia. do 2 f_equal. lia.
Qed.

Lemma process_batch_load (conn : connection) (df_batch : list RawRecord)
    (batch_num : Z) :
  forget (BatchImport.process_batch conn df_batch batch_num)
  = insert_batch (emitted_rows BatchImport.process_row df_batch) conn.
Proof.
  unfold BatchImport.process_batch. rewrite <- batch_collect_emitted.
  destruct (BatchImport.collect df_batch) as [[cities_data p] s]. simpl.
  destruct cities_data as [|t data]; [done|]. unfold insert_batch.
  by destruct (executemany true (t :: data) conn).
Qed.

Lemma batch_loop_take (df : list RawRecord) (s max_batches : Z)
    (offsets : list Z) (c : connection) (tp ts : nat) (batch_num : Z) :
  batch_num ≤ max_batches →
  forget (BatchImport.batch_loop df s max_batches offsets c tp ts batch_num)
  = BatchRows.ranged_loop BatchImport.process_row df s
      (take (Z.to_nat (max_batches - batch_num + 1)) offsets) c.
Proof.
  revert c tp ts batch_num.
  induction offsets as [|i offsets IH]; intros c tp ts batch_num Hnum.
  - by rewrite take_nil.
  - replace (Z.to_nat (max_batches - batch_num + 1))
      with (S (Z.to_nat (max_batches - batch_num))) by lia.
    cbn [take BatchImport.batch_loop BatchRows.ranged_loop].
    rewrite collect_emitted, <- (process_batch_load c _ batch_num).
    destruct (BatchImport.process_batch c _ batch_num)
      as [[processed skipped] c'|e c']; [|done]. cbn [forget].
    destruct (Z.gtb_spec (batch_num + 1) max_batches) as [Hlast|Hmore].
    + replace (Z.to_nat (max_batches - batch_num)) with 0%nat by lia. done.
    + rewrite IH by lia. do 2 f_equal. lia.
Qed.

End Loops.
End LoopFacts.

Module RunFacts.
Import Py Db Vocabulary RunVocabulary SinkFacts LoadFacts
       SliceFacts ResumeClaims LoopFacts.

Section Runs.
Context `{PF : PyFloat}.

Lemma load_all_unit (batches : list (list city_tuple)) (c : connection) :
  match load_all batches c with
  | Ok _ c' => Ok tt c'
  | Err e c' => Err e c'
  end = load_all batches c.
Proof. by destruct (load_all batches c) as [[] c'|e c']. Qed.

(** The offsets of a range that stops at the last row or after [m]
    batches: the chunks it leaves out of the first [m] are empty. *)
Lemma load_chunks_clip (process_row : RawRecord → step city_tuple)
    (df : list RawRecord) (a s m : Z) (c : connection) :
  0 ≤ a → 0 < s → 0 ≤ m →
  load_all
    (map (λ k, emitted_rows process_row (chunk_at df a s k))
         (seq 0 (Z.to_nat ((Z.min (a + m * s) (Z.of_nat (List.length df))
                            - a + (s - 1)) / s)))) c
  = load_chunks process_row df a s m c.
Proof.
  intros Ha Hs Hm. unfold load_chunks.
  set (len := Z.of_nat (List.length df)).
  set (stop := Z.min (a + m * s) len).
  set (q := (stop - a + (s - 1)) / s).
  assert (s * q ≤ stop - a + (s - 1)) as Hlo by (apply Z.mul_div_le; lia).
  assert (stop - a + (s - 1) < s * (q + 1)) as Hhi.
  { pose proof (Z.mod_pos_bound (stop - a + (s - 1)) s Hs) as Hmod.
    pose proof (Z.div_mod (stop - a + (s - 1)) s) as Hdiv. fold q in Hdiv.
    lia. }
  assert (stop ≤ a + m * s) as Hstop by (unfold stop; lia).
  assert (q ≤ m) as Hqm by nia.
  replace (Z.to_nat m)
    with (Z.to_nat q + (Z.to_nat m - Z.to_nat q))%nat by lia.
  rewrite seq_app, map_app, load_all_app.
  destruct (load_all _ c) as [[] c'|e c'] eqn:Hfirst; [|done].
  symmetry. apply load_all_past_end; [lia..|].
  intros k Hk. apply list_elem_of_In, in_seq in Hk. fold len.
  assert (stop = len ∨ stop = a + m * s) as [Hl|Hr] by (unfold stop; lia).
  - nia.
  - assert (q = m) by nia. lia.
Qed.

Lemma ranged_loop_chunks (process_row : RawRecord → step city_tuple)
    (df : list RawRecord) (a s m : Z) (c : connection) :
  0 ≤ a → 0 < s → 0 ≤ m →
  BatchRows.ranged_loop process_row df s
    (py_range a (Z.min (a + m * s) (Z.of_nat (List.length df))) s) c
  = load_chunks process_row df a s m c.
Proof.
  intros Ha Hs Hm. unfold py_range. rewrite ranged_loop_load.
  by apply load_chunks_clip.
Qed.

Lemma massive_loop_chunks (df : list RawRecord) (a s m : Z) (c : connection)
    (n : nat) :
  0 ≤ a → 0 < s → 0 ≤ m →
  forget (MassiveImport.batch_loop df s
            (py_range a (Z.min (a + m * s) (Z.of_nat (List.length df))) s) c n)
  = load_chunks MassiveImport.process_row df a s m c.
Proof.
  intros Ha Hs Hm. unfold py_range. rewrite massive_loop_load.
  by apply load_chunks_clip.
Qed.

Lemma capped_loop_chunks (process_row : RawRecord → step city_tuple)
    (df : list RawRecord) (a s m : Z) (c : connection) :
  0 ≤ a → 0 < s →
  BatchRows.capped_loop process_row df s a (py_range 0 m 1) c
  = load_chunks process_row df a s m c.
Proof.
  intros Ha Hs. unfold py_range, load_chunks.
  rewrite Z.sub_0_r, Z.sub_diag, Z.add_0_r, Z.div_1_r.
  by apply capped_loop_load.
Qed.

Lemma continue_loop_chunks (df : list RawRecord) (s first last : Z)
    (c : connection) :
  1 ≤ first → 0 < s →
  ContinueImport.batch_loop df s (py_range first last 1) c
  = load_chunks ContinueImport.process_row df ((first - 1) * s) s
                (last - first) c.
Proof.
  intros Hfirst Hs. unfold py_range, load_chunks.
  rewrite Z.sub_diag, Z.add_0_r, Z.div_1_r.
  by apply continue_loop_load.
Qed.

Lemma limited_loop_chunks (process_row : RawRecord → step city_tuple)
    (df : list RawRecord) (a s m : Z) (c : connection) :
  0 ≤ a → 0 < s → 1 ≤ m →
  BatchRows.limited_loop process_row df s m
    (py_range a (Z.of_nat (List.length df)) s) c 1
  = load_chunks process_row df a s m c.
Proof.
  intros Ha Hs Hm. rewrite limited_loop_take by done.
  rewrite take_py_range by done.
  replace (Z.of_nat (Z.to_nat (m - 1 + 1))) with m by lia.
  by apply ranged_loop_chunks; lia.
Qed.

Lemma batch_loop_chunks (df : list RawRecord) (s m : Z) (c : connection)
    (tp ts : nat) :
  0 < s → 1 ≤ m →
  forget (BatchImport.batch_loop df s m
            (py_range 0 (Z.of_nat (List.length df)) s) c tp ts 1)
  = load_chunks BatchImport.process_row df 0 s m c.
Proof.
  intros Hs Hm. rewrite batch_loop_take by done.
  rewrite take_py_range by done.
  replace (Z.of_nat (Z.to_nat (m - 1 + 1))) with m by lia.
  by apply ranged_loop_chunks; lia.
Qed.

(** The chunks land in the table one behind the other: what a run over
    [m] chunks stores is what its rows emit. *)
Lemma load_chunks_fresh (process_row : RawRecord → step city_tuple)
    (df : list RawRecord) (a s m : Z) (c : connection) :
  0 ≤ a → 0 < s → 0 ≤ m → settled c → ids_below_seq c →
  fits (emitted_rows process_row (slice df a (a + m * s))) →
  load_chunks process_row df a s m c
  = Ok tt (appended c (emitted_rows process_row (slice df a (a + m * s)))).
Proof.
  intros Ha Hs Hm Hc Hids Hfit. unfold load_chunks.
  pose proof (emitted_chunks process_row df a s (Z.to_nat m) Ha Hs) as Hrows.
  rewrite Z2Nat.id in Hrows by done.
  rewrite load_all_fresh; [by rewrite Hrows|done..|by rewrite Hrows].
Qed.

Lemma chunk_at_shift (df : list RawRecord) (a s : Z) (n k : nat) :
  chunk_at df a s (n + k) = chunk_at df (a + Z.of_nat n * s) s k.
Proof. unfold chunk_at. f_equal; lia. Qed.

(** Two runs, the second from where the first stopped, load what one run
    over both ranges loads. *)
Lemma load_chunks_app (process_row : RawRecord → step city_tuple)
    (df : list RawRecord) (a s m1 m2 : Z) (c : connection) :
  0 ≤ m1 → 0 ≤ m2 →
  load_chunks process_row df a s (m1 + m2) c =
  match load_chunks process_row df a s m1 c with
  | Ok _ c' => load_chunks process_row df (a + m1 * s) s m2 c'
  | Err e c' => Err e c'
  end.
Proof.
  intros Hm1 Hm2. unfold load_chunks.
  replace (Z.to_nat (m1 + m2)) with (Z.to_nat m1 + Z.to_nat m2)%nat by lia.
  rewrite seq_app, map_app, load_all_app.
  destruct (load_all _ c) as [[] c'|e c']; [|done]. f_equal.
  replace (seq (0 + Z.to_nat m1) (Z.to_nat m2))
    with (Nat.add (Z.to_nat m1) <$> seq 0 (Z.to_nat m2))
    by (rewrite fmap_add_seq; f_equal; lia).
  rewrite map_map. apply map_ext. intros k.
  rewrite chunk_at_shift. by rewrite Z2Nat.id by done.
Qed.

Lemma load_all_settled (batches : list (list city_tuple))
    (c c' : connection) :
  settled c → load_all batches c = Ok tt c' → settled c'.
Proof.
  revert c. induction batches as [|data batches IH]; intros c Hc; simpl.
  - by intros [= <-].
  - destruct (insert_batch data c) as [[] c1|e c1] eqn:Hins; [|done].
    apply IH. by eapply insert_batch_settled.
Qed.

End Runs.
End RunFacts.

Module RunProperties.
Import Py Db Vocabulary RunVocabulary SinkFacts LoadFacts
       SliceFacts ResumeClaims LoopFacts RunFacts.

Section Runs.
Context `{PF : PyFloat}.

Lemma connect_ids_below_seq (db : database) :
  db_ids_below_seq db → ids_below_seq (connect db).
Proof. done. Qed.

Lemma result_of_appended {A : Type} (a : A) (db : database)
    (data : list city_tuple) :
  result_of (Ok a (appended (connect db) data))
  = Completed (append_rows db data).
Proof. done. Qed.

(** X9: A run of massive-import.py loads the rows [start_row] to
    [start_row + max_batches * batch_size] (Python clips the slice at the
    last row): when every stored id was drawn from the sequence and the
    populations fit the column, it completes, and the table gains what those
    rows emit, in row order, under the next ids -- whatever the batch size
    cuts the range into. *)
Theorem massive_run_loads_range (batch_size start_row max_batches : Z)
    (df : list RawRecord) (db : database) :
  0 ≤ start_row → 0 < batch_size → 0 ≤ max_batches →
  db_ids_below_seq db →
  fits (emitted_rows MassiveImport.process_row
          (slice df start_row (start_row + max_batches * batch_size))) →
  MassiveImport.run batch_size start_row max_batches df db
  = Completed
      (append_rows db
         (emitted_rows MassiveImport.process_row
            (slice df start_row (start_row + max_batches * batch_size)))).
Proof.
  intros Ha Hs Hm Hdb Hfit. rewrite massive_run_result, <- result_of_forget.
  rewrite massive_loop_chunks by done.
  by rewrite load_chunks_fresh.
Qed.

(** X10: A run of continue-import.py over the batches [start_batch] to
    [end_batch - 1], numbered from 1, loads the rows
    [(start_batch - 1) * batch_size] to [(end_batch - 1) * batch_size]. *)
Theorem continue_run_loads_range (batch_size start_batch end_batch : Z)
    (df : list RawRecord) (db : database) :
  0 < batch_size → 1 ≤ start_batch → start_batch ≤ end_batch →
  db_ids_below_seq db →
  fits (emitted_rows ContinueImport.process_row
          (slice df ((start_batch - 1) * batch_size)
                 ((end_batch - 1) * batch_size))) →
  ContinueImport.run batch_size start_batch end_batch df db
  = Completed
      (append_rows db
         (emitted_rows ContinueImport.process_row
            (slice df ((start_batch - 1) * batch_size)
                   ((end_batch - 1) * batch_size)))).
Proof.
  intros Hs Hfirst Hlast Hdb Hfit. unfold ContinueImport.run.
  rewrite continue_loop_chunks by done.
  replace ((end_batch - 1) * batch_size)
    with ((start_batch - 1) * batch_size
          + (end_batch - start_batch) * batch_size) in * by lia.
  by rewrite load_chunks_fresh by (done || nia).
Qed.

Lemma cleared_ids_below_seq (db : database) :
  db_ids_below_seq db →
  ids_below_seq (BatchImport.clear_sample_data (connect db)).
Proof.
  unfold db_ids_below_seq, ids_below_seq. simpl. rewrite !Forall_forall.
  intros Hdb r Hr. apply list_elem_of_In, filter_In in Hr as [Hr _].
  by apply Hdb, list_elem_of_In.
Qed.

(** X11: [main] of batch-import-cities.py with the limit of [max_batches]
    batches: it deletes the rows with a population greater than 0 and loads
    the first [max_batches * batch_size] rows of the sheet. *)
Theorem batch_main_loads_range (batch_size max_batches : Z)
    (df : list RawRecord) (db : database) :
  0 < batch_size → 1 ≤ max_batches →
  db_ids_below_seq db →
  fits (emitted_rows BatchImport.process_row
          (slice df 0 (max_batches * batch_size))) →
  BatchImport.main_with batch_size max_batches df db
  = Completed
      (append_rows (cleared db)
         (emitted_rows BatchImport.process_row
            (slice df 0 (max_batches * batch_size)))).
Proof.
  intros Hs Hm Hdb Hfit. unfold BatchImport.main_with.
  change (match ?o with Ok _ c => Completed (close c)
                      | Err _ c => Aborted (close c) end) with (result_of o).
  rewrite <- result_of_forget, batch_loop_chunks by done.
  rewrite load_chunks_fresh;
    [done|lia..|done|by apply cleared_ids_below_seq|done].
Qed.

(** X12: The loop of final-push.py, power-import.py, final-batches.py,
    small-batch-import.py and comprehensive-import.py
    ([for batch in range(max_batches)], with a [break] past the last row):
    it loads the rows [start_row] to [start_row + max_batches * batch_size]. *)
Theorem capped_run_loads_range (process_row : RawRecord → step city_tuple)
    (batch_size start_row max_batches : Z) (df : list RawRecord)
    (db : database) :
  0 ≤ start_row → 0 < batch_size → 0 ≤ max_batches →
  db_ids_below_seq db →
  fits (emitted_rows process_row
          (slice df start_row (start_row + max_batches * batch_size))) →
  BatchRows.capped_run process_row batch_size start_row max_batches df db
  = Completed
      (append_rows db
         (emitted_rows process_row
            (slice df start_row (start_row + max_batches * batch_size)))).
Proof.
  intros Ha Hs Hm Hdb Hfit. unfold BatchRows.capped_run.
  rewrite capped_loop_chunks by done. by rewrite load_chunks_fresh.
Qed.

(** X13: The loop of continue-next-batches.py and next-batch-set.py
    ([for i in range(start_row, end_row, batch_size)]). *)
Theorem ranged_run_loads_range (process_row : RawRecord → step city_tuple)
    (batch_size start_row batches : Z) (df : list RawRecord) (db : database) :
  0 ≤ start_row → 0 < batch_size → 0 ≤ batches →
  db_ids_below_seq db →
  fits (emitted_rows process_row
          (slice df start_row (start_row + batches * batch_size))) →
  BatchRows.ranged_run process_row batch_size start_row batches df db
  = Completed
      (append_rows db
         (emitted_rows process_row
            (slice df start_row (start_row + batches * batch_size)))).
Proof.
  intros Ha Hs Hm Hdb Hfit. unfold BatchRows.ranged_run.
  rewrite ranged_loop_chunks by done. by rewrite load_chunks_fresh.
Qed.

(** X14: [process_full_dataset] of complete-import.py, which counts its batches
    from 1 and breaks once the count exceeds [max_batches]. *)
Theorem limited_run_loads_range (process_row : RawRecord → step city_tuple)
    (batch_size start_idx max_batches : Z) (df : list RawRecord)
    (db : database) :
  0 ≤ start_idx → 0 < batch_size → 1 ≤ max_batches →
  db_ids_below_seq db →
  fits (emitted_rows process_row
          (slice df start_idx (start_idx + max_batches * batch_size))) →
  BatchRows.limited_run process_row batch_size start_idx max_batches df db
  = Completed
      (append_rows db
         (emitted_rows process_row
            (slice df start_idx (start_idx + max_batches * batch_size)))).
Proof.
  intros Ha Hs Hm Hdb Hfit. unfold BatchRows.limited_run.
  rewrite limited_loop_chunks by done.
  by rewrite load_chunks_fresh by (done || lia).
Qed.

(** X15: The three batch loops are one loop: on any table, a run that counts
    batches and breaks past the last row, a run over the range of offsets,
    and a run that breaks after [max_batches] batches end alike. *)
Theorem loop_styles_agree (process_row : RawRecord → step city_tuple)
    (batch_size start_row max_batches : Z) (df : list RawRecord)
    (db : database) :
  0 ≤ start_row → 0 < batch_size → 1 ≤ max_batches →
  BatchRows.capped_run process_row batch_size start_row max_batches df db
  = BatchRows.ranged_run process_row batch_size start_row max_batches df db
  ∧ BatchRows.limited_run process_row batch_size start_row max_batches df db
    = BatchRows.ranged_run process_row batch_size start_row max_batches df db.
Proof.
  intros Ha Hs Hm.
  unfold BatchRows.capped_run, BatchRows.ranged_run, BatchRows.limited_run.
  rewrite capped_loop_chunks, ranged_loop_chunks, limited_loop_chunks
    by (done || lia).
  done.
Qed.

(** X16: massive-import.py and continue-import.py spell the same loop: a run of
    either is a run over the range of offsets with its own row loop. *)
Theorem massive_continue_are_ranged (batch_size : Z) (df : list RawRecord)
    (db : database) :
  0 < batch_size →
  (∀ start_row max_batches, 0 ≤ start_row → 0 ≤ max_batches →
     MassiveImport.run batch_size start_row max_batches df db
     = BatchRows.ranged_run MassiveImport.process_row batch_size start_row
                            max_batches df db)
  ∧ (∀ start_batch end_batch, 1 ≤ start_batch → start_batch ≤ end_batch →
       ContinueImport.run batch_size start_batch end_batch df db
       = BatchRows.ranged_run ContinueImport.process_row batch_size
           ((start_batch - 1) * batch_size) (end_batch - start_batch) df db).
Proof.
  intros Hs. split.
  - intros a m Ha Hm. rewrite massive_run_result, <- result_of_forget.
    unfold BatchRows.ranged_run.
    by rewrite massive_loop_chunks, ranged_loop_chunks.
  - intros first last Hfirst Hlast.
    unfold ContinueImport.run, BatchRows.ranged_run.
    change (match ?o with Ok _ c => Completed (close c)
                        | Err _ c => Aborted (close c) end) with (result_of o).
    by rewrite continue_loop_chunks, ranged_loop_chunks by (done || nia).
Qed.

Lemma load_chunks_resume (process_row : RawRecord → step city_tuple)
    (df : list RawRecord) (a s m1 m2 : Z) (db db1 : database) :
  0 ≤ m1 → 0 ≤ m2 →
  result_of (load_chunks process_row df a s m1 (connect db)) = Completed db1 →
  result_of (load_chunks process_row df (a + m1 * s) s m2 (connect db1))
  = result_of (load_chunks process_row df a s (m1 + m2) (connect db)).
Proof.
  intros Hm1 Hm2. rewrite load_chunks_app by done.
  destruct (load_chunks process_row df a s m1 (connect db))
    as [[] c1|e c1] eqn:Hfirst; [|done].
  intros [= <-]. rewrite connect_close; [done|].
  by apply (load_all_settled _ (connect db) c1) in Hfirst.
Qed.

(** X17: A run that stops after [m1] batches and a second run that starts at
    the row the first one stopped at add up to one run over both ranges,
    in either spelling of the loop. *)
Theorem chained_runs_add_up (process_row : RawRecord → step city_tuple)
    (batch_size start_row m1 m2 : Z) (df : list RawRecord)
    (db db1 : database) :
  0 ≤ start_row → 0 < batch_size → 0 ≤ m1 → 0 ≤ m2 →
  (BatchRows.capped_run process_row batch_size start_row m1 df db
   = Completed db1 →
   BatchRows.capped_run process_row batch_size
     (start_row + m1 * batch_size) m2 df db1
   = BatchRows.capped_run process_row batch_size start_row (m1 + m2) df db)
  ∧ (BatchRows.ranged_run process_row batch_size start_row m1 df db
     = Completed db1 →
     BatchRows.ranged_run process_row batch_size
       (start_row + m1 * batch_size) m2 df db1
     = BatchRows.ranged_run process_row batch_size start_row (m1 + m2) df db).
Proof.
  intros Ha Hs Hm1 Hm2. unfold BatchRows.capped_run, BatchRows.ranged_run.
  rewrite !capped_loop_chunks, !ranged_loop_chunks by (done || nia).
  split; by apply load_chunks_resume.
Qed.

End Runs.
End RunProperties.

Module SinkProperties.
Import Py Db Vocabulary RunVocabulary SinkFacts
       LoadFacts LoopFacts.

Section Sink.
Context `{PF : PyFloat}.

Lemma executemany_err (b : bool) (data : list city_tuple)
    (c c' : connection) (e : exn) :
  executemany b data c = Err e c' → e = DatabaseError.
Proof.
  revert c. induction data as [|t data IH]; intros c; simpl; [done|].
  destruct (insert b t c) as [[] c1|e1 c1] eqn:Hins; [apply IH|].
  intros [= <- _]. unfold insert in Hins.
  destruct (negb (int4_ok (population t))); [by injection Hins as <-|].
  destruct (id_taken (cities_id_seq c) (working c)); [|done].
  destruct b; [done|]. by injection Hins as <-.
Qed.

(** The insert of one batch, on any table: it fails on a population that
    does not fit the column and on nothing else; when it fails, the
    committed rows are the ones from before; when it succeeds, they are
    followed by the rows of the batch that were stored. *)
Lemma insert_batch_atomic (data : list city_tuple) (c : connection) :
  settled c →
  match insert_batch data c with
  | Ok _ c' => fits data ∧ settled c' ∧ committed c `prefix_of` committed c'
  | Err e c' => ¬ fits data ∧ e = DatabaseError ∧ committed c' = committed c
  end.
Proof.
  intros Hc. unfold insert_batch. destruct data as [|t data].
  - split; [constructor|done].
  - pose proof (executemany_conflict_free (t :: data) c) as Hfit.
    pose proof (executemany_prefix true (t :: data) c) as Hpre.
    pose proof (executemany_committed true (t :: data) c) as Hcom.
    destruct (executemany true (t :: data) c) as [[] c'|e c'] eqn:Hexec.
    + split; [apply Hfit; eauto|]. split; [done|].
      simpl. by rewrite <- Hc.
    + split; [|split; [by eapply executemany_err|done]].
      intros Hdata. apply Hfit in Hdata as [c'' ?]. done.
Qed.

(** A statement with [ON CONFLICT DO NOTHING] stores tuples of the batch,
    in order, behind the rows that are there; it skips the ones whose id is
    taken. *)
Lemma executemany_stored (b : bool) (data : list city_tuple)
    (c c' : connection) :
  executemany b data c = Ok tt c' →
  ∃ new, working c' = working c ++ new ∧ fields <$> new `sublist_of` data.
Proof.
  revert c. induction data as [|t data IH]; intros c; simpl.
  - intros [= <-]. exists []. by rewrite app_nil_r.
  - destruct (insert b t c) as [[] c1|e c1] eqn:Hins; [|done].
    intros Hrest. apply IH in Hrest as (new & Hnew & Hsub).
    unfold insert in Hins.
    destruct (negb (int4_ok (population t))); [done|].
    destruct (id_taken (cities_id_seq c) (working c)).
    + destruct b; [|done]. injection Hins as <-. simpl in Hnew.
      exists new. split; [done|by apply sublist_cons].
    + injection Hins as <-. simpl in Hnew.
      exists (Stored (cities_id_seq c) t :: new).
      rewrite Hnew, <- app_assoc. split; [done|].
      simpl. by apply sublist_skip.
Qed.

(** The insert of one batch, on any table. *)
Lemma insert_batch_outcome (data : list city_tuple) (c : connection) :
  settled c →
  match insert_batch data c with
  | Ok _ c' =>
      fits data ∧ settled c'
      ∧ (∃ new, committed c' = committed c ++ new
                ∧ fields <$> new `sublist_of` data)
      ∧ (ids_below_seq c → c' = appended c data)
  | Err e c' => ¬ fits data ∧ e = DatabaseError ∧ committed c' = committed c
  end.
Proof.
  intros Hc. pose proof (insert_batch_atomic data c Hc) as Hatomic.
  pose proof (insert_batch_fresh data c Hc) as Hfresh.
  unfold insert_batch in *. destruct data as [|t data].
  - destruct Hatomic as (Hfit & Hs & _). split; [done|]. split; [done|].
    split; [|intros Hids; specialize (Hfresh Hids Hfit); congruence].
    exists []. by rewrite app_nil_r.
  - destruct (executemany true (t :: data) c) as [[] c'|e c'] eqn:Hexec;
      [|done].
    destruct Hatomic as (Hfit & Hs & _). split; [done|]. split; [done|].
    split; [|intros Hids; specialize (Hfresh Hids Hfit); congruence].
    apply executemany_stored in Hexec as (new & Hnew & Hsub).
    exists new. simpl. by rewrite Hnew, Hc.
Qed.

(** X7: [process_batch] on a connection with no open transaction.  It
    fails when the population of a tuple does not fit the column, and on
    nothing else: then nothing of the batch is stored, and the table holds,
    once the connection is closed, what it held before.  When it returns,
    the transaction is closed and the rows from before are still there, in
    front of the new ones, which are tuples of the batch in the order of
    the batch.  They are all of the batch when every stored id was drawn
    from the sequence; otherwise [ON CONFLICT DO NOTHING] leaves out the
    tuples whose id is taken. *)
Theorem batch_commits_or_rolls_back (conn : connection)
    (df_batch : list RawRecord) (batch_num : Z) :
  settled conn →
  match BatchImport.process_batch conn df_batch batch_num with
  | Ok _ c' =>
      fits (emitted_rows BatchImport.process_row df_batch)
      ∧ settled c'
      ∧ (∃ new, committed c' = committed conn ++ new
                ∧ fields <$> new
                  `sublist_of` emitted_rows BatchImport.process_row df_batch)
      ∧ (ids_below_seq conn →
         c' = appended conn (emitted_rows BatchImport.process_row df_batch))
  | Err e c' =>
      ¬ fits (emitted_rows BatchImport.process_row df_batch)
      ∧ e = DatabaseError ∧ table (close c') = table (close conn)
  end.
Proof.
  intros Hconn.
  pose proof (insert_batch_outcome
                (emitted_rows BatchImport.process_row df_batch) conn Hconn)
    as Hbatch.
  rewrite <- (process_batch_load conn df_batch batch_num) in Hbatch.
  by destruct (BatchImport.process_batch conn df_batch batch_num).
Qed.

(** *** The batch loops never touch a stored row *)

Lemma massive_loop_grows (base : list StoredRow) (n0 : Z)
    (df : list RawRecord) (s : Z) (l : list Z) (c : connection) (n : nat) :
  grows_from base n0 c →
  match MassiveImport.batch_loop df s l c n with
  | Ok _ c' | Err _ c' => grows_from base n0 c'
  end.
Proof.
  revert c n. induction l as [|i l IH]; intros c n Hc; simpl; [done|].
  pose proof (insert_batch_grows base n0
                (MassiveImport.collect (slice df i (i + s))) c Hc) as Hb.
  destruct (insert_batch _ c) as [[] c'|e c']; [by apply IH|done].
Qed.

Lemma continue_loop_grows (base : list StoredRow) (n0 : Z)
    (df : list RawRecord) (s : Z) (l : list Z) (c : connection) :
  grows_from base n0 c →
  match ContinueImport.batch_loop df s l c with
  | Ok _ c' | Err _ c' => grows_from base n0 c'
  end.
Proof.
  revert c. induction l as [|i l IH]; intros c Hc; simpl; [done|].
  destruct (_ >=? _); [done|].
  pose proof (insert_batch_grows base n0
                (ContinueImport.collect
                   (slice df ((i - 1) * s) ((i - 1) * s + s))) c Hc) as Hb.
  destruct (insert_batch _ c) as [[] c'|e c']; [by apply IH|done].
Qed.

Lemma ranged_loop_grows (process_row : RawRecord → step city_tuple)
    (base : list StoredRow) (n0 : Z) (df : list RawRecord) (s : Z)
    (l : list Z) (c : connection) :
  grows_from base n0 c →
  match BatchRows.ranged_loop process_row df s l c with
  | Ok _ c' | Err _ c' => grows_from base n0 c'
  end.
Proof.
  revert c. induction l as [|i l IH]; intros c Hc; simpl; [done|].
  pose proof (insert_batch_grows base n0
                (BatchRows.collect process_row (slice df i (i + s))) c Hc)
    as Hb.
  destruct (insert_batch _ c) as [[] c'|e c']; [by apply IH|done].
Qed.

Lemma capped_loop_grows (process_row : RawRecord → step city_tuple)
    (base : list StoredRow) (n0 : Z) (df : list RawRecord) (s a : Z)
    (l : list Z) (c : connection) :
  grows_from base n0 c →
  match BatchRows.capped_loop process_row df s a l c with
  | Ok _ c' | Err _ c' => grows_from base n0 c'
  end.
Proof.
  revert c. induction l as [|i l IH]; intros c Hc; simpl; [done|].
  destruct (_ >=? _); [done|].
  pose proof (insert_batch_grows base n0
                (BatchRows.collect process_row
                   (slice df (a + i * s)
                      (Z.min (a + i * s + s) (Z.of_nat (List.length df)))))
                c Hc) as Hb.
  destruct (insert_batch _ c) as [[] c'|e c']; [by apply IH|done].
Qed.

Lemma limited_loop_grows (process_row : RawRecord → step city_tuple)
    (base : list StoredRow) (n0 : Z) (df : list RawRecord) (s m : Z)
    (l : list Z) (c : connection) (batch_num : Z) :
  grows_from base n0 c →
  match BatchRows.limited_loop process_row df s m l c batch_num with
  | Ok _ c' | Err _ c' => grows_from base n0 c'
  end.
Proof.
  revert c batch_num.
  induction l as [|i l IH]; intros c batch_num Hc; simpl; [done|].
  pose proof (insert_batch_grows base n0
                (BatchRows.collect process_row (slice df i (i + s))) c Hc)
    as Hb.
  destruct (insert_batch _ c) as [[] c'|e c']; [|done].
  destruct (_ >? _); [done|]. by apply IH.
Qed.

Lemma connect_grows (db : database) :
  grows_from (table db) (next_id db) (connect db).
Proof.
  repeat split; simpl; try lia; exists []; by rewrite app_nil_r.
Qed.

Lemma grows_extends {A : Type} (db : database) (o : outcome A) :
  match o with
  | Ok _ c' | Err _ c' => grows_from (table db) (next_id db) c'
  end →
  extends db (final_db (result_of o)).
Proof.
  destruct o as [a c|e c]; intros ((new & Hnew & Hids) & _ & Hseq);
    by exists new.
Qed.

(** X8: Whatever the sheet and the table hold and however the run ends, the
    batch scripts other than batch-import-cities.py leave every stored row
    where it was: the table after the run is the table before it, followed
    by rows under ids drawn from the sequence. *)
Theorem batch_runs_append_only (process_row : RawRecord → step city_tuple)
    (x y z : Z) (df : list RawRecord) (db : database) :
  extends db (final_db (MassiveImport.run x y z df db))
  ∧ extends db (final_db (ContinueImport.run x y z df db))
  ∧ extends db (final_db (BatchRows.ranged_run process_row x y z df db))
  ∧ extends db (final_db (BatchRows.capped_run process_row x y z df db))
  ∧ extends db (final_db (BatchRows.limited_run process_row x y z df db)).
Proof.
  pose proof (connect_grows db) as Hdb.
  split; [|split; [|split; [|split]]].
  - apply (grows_extends db (MassiveImport.batch_loop df x _ (connect db) 0)).
    by apply massive_loop_grows.
  - apply (grows_extends db (ContinueImport.batch_loop df x _ (connect db))).
    by apply continue_loop_grows.
  - apply grows_extends. by apply ranged_loop_grows.
  - apply grows_extends. by apply capped_loop_grows.
  - apply grows_extends. by apply limited_loop_grows.
Qed.

End Sink.
(** On a table whose sequence would hand out the id of a stored row, the
    batch of Springfield and Unknown City returns [(2, 0)] and has stored
    Unknown City alone. *)
Example batch_skips_taken_id :
  ∃ c', BatchImport.process_batch Examples.lagging [Examples.springfield; Examples.unknown_city] 1
        = Ok (2%nat, 0%nat) c'
        ∧ fields <$> committed c'
          = [Examples.tuple_of "Oslo" "Norway" "Europe" None None None;
             Examples.tuple_of "Unknown City" "Nowhereland" "Other" (Some 5000)
                      None None].
Proof. eexists. split; reflexivity. Qed.

End SinkProperties.

Module RegionProperties.
Import Py Db Vocabulary RunVocabulary PyFacts.

Lemma foldl_insert_item (items : list (string * string))
    (m : gmap string string) (k v : string) :
  foldl (λ m kv, <[kv.1 := kv.2]> m) m items !! k = Some v →
  m !! k = Some v ∨ (k, v) ∈ items.
Proof.
  revert m. induction items as [|[k' v'] items IH]; intros m; simpl.
  - by left.
  - intros Hk. apply IH in Hk as [Hk|Hk].
    + apply lookup_insert_Some in Hk as [[<- <-]|[_ Hk]].
      * right. apply list_elem_of_here.
      * by left.
    + right. by apply list_elem_of_further.
Qed.

(** What a dictionary display holds is one of its items. *)
Lemma dict_of_lookup_item (items : list (string * string)) (k v : string) :
  dict_of items !! k = Some v → (k, v) ∈ items.
Proof.
  intros Hk. apply foldl_insert_item in Hk as [Hk|Hk]; [|done].
  by rewrite lookup_empty in Hk.
Qed.

Lemma dict_get_labelled (items : list (string * string)) (country : string) :
  Forall (λ kv : string * string, kv.2 ∈ region_labels) items →
  dict_get (dict_of items) country "Other" ∈ region_labels.
Proof.
  intros Hitems.
  destruct (dict_get_cases (dict_of items) country "Other")
    as [[_ ->]|(v & Hv & ->)].
  - unfold region_labels. do 6 apply list_elem_of_further.
    apply list_elem_of_here.
  - by apply (dict_of_values (λ v, v ∈ region_labels) items country v).
Qed.

Lemma dict_get_agree (a b : list (string * string)) :
  Forall (λ x : string * string,
            Forall (λ y : string * string, x.1 = y.1 → x.2 = y.2) b) a →
  agree (λ country, dict_get (dict_of a) country "Other")
        (λ country, dict_get (dict_of b) country "Other").
Proof.
  intros Hab country.
  destruct (dict_get_cases (dict_of a) country "Other")
    as [[_ ->]|(v & Hv & ->)]; [by right; left|].
  destruct (dict_get_cases (dict_of b) country "Other")
    as [[_ ->]|(w & Hw & ->)]; [by right; right|].
  left. apply dict_of_lookup_item in Hv, Hw.
  rewrite Forall_forall in Hab. specialize (Hab _ Hv).
  rewrite Forall_forall in Hab. by apply (Hab _ Hw).
Qed.

(** X18: The region functions of continue-import.py, massive-import.py,
    import-cities.py and complete-import.py: whatever the country, the
    region is one of the seven labels. *)
Theorem sibling_regions_labelled (country : string) :
  ContinueImport.map_regions country ∈ region_labels
  ∧ MassiveImport.map_regions country ∈ region_labels
  ∧ ImportCities.map_regions country ∈ region_labels
  ∧ CompleteImport.map_regions country ∈ region_labels.
Proof.
  repeat split; apply dict_get_labelled; apply (bool_decide_unpack _);
    by vm_compute.
Qed.

(** X19: The region functions of comprehensive-import.py,
    continue-next-batches.py, next-batch-set.py and final-push.py: whatever
    the country, the region is one of the seven labels. *)
Theorem batch_regions_labelled (country : string) :
  ComprehensiveImport.map_regions country ∈ region_labels
  ∧ ContinueNextBatches.map_regions country ∈ region_labels
  ∧ NextBatchSet.map_regions country ∈ region_labels
  ∧ FinalPush.map_regions country ∈ region_labels.
Proof.
  repeat split; apply dict_get_labelled; apply (bool_decide_unpack _);
    by vm_compute.
Qed.

Lemma dict_of_same_keys (a b : list (string * string)) (k : string) :
  a.*1 = b.*1 →
  (∀ v w, (k, v) ∈ a → (k, w) ∈ b → v = w) →
  dict_of a !! k = dict_of b !! k.
Proof.
  intros Hkeys Hval.
  destruct (dict_of a !! k) as [v|] eqn:Ha;
    destruct (dict_of b !! k) as [w|] eqn:Hb; [|exfalso..|done].
  - f_equal. apply Hval; by apply dict_of_lookup_item.
  - apply dict_of_lookup_None in Hb. rewrite <- Hkeys in Hb.
    apply dict_of_lookup_None in Hb. congruence.
  - apply dict_of_lookup_None in Ha. rewrite Hkeys in Ha.
    apply dict_of_lookup_None in Ha. congruence.
Qed.

(** X20: final-batches.py and small-batch-import.py map every country to one
    of the seven labels.  power-import.py maps Japan to ["Japan"], which is
    no region label, and every other country to the region final-push.py
    gives it. *)
Theorem power_import_japan (country : string) :
  FinalBatches.map_regions country ∈ region_labels
  ∧ SmallBatchImport.map_regions country ∈ region_labels
  ∧ (PowerImport.map_regions country ∈ region_labels ↔ country ≠ "Japan")
  ∧ (country ≠ "Japan" →
     PowerImport.map_regions country = FinalPush.map_regions country).
Proof.
  assert (country ≠ "Japan" →
          PowerImport.map_regions country = FinalPush.map_regions country)
    as Hsame.
  { intros Hcountry.
    unfold PowerImport.map_regions, FinalPush.map_regions, dict_get.
    unfold PowerImport.region_mapping, FinalPush.region_mapping.
    rewrite (dict_of_same_keys PowerImport.region_items
               FinalPush.region_items country); [done|done|].
    assert (Forall (λ x : string * string,
                      Forall (λ y : string * string,
                                x.1 = y.1 → x.1 = "Japan" ∨ x.2 = y.2)
                             FinalPush.region_items)
                   PowerImport.region_items) as Hitems
      by (apply (bool_decide_unpack _); by vm_compute).
    intros v w Hv Hw. rewrite Forall_forall in Hitems.
    specialize (Hitems _ Hv). rewrite Forall_forall in Hitems.
    by destruct (Hitems _ Hw eq_refl). }
  split; [|split; [|split; [split|exact Hsame]]].
  - apply dict_get_labelled. apply (bool_decide_unpack _). by vm_compute.
  - apply dict_get_labelled. apply (bool_decide_unpack _). by vm_compute.
  - intros Hlab ->. revert Hlab. apply (bool_decide_eq_false_1 _).
    by vm_compute.
  - intros Hcountry. rewrite (Hsame Hcountry).
    apply dict_get_labelled. apply (bool_decide_unpack _). by vm_compute.
Qed.

(** X21: The tables of batch-import-cities.py, continue-import.py,
    massive-import.py and import-cities.py list different countries, and
    never give one country two regions: a row gets the same region from any
    two of the scripts, unless one of them leaves its country to
    ["Other"]. *)
Theorem region_tables_agree :
  agree BatchImport.map_regions ContinueImport.map_regions
  ∧ agree BatchImport.map_regions MassiveImport.map_regions
  ∧ agree BatchImport.map_regions ImportCities.map_regions
  ∧ agree ContinueImport.map_regions MassiveImport.map_regions
  ∧ agree ContinueImport.map_regions ImportCities.map_regions
  ∧ agree MassiveImport.map_regions ImportCities.map_regions.
Proof.
  repeat split; apply dict_get_agree; apply (bool_decide_unpack _);
    by vm_compute.
Qed.

End RegionProperties.

Module ImportProperties.
Import Py Db Vocabulary RunVocabulary PyFacts
       StripFacts SinkFacts LoadFacts RegionProperties StartupClaims.

Section Refresh.
Context `{PF : PyFloat}.

(** [row.iloc[0]] and [row.iloc[1]] want two columns. *)
Lemma import_short_row (row : RawRecord) :
  (List.length row < 2)%nat → ImportCities.process_row row = Raise IndexError.
Proof.
  destruct row as [|[k v] [|[k' v'] row]]; simpl; [done|done|lia].
Qed.

Lemma import_collect_raises (rows : list RawRecord)
    (cities_data : list city_tuple) :
  Exists (λ row, ∃ e, ImportCities.process_row row = Raise e) rows →
  ∃ e, ImportCities.collect rows cities_data = Raise e.
Proof.
  intros Hrows. revert cities_data.
  induction Hrows as [row rows [e He]|row rows _ IH]; intros cities_data;
    simpl.
  - rewrite He. eauto.
  - destruct (ImportCities.process_row row) as [t| |e]; eauto.
Qed.

(** X22: Nothing in the row loop of [import_cities_data] catches an exception:
    one row that raises -- a row with fewer than two columns, say -- ends the
    import, wherever the row stands, and the database stays as it was. *)
Theorem import_bad_row_aborts (df : list RawRecord) (db : database) :
  Exists (λ row, (List.length row < 2)%nat
                 ∨ ∃ e, ImportCities.process_row row = Raise e) df →
  ImportCities.main df db = Aborted db.
Proof.
  intros Hdf.
  assert (Exists (λ row, ∃ e, ImportCities.process_row row = Raise e) df)
    as Hraise.
  { eapply Exists_impl; [exact Hdf|]. simpl.
    intros row [Hshort|Hrow]; [|done]. eauto using import_short_row. }
  unfold ImportCities.main, ImportCities.import_cities_data.
  destruct (import_collect_raises df [] Hraise) as [e ->].
  by destruct db.
Qed.

Lemma step_bind_val {A B : Type} (m : step A) (f : A → step B) (b : B) :
  m ≫= f = Val b → ∃ a, m = Val a ∧ f a = Val b.
Proof. destruct m as [a| |e]; simpl; [eauto|done..]. Qed.

Lemma import_region_label (country : string) :
  ImportCities.map_regions country ∈ region_labels.
Proof.
  apply dict_get_labelled. apply (bool_decide_unpack _). by vm_compute.
Qed.

(** X23: Every tuple the row loop of [import_cities_data] emits: a name and a
    country without whitespace at their ends, one of the seven regions, no
    time zone, not a capital. *)
Theorem import_row_invariants (row : RawRecord) (t : city_tuple) :
  ImportCities.process_row row = Val t →
  stripped (name t) ∧ stripped (country t)
  ∧ region t = ImportCities.map_regions (country t)
  ∧ region t ∈ region_labels
  ∧ timezone t = None ∧ is_capital t = false.
Proof.
  unfold ImportCities.process_row.
  destruct (iloc row 0) as [first| |]; simpl; [|done..].
  destruct (iloc row 1) as [second| |]; simpl; [|done..].
  destruct (isna _ || isna _); [done|]. intros Hrow.
  apply step_bind_val in Hrow as (population & _ & Hrow).
  apply step_bind_val in Hrow as (latitude & _ & Hrow).
  apply step_bind_val in Hrow as (longitude & _ & Hrow).
  injection Hrow as <-. simpl.
  repeat split; try apply strip_idemp. apply import_region_label.
Qed.

Lemma insert_ok_fits (b : bool) (t : city_tuple) (c c' : connection) :
  insert b t c = Ok tt c' → int4_ok (population t) = true.
Proof. unfold insert. by destruct (int4_ok (population t)). Qed.

Lemma executemany_ok_fits (b : bool) (data : list city_tuple)
    (c c' : connection) :
  executemany b data c = Ok tt c' → fits data.
Proof.
  revert c. induction data as [|t data IH]; intros c; simpl.
  - constructor.
  - destruct (insert b t c) as [[] c1|e c1] eqn:Hins; [|done].
    intros Hrest. constructor; [by eapply insert_ok_fits|by eapply IH].
Qed.

(** A run of import-cities.py that completes leaves the emitted tuples,
    numbered from the sequence. *)
Lemma import_main_completed (df : list RawRecord) (db db1 : database) :
  ImportCities.main df db = Completed db1 →
  ∃ cities_data,
    ImportCities.collect df [] = Val cities_data ∧ fits cities_data
    ∧ db1 = {| table := number_rows (next_id db) cities_data;
               next_id := next_id db + Z.of_nat (List.length cities_data) |}.
Proof.
  unfold ImportCities.main, ImportCities.import_cities_data.
  pose proof (import_collect_not_continue df []) as Hloop.
  destruct (ImportCities.collect df []) as [cities_data| |e]; [|done..].
  set (conn := delete_all (ImportCities.create_cities_table (connect db))).
  assert (ids_below_seq conn) as Hconn by constructor.
  destruct (executemany false cities_data conn) as [[] c|e c] eqn:Hexec;
    [|done].
  intros [= <-]. exists cities_data. split; [done|].
  split; [by eapply executemany_ok_fits|].
  by rewrite (executemany_ok_fresh false cities_data conn c Hconn Hexec).
Qed.

Lemma import_main_fresh (df : list RawRecord) (db : database)
    (cities_data : list city_tuple) :
  ImportCities.collect df [] = Val cities_data → fits cities_data →
  ImportCities.main df db
  = Completed {| table := number_rows (next_id db) cities_data;
                 next_id := next_id db + Z.of_nat (List.length cities_data) |}.
Proof.
  intros Hdata Hfit.
  unfold ImportCities.main, ImportCities.import_cities_data. rewrite Hdata.
  set (conn := delete_all (ImportCities.create_cities_table (connect db))).
  assert (ids_below_seq conn) as Hconn by constructor.
  by rewrite (executemany_fresh false cities_data conn Hconn Hfit).
Qed.

(** X24: import-cities.py refreshes the table: a second run on the same sheet
    completes like the first and leaves the same cities in the same order,
    once each, under new ids. *)
Theorem import_twice_same_rows (df : list RawRecord) (db db1 : database) :
  ImportCities.main df db = Completed db1 →
  ∃ db2, ImportCities.main df db1 = Completed db2
         ∧ fields <$> table db2 = fields <$> table db1
         ∧ Forall (λ r, next_id db1 ≤ id r) (table db2).
Proof.
  intros Hfirst.
  destruct (import_main_completed df db db1 Hfirst)
    as (cities_data & Hdata & Hfit & ->).
  rewrite (import_main_fresh df _ cities_data Hdata Hfit).
  eexists. split; [done|]. cbn [table next_id].
  rewrite !fields_number_rows. split; [done|].
  eapply Forall_impl; [apply number_rows_ids|]. simpl. intros r ?. lia.
Qed.

End Refresh.
End ImportProperties.

Module ErrorProperties.
Import Py Db Vocabulary RunVocabulary PyFacts SiblingFacts RowFacts
       BatchImportFacts LoaderClaims SliceFacts LoopFacts ResumeClaims.

Section Errors.
Context `{PF : PyFloat}.

(** X5: An exception of [int(float(...))] that is neither a [ValueError] nor a
    [TypeError] -- the [OverflowError] of an infinite population -- on a row
    that has a name and a country: [process_batch] of
    batch-import-cities.py, which catches those two around the population,
    loses the row to its outer [except] and counts it as skipped; the row
    loops with [except: continue] around the population drop the row; the
    row loops with [except: pass] emit it without a population. *)
Theorem uncaught_population_error (map_regions : string → string)
    (row : RawRecord) (city country : string) (pv cv : cell) (e : exn) :
  text_column row "Name" = Val (Some city) → city ≠ "" →
  text_column row "Country name EN" = Val (Some country) → country ≠ "" →
  assoc "Population" row = Some pv → notna pv = true →
  int_float pv = Raise e →
  existsb (exn_eqb e) [ValueError; TypeError] = false →
  assoc "Coordinates" row = Some cv →
  BatchImport.process_row row = Raise e
  ∧ (∀ cities_data processed skipped,
       BatchImport.row_turn (cities_data, processed, skipped) row
       = (cities_data, processed, S skipped))
  ∧ BatchRows.process_row map_regions Continue row = Continue
  ∧ ∃ t, BatchRows.process_row map_regions (Val tt) row = Val t
         ∧ name t = city ∧ Db.country t = country ∧ population t = None.
Proof.
  intros Hname Hcity Hcountry Hc Hpv Hna Hint Hexn Hcv.
  assert (BatchImport.process_row row = Raise e) as Hrow.
  { rewrite process_row_bind, Hname, Hcountry, parse_population_cases.
    by rewrite Hpv, Hna, Hint, Hexn. }
  split; [exact Hrow|]. split; [|split].
  - intros cities_data processed skipped. unfold BatchImport.row_turn.
    by rewrite Hrow.
  - rewrite batch_row_steps, Hname, Hcountry.
    rewrite !truthy_str_nonempty by done. simpl.
    by rewrite Hpv, Hna, population_block_outcome, Hint.
  - rewrite batch_row_steps, Hname, Hcountry.
    rewrite !truthy_str_nonempty by done. simpl.
    rewrite Hpv, Hna, population_block_outcome, Hint, Hcv. simpl.
    eexists. split; [done|]. done.
Qed.

(** The totals of the batch loop, step by step. *)
Lemma batch_loop_counts (df : list RawRecord) (s m : Z) (l : list Z)
    (c c' : connection) (tp ts tp' ts' : nat) (batch_num : Z) :
  batch_num ≤ m →
  BatchImport.batch_loop df s m l c tp ts batch_num = Ok (tp', ts') c' →
  let rows := List.concat (map (λ i, slice df i (i + s))
                               (take (Z.to_nat (m - batch_num + 1)) l)) in
  tp' = (tp + List.length (emitted_rows BatchImport.process_row rows))%nat
  ∧ (tp' + ts')%nat = (tp + ts + List.length rows)%nat.
Proof.
  revert c tp ts batch_num.
  induction l as [|i l IH]; intros c tp ts batch_num Hnum.
  - rewrite take_nil. simpl. intros [= <- <- _]. lia.
  - replace (Z.to_nat (m - batch_num + 1))
      with (S (Z.to_nat (m - batch_num))) by lia.
    cbn [take map List.concat BatchImport.batch_loop].
    destruct (BatchImport.process_batch c (slice df i (i + s)) batch_num)
      as [[processed skipped] c1|e c1] eqn:Hbatch; [|done].
    apply process_batch_returns in Hbatch as [Hp Hs].
    rewrite batch_collect_emitted in Hp.
    rewrite emitted_rows_app, !length_app.
    destruct (Z.gtb_spec (batch_num + 1) m) as [Hlast|Hmore].
    + replace (Z.to_nat (m - batch_num)) with 0%nat by lia.
      intros [= <- <- _]. simpl. lia.
    + intros Hrest. apply IH in Hrest; [|lia].
      replace (Z.to_nat (m - (batch_num + 1) + 1))
        with (Z.to_nat (m - batch_num)) in Hrest by lia.
      simpl in Hrest. lia.
Qed.

(** X6: The totals that [main] of batch-import-cities.py prints: the rows it
    visited are the first [max_batches * batch_size] of the sheet,
    [total_processed] is the number of tuples they emitted and
    [total_skipped] the number of the other rows. *)
Theorem batch_totals_count_rows (df : list RawRecord)
    (batch_size max_batches : Z) (conn c' : connection)
    (total_processed total_skipped : nat) :
  0 < batch_size → 1 ≤ max_batches →
  BatchImport.batch_loop df batch_size max_batches
    (py_range 0 (Z.of_nat (List.length df)) batch_size) conn 0 0 1
  = Ok (total_processed, total_skipped) c' →
  total_processed
  = List.length (emitted_rows BatchImport.process_row
                   (slice df 0 (max_batches * batch_size)))
  ∧ (total_processed + total_skipped)%nat
    = List.length (slice df 0 (max_batches * batch_size))
  ∧ Z.of_nat (List.length (slice df 0 (max_batches * batch_size)))
    = Z.min (Z.of_nat (List.length df)) (max_batches * batch_size).
Proof.
  intros Hs Hm Hloop. apply batch_loop_counts in Hloop; [|done].
  rewrite take_py_range in Hloop by done.
  replace (Z.of_nat (Z.to_nat (max_batches - 1 + 1))) with max_batches
    in Hloop by lia.
  assert (Z.min (0 + max_batches * batch_size) (Z.of_nat (List.length df))
          = Z.of_nat (List.length df)
          ∨ ∃ m, 0 ≤ m
                 ∧ Z.min (0 + max_batches * batch_size)
                         (Z.of_nat (List.length df)) = 0 + m * batch_size)
    as Hstop.
  { destruct (Z.le_gt_cases (0 + max_batches * batch_size)
                            (Z.of_nat (List.length df))).
    - right. exists max_batches. lia.
    - left. lia. }
  rewrite (chunks_py_range df 0 _ batch_size) in Hloop by (lia || exact Hstop).
  rewrite Z.add_0_l, slice_min in Hloop by lia. simpl in Hloop.
  split; [lia|]. split; [lia|].
  rewrite slice_nonneg by nia. rewrite length_take, length_drop. lia.
Qed.

End Errors.
End ErrorProperties.

(** ** Resuming a run *)

Module ResumeEquivalence.
Import Py Db Dec Vocabulary RunVocabulary PyFacts SinkFacts LoadFacts
       SliceFacts LoopFacts RunFacts ResumeClaims Examples RunExamples.

Section Rerun.
Context `{PF : PyFloat}.













End Rerun.


End ResumeEquivalence.

(** ** The theorems at concrete rows *)

Module Witnesses.
Import Py Db Dec Vocabulary Examples.


(** C4 on the row of Lyon, whose population cell reads ["n/a"]. *)
Lemma population_parse_policy_witness :
  ∃ t, BatchImport.process_row lyon = Val t
       ∧ name t = "Lyon" ∧ country t = "France" ∧ population t = None.
Proof.
  apply (proj1 (NormalizerClaims.population_parse_policy (PF := dec_float))
               lyon "Lyon" "France" (CStr "n/a") (CStr "45.76,4.84")
               ValueError);
    first [reflexivity | discriminate].
Defined.

(** C6 on the three rows of the end-to-end scenario and the empty table. *)
Lemma process_batch_counts_submitted_witness :
  ∃ c', BatchImport.process_batch (connect empty_db)
          [springfield; smallville; unknown_city] 1
        = Ok (2%nat, 1%nat) c'
        ∧ working c'
          = number_rows 1
              [tuple_of "Springfield" "United States" "North America"
                        (Some 1500) (Some (Fin 3978 (-2)))
                        (Some (Fin (-8965) (-2)));
               tuple_of "Unknown City" "Nowhereland" "Other" (Some 5000)
                        None None]
        ∧ count c' = 2%nat.
Proof.
  apply (LoaderClaims.process_batch_counts_submitted (connect empty_db)
           [springfield; smallville; unknown_city] 1).
  - constructor.
  - apply (bool_decide_unpack _). reflexivity.
Defined.

(** C7 on a row whose coordinates read ["500,-500"]. *)
Lemma coordinates_stored_as_parsed_witness :
  ∃ v, assoc "Coordinates" far_away = Some v
       ∧ match coordinate_pair v with
         | Some (x, y) => Some (Fin 500 0) = Some x ∧ Some (Fin (-500) 0) = Some y
         | None => Some (Fin 500 0) = None ∧ Some (Fin (-500) 0) = None
         end.
Proof.
  apply (FilterClaims.coordinates_stored_as_parsed far_away
           (tuple_of "Nowhere" "Chile" "South America" None
                     (Some (Fin 500 0)) (Some (Fin (-500) 0)))).
  reflexivity.
Defined.

(** C9 on a row whose name is three spaces, between two rows that are
    stored. *)
Lemma required_field_drop_witness :
  missing_or_blank nameless "Name"
  ∧ (∀ t, BatchImport.process_row nameless ≠ Val t)
  ∧ BatchImport.collect ([springfield] ++ nameless :: [unknown_city])
    = ((BatchImport.collect [springfield]).1.1
       ++ (BatchImport.collect [unknown_city]).1.1,
       ((BatchImport.collect [springfield]).1.2
        + (BatchImport.collect [unknown_city]).1.2)%nat,
       S ((BatchImport.collect [springfield]).2
          + (BatchImport.collect [unknown_city]).2)).
Proof.
  assert (missing_or_blank nameless "Name") as Hblank by (right; reflexivity).
  destruct (BatchImportFacts.required_field_drop nameless (or_introl Hblank))
    as [Hdrop Hcount].
  split; [exact Hblank|]. split; [exact Hdrop|].
  exact (Hcount [springfield] [unknown_city]).
Defined.

End Witnesses.

(** ** The properties of the runs at concrete rows *)

Module RunWitnesses.
Import Py Db Dec Vocabulary RunVocabulary Examples RunExamples.

(** X1 on the row of Springfield. *)
Lemma batch_import_row_invariants_witness :
  name springfield_tuple ≠ "" ∧ stripped (name springfield_tuple)
  ∧ country springfield_tuple ≠ "" ∧ stripped (country springfield_tuple)
  ∧ region springfield_tuple
    = BatchImport.map_regions (country springfield_tuple)
  ∧ region springfield_tuple ∈ region_labels
  ∧ (∀ z, population springfield_tuple = Some z → z = 0 ∨ 1000 ≤ z)
  ∧ (latitude springfield_tuple = None ↔ longitude springfield_tuple = None)
  ∧ timezone springfield_tuple = None
  ∧ is_capital springfield_tuple = false.
Proof.
  apply (RowProperties.batch_import_row_invariants springfield
           springfield_tuple).
  reflexivity.
Defined.

(** X2 on the row of Springfield, in the row loop of final-push.py. *)
Lemma shared_row_invariants_witness :
  name springfield_tuple ≠ "" ∧ stripped (name springfield_tuple)
  ∧ country springfield_tuple ≠ "" ∧ stripped (country springfield_tuple)
  ∧ region springfield_tuple
    = FinalPush.map_regions (country springfield_tuple)
  ∧ (∀ z, population springfield_tuple = Some z → 1000 ≤ z)
  ∧ (is_Some (longitude springfield_tuple)
     → is_Some (latitude springfield_tuple))
  ∧ timezone springfield_tuple = None
  ∧ is_capital springfield_tuple = false.
Proof.
  apply (RowProperties.shared_row_invariants FinalPush.map_regions Continue
           springfield springfield_tuple).
  reflexivity.
Defined.

(** X5 on the row of Colossus, whose population reads ["inf"]. *)
Lemma uncaught_population_error_witness :
  BatchImport.process_row colossus = Raise OverflowError
  ∧ (∀ cities_data processed skipped,
       BatchImport.row_turn (cities_data, processed, skipped) colossus
       = (cities_data, processed, S skipped))
  ∧ BatchRows.process_row FinalPush.map_regions Continue colossus = Continue
  ∧ ∃ t, BatchRows.process_row FinalPush.map_regions (Val tt) colossus = Val t
         ∧ name t = "Colossus" ∧ country t = "Atlantis"
         ∧ population t = None.
Proof.
  apply (ErrorProperties.uncaught_population_error (PF := dec_float)
           FinalPush.map_regions colossus "Colossus" "Atlantis" (CStr "inf")
           CNaN OverflowError);
    first [reflexivity | discriminate].
Defined.

(** X6 on the first two batches of 20 of the hundred sample rows: the
    cities of rows 10 to 39 have 1000 inhabitants or more. *)
Lemma batch_totals_count_rows_witness :
  30%nat
  = List.length (emitted_rows BatchImport.process_row
                   (slice hundred_rows 0 (2 * 20)))
  ∧ (30 + 10)%nat = List.length (slice hundred_rows 0 (2 * 20))
  ∧ Z.of_nat (List.length (slice hundred_rows 0 (2 * 20)))
    = Z.min (Z.of_nat (List.length hundred_rows)) (2 * 20).
Proof.
  apply (ErrorProperties.batch_totals_count_rows hundred_rows 20 2
           (connect empty_db)
           (appended (connect empty_db)
              (emitted_rows BatchImport.process_row
                 (slice hundred_rows 0 40)))
           30%nat 10%nat); [lia|lia|reflexivity].
Defined.

(** X7 on the three rows of the end-to-end scenario and the empty table. *)
Lemma batch_commits_or_rolls_back_witness :
  match BatchImport.process_batch (connect empty_db)
          [springfield; smallville; unknown_city] 1 with
  | Ok _ c' =>
      fits (emitted_rows BatchImport.process_row
              [springfield; smallville; unknown_city])
      ∧ settled c'
      ∧ (∃ new, committed c' = committed (connect empty_db) ++ new
                ∧ fields <$> new
                  `sublist_of` emitted_rows BatchImport.process_row
                                 [springfield; smallville; unknown_city])
      ∧ (ids_below_seq (connect empty_db) →
         c' = appended (connect empty_db)
                (emitted_rows BatchImport.process_row
                   [springfield; smallville; unknown_city]))
  | Err e c' =>
      ¬ fits (emitted_rows BatchImport.process_row
                [springfield; smallville; unknown_city])
      ∧ e = DatabaseError
      ∧ table (close c') = table (close (connect empty_db))
  end.
Proof.
  apply (SinkProperties.batch_commits_or_rolls_back (connect empty_db)
           [springfield; smallville; unknown_city] 1).
  reflexivity.
Defined.

(** X9 on the rows 40 to 80 of the hundred sample rows, in batches of 20. *)
Lemma massive_run_loads_range_witness :
  MassiveImport.run 20 40 2 hundred_rows empty_db
  = Completed
      (append_rows empty_db
         (emitted_rows MassiveImport.process_row
            (slice hundred_rows 40 (40 + 2 * 20)))).
Proof.
  apply (RunProperties.massive_run_loads_range 20 40 2 hundred_rows empty_db);
    [lia|lia|lia|constructor|].
  unfold fits. apply (bool_decide_unpack _). reflexivity.
Defined.

(** X10 on the batches 3 to 5 of 20 rows. *)
Lemma continue_run_loads_range_witness :
  ContinueImport.run 20 3 6 hundred_rows empty_db
  = Completed
      (append_rows empty_db
         (emitted_rows ContinueImport.process_row
            (slice hundred_rows ((3 - 1) * 20) ((6 - 1) * 20)))).
Proof.
  apply (RunProperties.continue_run_loads_range 20 3 6 hundred_rows empty_db);
    [lia|lia|lia|constructor|].
  unfold fits. apply (bool_decide_unpack _). reflexivity.
Defined.

(** X11 on the table that holds Oslo, whose population is unknown. *)
Lemma batch_main_loads_range_witness :
  BatchImport.main_with 20 2 hundred_rows oslo_db
  = Completed
      (append_rows (cleared oslo_db)
         (emitted_rows BatchImport.process_row
            (slice hundred_rows 0 (2 * 20)))).
Proof.
  apply (RunProperties.batch_main_loads_range 20 2 hundred_rows oslo_db);
    [lia|lia| |].
  - repeat constructor.
  - unfold fits. apply (bool_decide_unpack _). reflexivity.
Defined.

(** X12 on a run of final-push.py from row 30 on, which the end of the
    sheet stops after four of its five batches. *)
Lemma capped_run_loads_range_witness :
  FinalPush.run 20 30 5 hundred_rows empty_db
  = Completed
      (append_rows empty_db
         (emitted_rows FinalPush.process_row
            (slice hundred_rows 30 (30 + 5 * 20)))).
Proof.
  apply (RunProperties.capped_run_loads_range FinalPush.process_row 20 30 5
           hundred_rows empty_db); [lia|lia|lia|constructor|].
  unfold fits. apply (bool_decide_unpack _). reflexivity.
Defined.

(** X13 on a run of continue-next-batches.py. *)
Lemma ranged_run_loads_range_witness :
  ContinueNextBatches.run 20 30 2 hundred_rows empty_db
  = Completed
      (append_rows empty_db
         (emitted_rows ContinueNextBatches.process_row
            (slice hundred_rows 30 (30 + 2 * 20)))).
Proof.
  apply (RunProperties.ranged_run_loads_range ContinueNextBatches.process_row
           20 30 2 hundred_rows empty_db); [lia|lia|lia|constructor|].
  unfold fits. apply (bool_decide_unpack _). reflexivity.
Defined.

(** X14 on a run of complete-import.py limited to three batches. *)
Lemma limited_run_loads_range_witness :
  CompleteImport.run 20 10 3 hundred_rows empty_db
  = Completed
      (append_rows empty_db
         (emitted_rows CompleteImport.process_row
            (slice hundred_rows 10 (10 + 3 * 20)))).
Proof.
  apply (RunProperties.limited_run_loads_range CompleteImport.process_row
           20 10 3 hundred_rows empty_db); [lia|lia|lia|constructor|].
  unfold fits. apply (bool_decide_unpack _). reflexivity.
Defined.

(** X15 with the row loop of comprehensive-import.py. *)
Lemma loop_styles_agree_witness :
  BatchRows.capped_run ComprehensiveImport.process_row 20 30 5 hundred_rows
                       empty_db
  = BatchRows.ranged_run ComprehensiveImport.process_row 20 30 5 hundred_rows
                         empty_db
  ∧ BatchRows.limited_run ComprehensiveImport.process_row 20 30 5
                          hundred_rows empty_db
    = BatchRows.ranged_run ComprehensiveImport.process_row 20 30 5
                           hundred_rows empty_db.
Proof.
  apply (RunProperties.loop_styles_agree ComprehensiveImport.process_row
           20 30 5 hundred_rows empty_db); lia.
Defined.

(** X16 in batches of 20 rows. *)
Lemma massive_continue_are_ranged_witness :
  MassiveImport.run 20 40 2 hundred_rows empty_db
  = BatchRows.ranged_run MassiveImport.process_row 20 40 2 hundred_rows
                         empty_db
  ∧ ContinueImport.run 20 3 6 hundred_rows empty_db
    = BatchRows.ranged_run ContinueImport.process_row 20 ((3 - 1) * 20)
                           (6 - 3) hundred_rows empty_db.
Proof.
  assert (0 < 20) as Hbs by lia.
  destruct (RunProperties.massive_continue_are_ranged 20 hundred_rows empty_db
              Hbs) as [Hmassive Hcontinue].
  split; [apply Hmassive|apply Hcontinue]; lia.
Defined.

(** X17 on two runs of final-push.py, of two and of three batches. *)
Lemma chained_runs_add_up_witness :
  FinalPush.run 20 (0 + 2 * 20) 3 hundred_rows
    (final_db (FinalPush.run 20 0 2 hundred_rows empty_db))
  = FinalPush.run 20 0 (2 + 3) hundred_rows empty_db
  ∧ BatchRows.ranged_run FinalPush.process_row 20 (0 + 2 * 20) 3 hundred_rows
      (final_db (FinalPush.run 20 0 2 hundred_rows empty_db))
    = BatchRows.ranged_run FinalPush.process_row 20 0 (2 + 3) hundred_rows
                           empty_db.
Proof.
  assert (0 ≤ 0) as Ha by lia. assert (0 < 20) as Hbs by lia.
  assert (0 ≤ 2) as Hm1 by lia. assert (0 ≤ 3) as Hm2 by lia.
  destruct (RunProperties.chained_runs_add_up FinalPush.process_row 20 0 2 3
              hundred_rows empty_db
              (final_db (FinalPush.run 20 0 2 hundred_rows empty_db))
              Ha Hbs Hm1 Hm2) as [Hcapped Hranged].
  split; [apply Hcapped|apply Hranged]; reflexivity.
Defined.

(** X22 on a sheet whose second row has an infinite population. *)
Lemma import_bad_row_aborts_witness :
  ImportCities.main [import_lyon; import_colossus; import_kyoto] oslo_db
  = Aborted oslo_db.
Proof.
  apply (ImportProperties.import_bad_row_aborts
           [import_lyon; import_colossus; import_kyoto] oslo_db).
  apply Exists_cons_tl, Exists_cons_hd. right. exists OverflowError.
  reflexivity.
Defined.

(** X23 on the row of Lyon, whose name is padded. *)
Lemma import_row_invariants_witness :
  stripped "Lyon" ∧ stripped "France"
  ∧ "Europe" = ImportCities.map_regions "France"
  ∧ "Europe" ∈ region_labels
  ∧ @None string = None ∧ false = false.
Proof.
  apply (ImportProperties.import_row_invariants import_lyon
           (tuple_of "Lyon" "France" "Europe" (Some 500000) None None)).
  reflexivity.
Defined.

(** X24 on a sheet of two rows and the table that holds Oslo. *)
Lemma import_twice_same_rows_witness :
  ∃ db2,
    ImportCities.main [import_lyon; import_kyoto]
      (final_db (ImportCities.main [import_lyon; import_kyoto] oslo_db))
    = Completed db2
    ∧ fields <$> table db2
      = fields <$> table (final_db (ImportCities.main
                                      [import_lyon; import_kyoto] oslo_db))
    ∧ Forall (λ r, next_id (final_db (ImportCities.main
                                        [import_lyon; import_kyoto] oslo_db))
                   ≤ id r) (table db2).
Proof.
  apply (ImportProperties.import_twice_same_rows [import_lyon; import_kyoto]
           oslo_db).
  reflexivity.
Defined.

End RunWitnesses.
